(* ===== verification/_CoqProject ===== *)
-Q . S2P
Prelude.v
Json.v
Store.v
Calendar.v
Sync.v
Concurrency.v
Monthly.v
Crud.v
Update.v
Users.v
Regex.v
Validation.v
Routing.v
App.v
Schema.v
Startup.v
Server.v
