(* ===== verification/Prelude.v ===== *)
(** * A verification development of the Expense-manager backend

    The repository is a small Express + Mongoose (MongoDB) API written in
    TypeScript (src/src/).  Its parts, and how they interact:

    - [models/Expense.ts], [models/User.ts]: the Mongoose schemas.  The
      Expense schema declares the field types (which drive Mongoose's
      casting), the required fields, and the unique index on
      [(userId, date)] that the whole synchronisation logic relies on.
    - [controllers/expense.controller.ts]: the request handlers.  All of
      them receive the authenticated user id [req.user.id] (set by an
      authentication middleware that is not part of src/) and act on the
      Expense collection: [createExpense], [getUserExpenses],
      [getMonthlyExpenses] (an aggregation pipeline), [syncExpenses] (the
      batch reconciliation of SMS transactions), [getExpenseById],
      [updateExpense], [deleteExpense].
    - [controllers/user.controller.ts]: sign-up and log-in.
    - [routes/*.ts], [app.ts]: routing tables and middleware.
    - [server.ts], [loaders/mongoose.ts]: process start-up: connect to
      MongoDB, then start the HTTP server on [PORT].
    - [utils/validation.ts], [utils/logger.ts]: helpers (the validators
      are not called by any handler).

    ** Files of the development, in dependency order

    - [Prelude] (this file): the error monad [res] with its bind notation
      in [expense_scope], decimal printing of integers ([string_of_Z], the
      JavaScript [String(n)] / template-literal conversion for integers),
      generic lemmas on [List.filter] and on [res], the [expense] hint
      database and the development's tactics.
    - [Json]: the JSON values a request body holds after [express.json()]
      ([jsval]), JavaScript truthiness and [||], property access (which
      throws a [TypeError] on [null]), and [new Date(v).getTime()] with
      the ECMAScript TimeClip range check.  String date parsing is the
      JavaScript library's ([Date.parse]); it is an interface, the class
      [DateParse], and every theorem holds for every instance.
    - [Store]: the Expense document ([expense]), the collection as an
      explicit state ([db]: the documents in natural order and the
      ObjectId counter), Mongoose's casting and validation of a document
      ([cast_expense]), the unique index, and the collection operations
      the controllers call ([insert_one], [insert_many] with MongoDB's
      ordered semantics: validate all, then insert in order and stop at
      the first duplicate key, keeping the documents already written).
      The invariant [db_wf] (unique [(userId, date)], unique and fresh
      ids) and its preservation by every operation.
    - [Calendar]: MongoDB's [$year] and [$month] on a date (UTC civil
      date from milliseconds since the epoch) and the bounds that make
      [monthNames[month - 1]] defined.
    - [Sync]: [syncExpenses], the whole handler: the request validation,
      the timestamp normalisation, the existing-timestamp query, the
      partition, the document construction with its defaults, the
      conditional [insertMany] and the response (or the [catch]).
    - [Concurrency]: [syncExpenses] split at its [await]s (the query,
      and the ordered [insertMany] one document per step, since MongoDB
      lets other writes in between) and schedules that interleave any
      number of sync requests on the collection ([run_schedule]).
    - [Monthly]: [getMonthlyExpenses]: [$match], [$group], [$sort] and the
      "Month Year" formatting, and an abstract specification of the
      report that the pipeline refines.
    - [Crud]: the per-document handlers [createExpense] (save of a new
      document), [getUserExpenses] (find and sort by date descending),
      [getExpenseById] and [deleteExpense] (lookup restricted to the
      owner), with the [:id] parameter either a well-formed ObjectId or a
      malformed string that makes Mongoose's cast throw; the collections
      equal up to natural order ([db_equiv]) and the operations that
      respect that equivalence.
    - [Update]: [updateExpense]: the cast of the body's plain keys as a
      [$set] and the update validators ([cast_update]), MongoDB's
      [findOneAndUpdate] on the caller's document ([find_one_and_update]:
      immutable [_id], unique index, replacement in place).  The ObjectId
      cast of a JSON value is an interface, the class [ObjectIdCast].
    - [Users]: the User collection ([udb], unique [email]) and the
      handlers [createUser] and [loginUser]; [bcrypt.compare], [jwt.sign]
      and the query layer's treatment of an undefined filter value are
      interfaces (the classes [Bcrypt], [JwtSign], [UndefinedFilter]).
    - [Regex]: regular expressions anchored at both ends with lookaheads
      at the start, their language ([in_re]) and a matcher by Brzozowski
      derivatives ([matches]) proved to decide it; it stands for
      [RegExp.prototype.test] on such patterns.
    - [Validation]: [validateEmail], [validatePassword], [sanitizeInput]
      and [validateName] of utils/validation.ts.
    - [Routing]: the route tables of routes/*.ts and their mounts in
      app.ts, with Express's matching (in order, case-insensitive,
      non-strict, [:id] parameters, [HEAD] by [GET] routes, the [cors()]
      preflight) as [dispatch]; and the specification's HTTP table
      ([spec_route]).
    - [App]: the whole server as a state machine: the state is both
      collections, [serve] routes a request, applies [authMiddleware]
      (not in the repository; the class [AuthVerify], after the
      specification) and runs the handler; [reachable] is the set of
      states of any request sequence from the empty database.
    - [Schema]: the schemas of models/Expense.ts and models/User.ts as
      data (paths, SchemaTypes, [required]), the documents as MongoDB
      stores them, and the schema check [conforms] (types, required
      paths, strict mode).
    - [Startup]: the process as an interaction tree (ITree).
      [startServer] of server.ts with [connectDB] of loaders/mongoose.ts
      and the [logger] of utils/logger.ts is a tree of start-up events
      (the connection, the bind, console lines, [process.exit]); the HTTP
      server that [app.listen] starts is [serve_loop], an [ITree.iter]
      over the database state that receives a request, answers it with
      [App.serve] and waits for the next; [server] is start-up followed
      by that loop.  [process.env] is a [gmap string string]; [Number()]
      is the class [StringToNumber].  [run_start] interprets start-up in
      a [world] of answers of MongoDB and the operating system.
    - [Server]: the whole server under Node's interleaving: any number
      of requests of any kind in flight ([req_phase]), a sync taking the
      steps of [Concurrency] and every other request one atomic step
      ([App.serve]: its handler makes a single collection call), and a
      schedule ordering the steps ([run_server]).

    ** Theorems, by group

    - Store: every operation preserves [db_wf]; [insert_many] writes a
      prefix of its batch and fails exactly at the first duplicate.
    - Sync: a successful sync leaves the unique index intact, never
      removes or changes a stored expense, accounts for every submitted
      transaction, and is idempotent (a repeated sync inserts nothing and
      reports the whole batch as already entered); a batch holding two
      new transactions with one timestamp fails with status 500 although
      the first of them has been written; a malformed body is a 400 that
      leaves the collection unchanged.
    - Concurrency: under every schedule the unique index holds, the ids of stored and
      pending documents stay distinct, and nothing is removed; two syncs
      of one new transaction that both query before either inserts store
      it once and the second gets a 500; two crossed batches can both
      fail with 500 after both were stored.
    - Monthly: the groups are strictly descending by (year, month), and
      the report equals the
      abstract specification (the user's debit expenses partitioned by
      calendar month), computed on an example collection.
    - Calendar: [civil_from_days] is the proleptic Gregorian calendar:
      day 0 is 1970-01-01, every day number is a valid date (29 February
      exactly in leap years) and the next day number is the next
      calendar day; so every month is in [1, 12].
    - Crud: [createExpense] can never succeed (it omits the required
      [date]); [getUserExpenses] returns exactly the caller's expenses in
      strictly descending date order; [getExpenseById] finds exactly the
      caller's document with that id; deleting another user's expense is a
      404 that changes nothing, deleting one's own removes exactly it and
      keeps [db_wf].
    - Update: [updateExpense] keeps [db_wf], touches no document but the
      requested one, changes nothing for a caller who does not own it,
      answers 404 exactly for a valid body and no owned document, keeps
      the paths the body does not name, and applies a [userId] of the
      body, which lets an owner hand an expense to another user.
    - Users: sign-up keeps emails unique and refuses a taken email, and
      stores the client's [passwordHash] as sent; log-in with string
      credentials succeeds exactly for the matching user, with a token
      over that user's id and email; an unknown email is a 400 and a
      non-string password a 500.
    - Regex and Validation: the matcher decides the language; the e-mail
      and password patterns accept exactly the strings their comments
      describe; [sanitizeInput] removes every angle bracket and only
      removes characters (and is not idempotent).
    - Routing: [/monthly] is not shadowed by [/:id]; exactly the expense
      routes carry [authMiddleware]; the router refines the
      specification's HTTP table.
    - App: every reachable state satisfies both invariants (unique
      [(userId, date)], distinct ids, unique emails); no request changes
      or removes an expense of a user other than the one its token
      proves; a request with a rejected token changes no expense.
    - Schema: every reachable state stores only documents that conform
      to their schema (non-empty required strings, valid dates, no
      unknown paths), because every write path casts and validates.
    - Startup: start-up refines a table of outcomes ([start_spec]) in
      every world, so it always ends, after at most four outputs, with the
      server started (exactly when the connection, the port check and the
      bind succeed) or exit code 1; a refused connection ends the
      process inside [connectDB], before [startServer]'s own handler can
      run; the bound port is in [1, 65535] and is 8080 exactly when
      [PORT] is unset, NaN or 0; the whole process is start-up followed
      by the request loop.
    - Server: under every schedule of any requests both invariants hold,
      with the ids of pending documents kept apart; an expense stays
      stored while no request of its owner is in flight; a write that
      takes a new transaction's date between a sync's query and its
      [insertMany] makes the sync fail with 500, and for an update of the
      user's own expense no sequential order gives those answers.

    ** Modelling choices

    - Numbers.  JSON numbers and amounts are integers ([Z]); the source
      uses IEEE doubles, so fractional amounts and floating-point
      rounding of [$sum] are outside the model.  Dates are milliseconds
      since the epoch ([Z]); an invalid date ([NaN]) is [None].
    - ObjectIds are natural numbers drawn from a counter in the state.
    - The [createdAt]/[updatedAt] timestamps of the schemas are not
      modelled: no handler reads them and no status depends on them, but
      the documents in the modelled answers lack these two fields.
    - The HTTP layer is modelled by its result: a status code and a body.
    - Every loop of the code is a traversal of a finite list (the batch,
      the collection, the groups) and is modelled by structural recursion,
      so every handler is a total function.  The only fuel is in the
      decimal printing of a year ([digits_aux]): [N.size_nat n + 1] steps,
      since a number has no more decimal digits than binary ones; the
      lemma [Store.parse_string_of_Z] (parsing reads back what is
      printed) shows that this is enough.  The server itself does not
      terminate: it is an interaction tree built by [ITree.iter].
    - The calendar proof splits a day number into era, year of era and
      day of year symbolically ([lia]); only the 366 days of a year
      starting on 1 March and the 400 years of an era are checked by
      computation ([forall_range]), which keeps the kernel check short.
    - [serve_loop] handles one request at a time.  Concurrent requests
      are [Server]'s: [syncExpenses] is split at its two [await]s and
      inside its [insertMany] ([Concurrency]); every other handler makes
      one collection call (Mongoose's validation before it and
      [loginUser]'s [bcrypt.compare] after it read no collection), so it
      is one atomic step.

    ** Not modelled

    Update bodies with operators ([$unset], ...) or that are not objects,
    log-in emails that are query operators, and the test route, whose
    controller is not in the repository ([updateExpense], [loginUser]
    and [serve] answer [None] for them, and [serve_loop] stops there
    with the event [Unmodelled]); the error middleware (not in the
    repository); invalid JSON bodies; what [dotenv/config] reads from
    the [.env] file (the model starts from the resulting [process.env]);
    Node's own report of an uncaught ['error'] event (the process exits
    with code 1); the response headers [helmet()] and [cors()] add and
    the log line [morgan("dev")] prints for every request (app.ts lines
    15-17: they change no state and no status or body); and bcrypt, JWT
    and [Number()] (libraries the code only calls, interfaces here).
    Mongoose's SchemaNumber cast is modelled for integers written in
    decimal with an optional sign only: strings such as ['12.5'],
    [' 12'], ['1e3'] or ['0x1A'], which Mongoose casts to numbers, are
    cast errors here.  [app.listen] follows Express 4 (the repository has
    no package.json to pin the version): the port check is Node's
    [server.listen], and a bind failure is an ['error'] event with no
    listener. *)

From stdpp Require Export base list strings gmap sorting.
From Stdlib Require Export ZArith Lia Ascii.

Declare Scope expense_scope.
Delimit Scope expense_scope with exp.
Open Scope expense_scope.

(** ** The error monad *)

(** A computation that either produces a value or raises an error; the
    JavaScript [throw] inside a [try] block. *)
Inductive res (E A : Type) : Type :=
  | Ok (a : A)
  | Err (e : E).
Arguments Ok {E A} a.
Arguments Err {E A} e.

Definition res_bind {E A B} (m : res E A) (k : A -> res E B) : res E B :=
  match m with
  | Ok a => k a
  | Err e => Err e
  end.

Notation "x <- m ;; k" := (res_bind m (fun x => k))
  (at level 100, m at next level, right associativity) : expense_scope.

(** [Promise.all]-style traversal: stop at the first error. *)
Fixpoint res_mapM {E A B} (f : A -> res E B) (l : list A) : res E (list B) :=
  match l with
  | [] => Ok []
  | x :: l' => y <- f x ;; ys <- res_mapM f l' ;; Ok (y :: ys)
  end.

(** ** Decimal printing of integers *)

(** Digits of [n], most significant first, prepended to [acc]; [fuel]
    bounds the number of digits. *)
Fixpoint digits_aux (fuel : nat) (n : N) (acc : string) : string :=
  match fuel with
  | O => acc
  | S fuel' =>
      let acc' := String (Ascii.ascii_of_N (48 + N.modulo n 10)) acc in
      if (n <? 10)%N then acc' else digits_aux fuel' (N.div n 10) acc'
  end.

(** The number of binary digits bounds the number of decimal digits, so
    [N.size_nat n] is enough fuel. *)
Definition string_of_N (n : N) : string := digits_aux (S (N.size_nat n)) n "".

(** JavaScript's [String(n)] on an integer-valued number. *)
Definition string_of_Z (z : Z) : string :=
  match z with
  | Zneg p => "-" +:+ string_of_N (Npos p)
  | _ => string_of_N (Z.to_N z)
  end.

(** [p] holds on [a], [a + 1], ..., [a + n - 1]: a finite check that
    [vm_compute] decides. *)
Fixpoint forall_range (p : Z -> bool) (a : Z) (n : nat) : bool :=
  match n with
  | O => true
  | S n => p a && forall_range p (a + 1) n
  end.

(** ** Generic lemmas *)

Create HintDb expense.

Lemma res_bind_Ok {E A B} (m : res E A) (k : A -> res E B) v :
  res_bind m k = Ok v <-> exists a, m = Ok a /\ k a = Ok v.
Proof.
  destruct m as [a|e]; simpl; split.
  - eauto.
  - by intros (? & [= ->] & ?).
  - discriminate.
  - by intros (? & ? & ?).
Qed.

Section res_lemmas.
Context {E A B : Type}.

Lemma res_mapM_length (f : A -> res E B) l l' :
  res_mapM f l = Ok l' -> length l' = length l.
Proof.
  revert l'; induction l as [|x l IH]; simpl; intros l' H.
  - by injection H as <-.
  - apply res_bind_Ok in H as (y & _ & H).
    apply res_bind_Ok in H as (ys & Hys & H). injection H as <-.
    simpl. by rewrite (IH ys).
Qed.

Lemma res_mapM_Forall2 (f : A -> res E B) l l' :
  res_mapM f l = Ok l' -> Forall2 (fun x y => f x = Ok y) l l'.
Proof.
  revert l'; induction l as [|x l IH]; simpl; intros l' H.
  - injection H as <-. constructor.
  - apply res_bind_Ok in H as (y & Hy & H).
    apply res_bind_Ok in H as (ys & Hys & H). injection H as <-.
    constructor; auto.
Qed.

Lemma res_mapM_Ok_iff (f : A -> res E B) l :
  (exists l', res_mapM f l = Ok l') <-> Forall (fun x => exists y, f x = Ok y) l.
Proof.
  induction l as [|x l IH]; simpl.
  - split; [constructor | eauto].
  - rewrite Forall_cons. split.
    + intros [l' H]. apply res_bind_Ok in H as (y & Hy & H).
      apply res_bind_Ok in H as (ys & Hys & _). split; [eauto | apply IH; eauto].
    + intros [[y Hy] [ys Hys]%IH]. rewrite Hy; simpl. rewrite Hys. eauto.
Qed.
End res_lemmas.

Section filter_lemmas.
Context {A : Type}.
Implicit Types (f : A -> bool) (l : list A).

Lemma filter_length_split f l :
  length (List.filter f l) + length (List.filter (fun x => negb (f x)) l) = length l.
Proof. induction l as [|x l IH]; simpl; [done|]. destruct (f x); simpl; lia. Qed.

Lemma filter_all_true f l :
  Forall (fun x => f x = true) l -> List.filter f l = l.
Proof. induction 1 as [|x l Hx _ IH]; simpl; [done|]. by rewrite Hx, IH. Qed.

Lemma filter_all_false f l :
  Forall (fun x => f x = false) l -> List.filter f l = [].
Proof. induction 1 as [|x l Hx _ IH]; simpl; [done|]. by rewrite Hx. Qed.

Lemma filter_ext_in f g l :
  (forall x, In x l -> f x = g x) -> List.filter f l = List.filter g l.
Proof.
  induction l as [|x l IH]; simpl; intros H; [done|].
  rewrite (H x (or_introl eq_refl)), IH; auto.
Qed.
End filter_lemmas.

Lemma Forall2_In_l {A B} (R : A -> B -> Prop) l k x :
  Forall2 R l k -> In x l -> exists y, In y k /\ R x y.
Proof.
  induction 1 as [|a b l k Hab _ IH]; simpl; [done|].
  intros [<-|Hx]; [eauto|]. destruct (IH Hx) as (y & ? & ?). eauto.
Qed.

Lemma Forall2_In_r {A B} (R : A -> B -> Prop) l k y :
  Forall2 R l k -> In y k -> exists x, In x l /\ R x y.
Proof.
  induction 1 as [|a b l k Hab _ IH]; simpl; [done|].
  intros [<-|Hy]; [eauto|]. destruct (IH Hy) as (x & ? & ?). eauto.
Qed.

Lemma NoDup_map_filter {A B} (f : A -> B) (p : A -> bool) l :
  NoDup (map f l) -> NoDup (map f (List.filter p l)).
Proof.
  induction l as [|x l IH]; simpl; [done|]. intros [Hx Hl]%NoDup_cons.
  destruct (p x); simpl; [|auto]. constructor; [|auto].
  intros (y & Hy & Hin%list_elem_of_In)%list_elem_of_fmap. apply filter_In in Hin as [Hin _].
  apply Hx. rewrite Hy. by apply list_elem_of_fmap_2, list_elem_of_In.
Qed.

Lemma filter_Permutation {A} (f : A -> bool) l1 l2 :
  l1 ≡ₚ l2 -> List.filter f l1 ≡ₚ List.filter f l2.
Proof.
  induction 1 as [|x l1 l2 _ IH|x y l|l1 l2 l3 _ IH1 _ IH2]; simpl.
  - done.
  - destruct (f x); [by constructor|done].
  - destruct (f x), (f y); try reflexivity. by constructor.
  - by etrans.
Qed.

(** Appending a new element keeps a list duplicate-free. *)
Lemma omap_cons {A B} (f : A -> option B) x l :
  omap f (x :: l) = match f x with Some y => y :: omap f l | None => omap f l end.
Proof. done. Qed.

Lemma forall_range_spec p a n x :
  forall_range p a n = true -> (a <= x < a + Z.of_nat n)%Z -> p x = true.
Proof.
  revert a. induction n as [|n IH]; intros a H Hx; simpl in *; [lia|].
  apply andb_prop in H as [Ha Hr].
  destruct (Z.eq_dec x a) as [->|]; [done|]. apply (IH (a + 1)%Z); [done|lia].
Qed.

Lemma NoDup_snoc {A} (l : list A) x : NoDup l -> x ∉ l -> NoDup (l ++ [x]).
Proof.
  intros Hl Hx. apply NoDup_app. split; [done|]. split; [|by apply NoDup_singleton].
  by intros y Hy ->%list_elem_of_singleton.
Qed.

(** A collection with a unique key [key] and distinct ids [id] below a
    counter [n] stays so when an element with a free key and id [n] is
    appended and the counter advances. *)
Lemma snoc_fresh {A K} (key : A -> K) (id : A -> nat) l x n :
  NoDup (map key l) -> NoDup (map id l) -> Forall (fun y => id y < n) l ->
  id x = n -> (forall y, In y l -> key y <> key x) ->
  NoDup (map key (l ++ [x])) /\ NoDup (map id (l ++ [x])) /\ Forall (fun y => id y < S n) (l ++ [x]).
Proof.
  intros Hk Ho Hb Hi Hfree. rewrite !map_app. split; [|split].
  - apply NoDup_snoc; [done|]. intros (y & Hy & Hin%list_elem_of_In)%list_elem_of_fmap.
    by apply (Hfree y).
  - apply NoDup_snoc; [done|]. intros (y & Hy & Hin)%list_elem_of_fmap.
    apply (proj1 (Forall_forall _ _) Hb) in Hin. simpl in *. lia.
  - apply Forall_app. split; [|apply Forall_singleton; lia].
    eapply Forall_impl; [exact Hb|]. simpl. lia.
Qed.

Lemma StronglySorted_mono {A} (R1 R2 : relation A) l :
  (forall x y, R1 x y -> R2 x y) -> StronglySorted R1 l -> StronglySorted R2 l.
Proof.
  intros HR. induction 1 as [|x l _ IH Hall]; constructor; [done|].
  eapply Forall_impl; [exact Hall | auto].
Qed.

(** Distinct images identify the elements of a list. *)
Lemma NoDup_map_inj_in {A B} (f : A -> B) l x y :
  NoDup (map f l) -> In x l -> In y l -> f x = f y -> x = y.
Proof.
  induction l as [|z l IH]; simpl; [done|]. intros [Hz Hl]%NoDup_cons Hx Hy Hf.
  destruct Hx as [<-|Hx], Hy as [<-|Hy]; [done | | | auto].
  - destruct Hz. rewrite Hf. by apply list_elem_of_fmap_2, list_elem_of_In.
  - destruct Hz. rewrite <- Hf. by apply list_elem_of_fmap_2, list_elem_of_In.
Qed.

(** A sorted list whose elements have distinct images is sorted for the
    relation that also separates the images. *)
Lemma StronglySorted_distinct {A B} (R : relation A) (f : A -> B) l :
  StronglySorted R l -> NoDup (map f l) -> StronglySorted (fun x y => R x y /\ f x <> f y) l.
Proof.
  induction 1 as [|x l _ IH Hall]; simpl; intros Hnd; constructor.
  - apply IH. by apply NoDup_cons in Hnd as [_ ?].
  - apply NoDup_cons in Hnd as [Hx _]. apply Forall_forall. intros y Hy.
    split; [by apply (proj1 (Forall_forall _ _) Hall)|].
    intros Heq. apply Hx. rewrite Heq. by apply list_elem_of_fmap_2.
Qed.

#[export] Hint Resolve filter_all_true filter_all_false : expense.

(** Invert a hypothesis and clean up. *)
Ltac invc H := inversion H; subst; clear H.

(** Split a hypothesis [res_bind m k = Ok v] into its two steps. *)
Ltac res_inv H :=
  let a := fresh "a" in
  let Ha := fresh "H" in
  apply res_bind_Ok in H as (a & Ha & H).
