(* ===== verification/Json.v ===== *)
(** * JSON request data and the JavaScript operations the handlers apply to it

    A request body, after [express.json()] (app.ts line 14), is a JSON
    value: [jsval].  The handlers read it with property access
    ([txn.timestamp]), JavaScript truthiness ([!transactions],
    [a || b]) and the [Date] constructor ([new Date(txn.timestamp)]).
    This file models those operations, the exceptions they can raise
    ([js_error], shared with the database layer of [Store]) and the HTTP
    result of a handler ([response]).

    JSON numbers are integers here ([Z]): fractional numbers are outside
    the model.  [undefined] (a missing property) is [None] of
    [option jsval]. *)

From S2P Require Import Prelude.

(** ** JSON values *)

Inductive jsval : Type :=
  | JNull
  | JBool (b : bool)
  | JNum (n : Z)
  | JStr (s : string)
  | JArr (items : list jsval)
  | JObj (fields : list (string * jsval)).

(** The exceptions a handler's [try] block can see. *)
Inductive js_error : Type :=
  | TypeError (prop : string)      (** reading a property of [null]/[undefined] *)
  | ValidationError                (** Mongoose: a cast or a required validator failed *)
  | DuplicateKey                   (** MongoDB E11000 on a unique index *)
  | ImmutableField (path : string). (** MongoDB: an update would change [_id] *)

(** What a handler sends: [res.status(s).json(b)]. *)
Record response (B : Type) : Type := Resp { status : Z; body : B }.
Arguments Resp {B} status body.
Arguments status {B} r.
Arguments body {B} r.

(** ** Property access *)

(** [JSON.parse] keeps the last of duplicated keys. *)
Definition obj_lookup (k : string) (fs : list (string * jsval)) : option jsval :=
  fold_left (fun acc '(k', v) => if String.eqb k k' then Some v else acc) fs None.

(** [v.k] on a value that is not [null]/[undefined]: only objects have
    the fields the handlers read. *)
Definition prop (v : jsval) (k : string) : option jsval :=
  match v with
  | JObj fs => obj_lookup k fs
  | _ => None
  end.

(** [v.k] in general: a [TypeError] on [null] and [undefined]. *)
Definition get_prop (v : option jsval) (k : string) : res js_error (option jsval) :=
  match v with
  | None | Some JNull => Err (TypeError k)
  | Some v' => Ok (prop v' k)
  end.

(** ** Truthiness and [||] *)

Definition truthy (v : option jsval) : bool :=
  match v with
  | None | Some JNull => false
  | Some (JBool b) => b
  | Some (JNum n) => negb (n =? 0)%Z
  | Some (JStr s) => negb (String.eqb s "")
  | Some (JArr _) | Some (JObj _) => true
  end.

(** [a || b]: [a] when it is truthy, [b] otherwise. *)
Definition js_or (a b : option jsval) : option jsval :=
  if truthy a then a else b.

Definition is_array (v : option jsval) : bool :=
  match v with Some (JArr _) => true | _ => false end.

(** ** [ToString] *)

(** [String(v)]; inside an array [null] prints as the empty string. *)
Fixpoint js_to_string (v : jsval) : string :=
  match v with
  | JNull => "null"
  | JBool b => if b then "true" else "false"
  | JNum n => string_of_Z n
  | JStr s => s
  | JArr l =>
      String.concat "," (map (fun x => match x with JNull => "" | _ => js_to_string x end) l)
  | JObj _ => "[object Object]"
  end.

(** ** Dates *)

(** The JavaScript library's [Date.parse] on a string: the result in
    milliseconds since the epoch, [None] for [NaN].  The handlers only
    call it; every theorem holds for every instance. *)
Class DateParse := date_parse : string -> option Z.

(** ECMAScript's time range: 8.64e15 ms either side of the epoch. *)
Definition max_time : Z := 8640000000000000.

(** TimeClip: a time value out of range is [NaN]. *)
Definition time_clip (t : Z) : option Z :=
  if (Z.abs t <=? max_time)%Z then Some t else None.

(** [new Date(v).getTime()] for one argument: a string (also the
    [ToPrimitive] of an array or object) is parsed, anything else is
    converted with [ToNumber] ([undefined] to [NaN], [null] to 0, a
    boolean to 0 or 1), then TimeClip. *)
Definition date_getTime `{DateParse} (v : option jsval) : option Z :=
  match v with
  | None => None
  | Some JNull => Some 0%Z
  | Some (JBool b) => Some (if b then 1 else 0)%Z
  | Some (JNum n) => time_clip n
  | Some (JStr s) => date_parse s ≫= time_clip
  | Some ((JArr _ | JObj _) as v') => date_parse (js_to_string v') ≫= time_clip
  end.

(** A parser that rejects every string: for examples whose timestamps are
    numbers, as the mobile client sends them. *)
Definition date_parse_none : DateParse := fun _ => None.

(** ** Lemmas *)

Lemma js_or_truthy a b : truthy a = true -> js_or a b = a.
Proof. unfold js_or. by intros ->. Qed.

Lemma js_or_falsy a b : truthy a = false -> js_or a b = b.
Proof. unfold js_or. by intros ->. Qed.

Lemma get_prop_Ok (v : jsval) k : v <> JNull -> get_prop (Some v) k = Ok (prop v k).
Proof. destruct v; simpl; congruence. Qed.

(** A value with some property is an object: reading any property of it
    succeeds. *)
Lemma prop_Some_get_prop v k w k' : prop v k = Some w -> get_prop (Some v) k' = Ok (prop v k').
Proof. destruct v; simpl; congruence. Qed.

Lemma get_prop_Ok_inv (v : jsval) k w : get_prop (Some v) k = Ok w -> w = prop v k.
Proof. destruct v; simpl; congruence. Qed.

Lemma time_clip_Some t t' : time_clip t = Some t' -> t' = t /\ (Z.abs t <= max_time)%Z.
Proof.
  unfold time_clip. destruct (Z.leb_spec (Z.abs t) max_time); [|discriminate].
  intros [= <-]. auto.
Qed.

(** Every valid time a [Date] holds lies in the ECMAScript range. *)
Lemma date_getTime_range `{DateParse} v t :
  date_getTime v = Some t -> (- max_time <= t <= max_time)%Z.
Proof.
  assert (forall o, o ≫= time_clip = Some t -> (- max_time <= t <= max_time)%Z) as Hb.
  { intros [x|] Hx; [|discriminate]. apply time_clip_Some in Hx as [-> ?]. lia. }
  destruct v as [[]|]; simpl; intros Ht; try discriminate;
    try (apply Hb in Ht; exact Ht);
    try (injection Ht as <-; unfold max_time; lia).
  - destruct b; injection Ht as <-; unfold max_time; lia.
  - apply time_clip_Some in Ht as [-> ?]. lia.
Qed.

#[export] Hint Resolve js_or_truthy js_or_falsy get_prop_Ok : expense.
