(* ===== verification/Store.v ===== *)
(** * The Expense collection (models/Expense.ts) and its operations

    [expense] is a stored Expense document (the schema of
    models/Expense.ts lines 4-19, without the [createdAt]/[updatedAt]
    timestamps); [raw_expense] is the plain object a controller hands to
    Mongoose ([Expense.create], [Expense.insertMany]); [cast_expense] is
    Mongoose's casting of it by the schema's field types together with
    the [required] validators.  [db] is the collection as an explicit
    state: its documents in natural (insertion) order and the counter
    that supplies fresh ObjectIds.  The unique index of line 22,
    [{userId: 1, date: 1}], is enforced by [insert_one]; [insert_many]
    follows MongoDB's ordered bulk insert: every document is validated
    first (one failure rejects the batch and writes nothing), then the
    documents are inserted in order and the first duplicate key stops the
    insertion, the documents before it staying written.

    [db_wf] is the collection's invariant: unique [(userId, date)] pairs,
    unique ObjectIds, all of them below the counter.  The file ends with
    the round trip between the decimal printing of the prelude
    ([string_of_Z]) and the [Number] cast of a string ([parse_Z]). *)

From S2P Require Import Prelude Json.

(** ** Documents *)

Record expense : Type := mkExpense {
  oid : nat;                        (** [_id] *)
  userId : nat;                     (** ObjectId of the owning User *)
  category : string;
  amount : Z;
  description : option string;
  date : Z;                         (** ms since the epoch *)
  sender : option string;
  senderReceiver : option string;
  upiTransactionId : option string;
  rawMessage : option string
}.

(** The value given for the [date] path: absent, or a [Date] object
    (its [getTime()], [None] for an Invalid Date). *)
Definition date_arg := option (option Z).

Record raw_expense : Type := mkRaw {
  r_userId : nat;
  r_category : option jsval;
  r_amount : option jsval;
  r_description : option jsval;
  r_date : date_arg;
  r_sender : option jsval;
  r_senderReceiver : option jsval;
  r_upiTransactionId : option jsval;
  r_rawMessage : option jsval
}.

(** ** Mongoose casting and validation *)

(** Decimal integer syntax of [Number(s)]: an optional sign and digits. *)
Fixpoint parse_digits (s : string) (acc : Z) : option Z :=
  match s with
  | EmptyString => Some acc
  | String c s' =>
      let d := (Z.of_N (Ascii.N_of_ascii c) - 48)%Z in
      if (0 <=? d)%Z && (d <=? 9)%Z then parse_digits s' (acc * 10 + d)%Z else None
  end.

Definition parse_Z (s : string) : option Z :=
  match s with
  | EmptyString => None
  | String "-"%char EmptyString | String "+"%char EmptyString => None
  | String "-"%char s' => Z.opp <$> parse_digits s' 0
  | String "+"%char s' => parse_digits s' 0
  | _ => parse_digits s 0
  end.

(** SchemaString cast: [null]/[undefined] stay unset, numbers and booleans
    are converted with [String()], an object whose [_id] is a non-empty
    string is cast to that [_id] (a populated document), and arrays and
    other plain objects are a cast error. *)
Definition cast_string (v : option jsval) : res js_error (option string) :=
  match v with
  | None | Some JNull => Ok None
  | Some (JStr s) => Ok (Some s)
  | Some (JNum n) => Ok (Some (string_of_Z n))
  | Some (JBool b) => Ok (Some (if b then "true" else "false"))
  | Some (JObj fs) =>
      match obj_lookup "_id" fs with
      | Some (JStr s) => if String.eqb s "" then Err ValidationError else Ok (Some s)
      | _ => Err ValidationError
      end
  | Some (JArr _) => Err ValidationError
  end.

(** SchemaNumber cast: the empty string is [null], booleans are 0/1,
    numeric strings are parsed. *)
Definition cast_number (v : option jsval) : res js_error (option Z) :=
  match v with
  | None | Some JNull => Ok None
  | Some (JNum n) => Ok (Some n)
  | Some (JBool b) => Ok (Some (if b then 1 else 0)%Z)
  | Some (JStr s) =>
      if String.eqb s "" then Ok None
      else match parse_Z s with Some n => Ok (Some n) | None => Err ValidationError end
  | Some (JArr _) | Some (JObj _) => Err ValidationError
  end.

(** SchemaDate given a [Date] object: an Invalid Date is a cast error. *)
Definition cast_date (v : date_arg) : res js_error (option Z) :=
  match v with
  | None => Ok None
  | Some (Some t) => Ok (Some t)
  | Some None => Err ValidationError
  end.

(** [required: true] on a String path rejects unset and empty strings. *)
Definition required_string (v : option string) : res js_error string :=
  match v with
  | Some s => if String.eqb s "" then Err ValidationError else Ok s
  | None => Err ValidationError
  end.

Definition required_value {A} (v : option A) : res js_error A :=
  match v with Some x => Ok x | None => Err ValidationError end.

(** Building and validating one document with ObjectId [id]. *)
Definition cast_expense (id : nat) (r : raw_expense) : res js_error expense :=
  cat <- cast_string (r_category r) ;; cat <- required_string cat ;;
  amt <- cast_number (r_amount r) ;; amt <- required_value amt ;;
  desc <- cast_string (r_description r) ;;
  d <- cast_date (r_date r) ;; d <- required_value d ;;
  snd <- cast_string (r_sender r) ;;
  sr <- cast_string (r_senderReceiver r) ;;
  upi <- cast_string (r_upiTransactionId r) ;;
  raw <- cast_string (r_rawMessage r) ;;
  Ok (mkExpense id (r_userId r) cat amt desc d snd sr upi raw).

(** A raw document passes validation (with any ObjectId, see
    [cast_expense_valid]). *)
Definition doc_valid (r : raw_expense) : bool :=
  match cast_expense 0 r with Ok _ => true | Err _ => false end.

(** ** The collection *)

Record db : Type := mkDb {
  docs : list expense;   (** natural order *)
  next_oid : nat         (** next fresh ObjectId *)
}.

(** The key of the unique index [{userId: 1, date: 1}]. *)
Definition ukey (e : expense) : nat * Z := (userId e, date e).

Definition same_ukey (e1 e2 : expense) : bool :=
  (Nat.eqb (userId e1) (userId e2) && Z.eqb (date e1) (date e2))%bool.

(** Inserting one validated document: E11000 when its key is taken. *)
Definition insert_one (d : db) (e : expense) : res js_error db :=
  if existsb (same_ukey e) (docs d) then Err DuplicateKey
  else Ok (mkDb (docs d ++ [e]) (next_oid d)).

(** Ordered insertion: stops at the first error; what was inserted stays. *)
Fixpoint insert_ordered (d : db) (es : list expense) : db * res js_error (list expense) :=
  match es with
  | [] => (d, Ok [])
  | e :: es' =>
      match insert_one d e with
      | Err err => (d, Err err)
      | Ok d1 =>
          let '(d2, r) := insert_ordered d1 es' in
          (d2, x <- r ;; Ok (e :: x))
      end
  end.

(** Constructing the documents of a batch: ObjectIds [n], [n+1], ...
    are assigned in order and each document is cast and validated; the
    first invalid document rejects the batch. *)
Fixpoint cast_batch (n : nat) (rs : list raw_expense) : res js_error (list expense) :=
  match rs with
  | [] => Ok []
  | r :: rs' => e <- cast_expense n r ;; es <- cast_batch (S n) rs' ;; Ok (e :: es)
  end.

(** [Model.insertMany(docs)] (default [ordered: true]): validate all,
    then insert in order. *)
Definition insert_many (d : db) (rs : list raw_expense) : db * res js_error (list expense) :=
  let n := next_oid d in
  match cast_batch n rs with
  | Err err => (d, Err err)
  | Ok es => insert_ordered (mkDb (docs d) (n + length rs)) es
  end.

(** [Expense.find({userId, date: {$in: ts}})], in natural order. *)
Definition find_by_dates (d : db) (u : nat) (ts : list Z) : list expense :=
  List.filter (fun e => Nat.eqb (userId e) u && existsb (Z.eqb (date e)) ts)%bool (docs d).

(** ** The invariant *)

Definition db_wf (d : db) : Prop :=
  NoDup (map ukey (docs d)) /\
  NoDup (map oid (docs d)) /\
  Forall (fun e => oid e < next_oid d) (docs d).

#[export] Instance db_wf_dec d : Decision (db_wf d).
Proof. unfold db_wf. apply _. Defined.

(** ** Lemmas *)

Lemma same_ukey_spec e1 e2 : same_ukey e1 e2 = true <-> ukey e1 = ukey e2.
Proof.
  unfold same_ukey, ukey. rewrite andb_true_iff, Nat.eqb_eq, Z.eqb_eq.
  split; [intros [-> ->] | intros [= -> ->]]; done.
Qed.

Lemma existsb_same_ukey e l :
  existsb (same_ukey e) l = true <-> ukey e ∈ map ukey l.
Proof.
  rewrite existsb_exists, list_elem_of_fmap. split.
  - intros (x & Hx%list_elem_of_In & ->%same_ukey_spec). eauto.
  - intros (x & Hk & Hx%list_elem_of_In). exists x. split; [done|]. by apply same_ukey_spec.
Qed.

Lemma insert_one_Ok d e d' :
  insert_one d e = Ok d' ->
  d' = mkDb (docs d ++ [e]) (next_oid d) /\ ukey e ∉ map ukey (docs d).
Proof.
  unfold insert_one. destruct (existsb _ _) eqn:Hx; [discriminate|].
  intros [= <-]. split; [done|]. intros Hin%existsb_same_ukey. congruence.
Qed.

Lemma insert_one_Err d e err :
  insert_one d e = Err err -> err = DuplicateKey /\ ukey e ∈ map ukey (docs d).
Proof.
  unfold insert_one. destruct (existsb _ _) eqn:Hx; [|discriminate].
  intros [= <-]. split; [done|]. by apply existsb_same_ukey.
Qed.

Lemma insert_one_fresh d e :
  ukey e ∉ map ukey (docs d) -> insert_one d e = Ok (mkDb (docs d ++ [e]) (next_oid d)).
Proof.
  unfold insert_one. destruct (existsb _ _) eqn:Hx; [|done].
  intros Hn. apply existsb_same_ukey in Hx. contradiction.
Qed.

Lemma insert_one_taken d e :
  ukey e ∈ map ukey (docs d) -> insert_one d e = Err DuplicateKey.
Proof. unfold insert_one. by intros ->%existsb_same_ukey. Qed.

(** What an ordered insertion does: the first [k] documents are appended;
    either all of them were, or the [k]-th collides with a stored key. *)
Lemma insert_ordered_spec d es d' r :
  insert_ordered d es = (d', r) ->
  next_oid d' = next_oid d /\
  exists k, docs d' = docs d ++ take k es /\
    ((r = Ok es /\ k = length es) \/
     (r = Err DuplicateKey /\ exists e, es !! k = Some e /\ ukey e ∈ map ukey (docs d'))).
Proof.
  revert d d' r; induction es as [|e es IH]; simpl; intros d d' r H.
  - injection H as <- <-. split; [done|]. exists 0. rewrite app_nil_r. auto.
  - destruct (insert_one d e) as [d1|err] eqn:Hins.
    + apply insert_one_Ok in Hins as [-> _].
      destruct (insert_ordered _ es) as [d2 r2] eqn:Hrec. injection H as <- <-.
      apply IH in Hrec as [Hn (k & Hdocs & Hr)]. split; [done|].
      exists (S k). split; [rewrite Hdocs; simpl; by rewrite <- app_assoc|].
      destruct Hr as [[-> ->] | [-> He]]; [left | right]; split; done.
    + apply insert_one_Err in Hins as [-> Hin]. injection H as <- <-.
      split; [done|]. exists 0. simpl. rewrite app_nil_r. split; [done|]. right. split; [done|]. by exists e.
Qed.

(** Ordered insertion of documents with fresh, distinct ids keeps the
    invariant, whatever its outcome. *)
Lemma insert_ordered_wf d es :
  db_wf d -> NoDup (map oid es) ->
  Forall (fun e => oid e < next_oid d /\ oid e ∉ map oid (docs d)) es ->
  db_wf (insert_ordered d es).1.
Proof.
  revert d; induction es as [|e es IH]; simpl; intros d Hwf Hnd Hfresh; [done|].
  destruct (insert_one d e) as [d1|err] eqn:Hins; [|done].
  apply insert_one_Ok in Hins as [-> Hnew].
  apply NoDup_cons in Hnd as [Hnin Hnd].
  apply Forall_cons in Hfresh as [[Hlt Hni] Hfresh].
  destruct Hwf as (Hk & Ho & Hb).
  assert (Hw : db_wf (insert_ordered (mkDb (docs d ++ [e]) (next_oid d)) es).1).
  { apply IH; simpl; [| done |].
    - unfold db_wf; simpl. rewrite !map_app. split; [|split].
      + by apply NoDup_snoc.
      + by apply NoDup_snoc.
      + apply Forall_app. split; [done|]. by apply Forall_singleton.
    - apply Forall_forall. intros x Hx.
      destruct (proj1 (Forall_forall _ _) Hfresh x Hx) as [Hx1 Hx2]. split; [done|].
      rewrite map_app, elem_of_app. simpl. rewrite list_elem_of_singleton. intros [?|Heq]; [done|].
      apply Hnin. rewrite <- Heq. by apply list_elem_of_fmap_2. }
  destruct (insert_ordered _ es) as [d2 r2]. exact Hw.
Qed.

(** What a validated document holds of its source object. *)
Lemma cast_expense_fields i r e :
  cast_expense i r = Ok e ->
  oid e = i /\ userId e = r_userId r /\ r_date r = Some (Some (date e)).
Proof.
  unfold cast_expense. intros H.
  repeat (let a := fresh "a" in let Ha := fresh "Ha" in
          apply res_bind_Ok in H as (a & Ha & H)).
  injection H as <-. simpl. repeat split.
  destruct (r_date r) as [[t|]|]; simpl in *; try discriminate.
  - injection Ha4 as <-. by injection Ha5 as <-.
  - injection Ha4 as <-. discriminate.
Qed.

Lemma cast_expense_valid i r : doc_valid r = true -> exists e, cast_expense i r = Ok e.
Proof. unfold doc_valid, cast_expense, res_bind. repeat case_match; try discriminate; eauto. Qed.

Lemma cast_batch_Forall2 n rs es :
  cast_batch n rs = Ok es ->
  Forall2 (fun r e => userId e = r_userId r /\ r_date r = Some (Some (date e))) rs es.
Proof.
  revert n es; induction rs as [|r rs IH]; simpl; intros n es H.
  - injection H as <-. constructor.
  - res_inv H. res_inv H. injection H as <-.
    apply cast_expense_fields in H0 as (_ & ? & ?). constructor; eauto.
Qed.

Lemma cast_batch_oids n rs es :
  cast_batch n rs = Ok es -> map oid es = seq n (length rs).
Proof.
  revert n es; induction rs as [|r rs IH]; simpl; intros n es H.
  - by injection H as <-.
  - res_inv H. res_inv H. injection H as <-. simpl.
    rewrite (proj1 (cast_expense_fields _ _ _ H0)), (IH _ _ H1). done.
Qed.

(** The invariant holds after [insertMany], whatever its outcome. *)
Lemma insert_many_wf d rs : db_wf d -> db_wf (insert_many d rs).1.
Proof.
  unfold insert_many. intros Hwf.
  destruct (cast_batch _ rs) as [es|err] eqn:Hc; [|done].
  pose proof (cast_batch_oids _ _ _ Hc) as Hids.
  destruct Hwf as (Hk & Ho & Hb).
  apply insert_ordered_wf; simpl.
  - split; [done|]. split; [done|].
    eapply Forall_impl; [exact Hb|]. simpl; intros; lia.
  - rewrite Hids. apply NoDup_seq.
  - apply Forall_forall. intros x Hx.
    assert (Hs : oid x ∈ seq (next_oid d) (length rs)).
    { rewrite <- Hids. by apply list_elem_of_fmap_2. }
    apply elem_of_seq in Hs. split; [lia|].
    intros (y & Hy & Hyin)%list_elem_of_fmap.
    apply (proj1 (Forall_forall _ _) Hb) in Hyin. lia.
Qed.

(** [insertMany] never removes or changes a stored document: the old
    documents are a prefix of the new ones. *)
Lemma insert_many_prefix d rs : docs d `prefix_of` docs (insert_many d rs).1.
Proof.
  unfold insert_many. destruct (cast_batch _ rs) as [es|err]; [|done].
  destruct (insert_ordered _ es) as [d' r] eqn:Hi.
  simpl. apply insert_ordered_spec in Hi as [_ (k & -> & _)]. simpl. by apply prefix_app_r.
Qed.

(** A successful [insertMany] appended the whole validated batch. *)
Lemma insert_many_Ok d rs d' l :
  insert_many d rs = (d', Ok l) ->
  cast_batch (next_oid d) rs = Ok l /\ docs d' = docs d ++ l /\
  next_oid d' = next_oid d + length rs.
Proof.
  unfold insert_many. destruct (cast_batch _ rs) as [es|err] eqn:Hc; [|done].
  intros Hi. apply insert_ordered_spec in Hi as [Hn (k & Hd & [[[= ->] ->] | [? _]])];
    [|discriminate].
  rewrite firstn_all in Hd. auto.
Qed.

(** ** Decimal printing and parsing *)

Lemma size_nat_size n : N.of_nat (N.size_nat n) = N.size n.
Proof.
  destruct n as [|p]; [done|]. simpl.
  induction p as [p IH|p IH|]; simpl; [rewrite Nat2N.inj_succ, IH..|]; done.
Qed.

Lemma digit_char m :
  (m < 10)%N -> (Z.of_N (Ascii.N_of_ascii (Ascii.ascii_of_N (48 + m))) - 48)%Z = Z.of_N m.
Proof. intros Hm. rewrite Ascii.N_ascii_embedding by lia. lia. Qed.

(** Enough fuel: reading the digits [digits_aux] writes in front of
    [acc] gives [n]. *)
Lemma parse_digits_aux fuel n acc :
  (n < 2 ^ N.of_nat fuel)%N -> parse_digits (digits_aux fuel n acc) 0 = parse_digits acc (Z.of_N n).
Proof.
  revert n acc; induction fuel as [|fuel IH]; intros n acc Hn.
  - simpl in Hn. by replace n with 0%N by lia.
  - assert (Hm : (n mod 10 < 10)%N) by (apply N.mod_lt; lia).
    pose proof (N.div_mod n 10 ltac:(lia)) as Hdm. simpl.
    destruct (N.ltb_spec n 10) as [Hlt|Hge].
    + simpl. rewrite digit_char by done.
      replace (n mod 10)%N with n by (symmetry; by apply N.mod_small).
      replace (0 <=? Z.of_N n)%Z with true by lia. replace (Z.of_N n <=? 9)%Z with true by lia.
      simpl; f_equal; lia.
    + rewrite IH.
      * simpl. rewrite digit_char by done.
        replace (0 <=? Z.of_N (n mod 10))%Z with true by (symmetry; apply Z.leb_le; revert Hm; generalize (n mod 10)%N; clear; intros k Hk; lia).
        replace (Z.of_N (n mod 10) <=? 9)%Z with true by (symmetry; apply Z.leb_le; revert Hm; generalize (n mod 10)%N; clear; intros k Hk; lia). simpl; f_equal; lia.
      * rewrite Nat2N.inj_succ, N.pow_succ_r' in Hn. apply N.Div0.div_lt_upper_bound; lia.
Qed.

Lemma parse_string_of_N n : parse_digits (string_of_N n) 0 = Some (Z.of_N n).
Proof.
  unfold string_of_N. rewrite parse_digits_aux; [done|].
  rewrite Nat2N.inj_succ, size_nat_size, N.pow_succ_r'. pose proof (N.size_gt n). lia.
Qed.

(** The printed number starts with a digit. *)
Lemma digits_aux_head fuel n acc :
  exists m rest, (m < 10)%N /\ digits_aux (S fuel) n acc = String (Ascii.ascii_of_N (48 + m)) rest.
Proof.
  revert n acc; induction fuel as [|fuel IH]; intros n acc; simpl;
    (destruct (n <? 10)%N; [exists (n mod 10)%N; eexists; split; [apply N.mod_lt; lia|done]|]).
  - exists (n mod 10)%N. eexists. split; [apply N.mod_lt; lia|done].
  - apply IH.
Qed.

Lemma parse_Z_digit m rest :
  (m < 10)%N -> parse_Z (String (Ascii.ascii_of_N (48 + m)) rest) =
                parse_digits (String (Ascii.ascii_of_N (48 + m)) rest) 0.
Proof.
  intros Hm. assert (m = 0 \/ m = 1 \/ m = 2 \/ m = 3 \/ m = 4 \/ m = 5 \/ m = 6 \/ m = 7 \/
                     m = 8 \/ m = 9)%N as Hc by lia.
  by repeat destruct Hc as [->|Hc]; [..|subst m].
Qed.

Lemma parse_Z_neg c rest : parse_Z (String "-" (String c rest)) = Z.opp <$> parse_digits (String c rest) 0.
Proof. reflexivity. Qed.

(** ** Properties *)

(** Decimal printing and parsing are inverse: the digits that
    [String(n)] writes (for a template literal or a String cast) are
    read back by the [Number] cast as [n].  In particular the fuel of
    [digits_aux], [N.size_nat n + 1] steps, is enough to print every
    digit. *)
Theorem parse_string_of_Z z : parse_Z (string_of_Z z) = Some z.
Proof.
  destruct z as [|p|p]; [reflexivity| |].
  - unfold string_of_Z. simpl Z.to_N. pose proof (parse_string_of_N (Npos p)) as H.
    unfold string_of_N in *. destruct (digits_aux_head (N.size_nat (Npos p)) (Npos p) "") as (m & rest & Hm & Hs).
    rewrite Hs in H |- *. by rewrite parse_Z_digit.
  - unfold string_of_Z. pose proof (parse_string_of_N (Npos p)) as H.
    unfold string_of_N in *. destruct (digits_aux_head (N.size_nat (Npos p)) (Npos p) "") as (m & rest & Hm & Hs).
    rewrite Hs in H |- *. change ("-" +:+ String (Ascii.ascii_of_N (48 + m)) rest)
      with (String "-" (String (Ascii.ascii_of_N (48 + m)) rest)).
    by rewrite parse_Z_neg, H.
Qed.
