(* ===== verification/Calendar.v ===== *)
(** * Calendar dates of a stored [Date] (the [$year] and [$month] operators)

    [getMonthlyExpenses] (controllers/expense.controller.ts line 44)
    groups by [{ year: { $year: "$date" }, month: { $month: "$date" } }];
    MongoDB computes both in UTC from the milliseconds since the epoch.
    [civil_from_days] is the proleptic Gregorian conversion of a day
    number (days since 1970-01-01) to (year, month, day), by 400-year
    eras.  It is checked against the calendar itself: day 0 is
    1970-01-01 and each next day number is the next calendar day, with
    months of 28 to 31 days and 29 days in February exactly in leap
    years.  The proof splits a day number into its era, year of era and
    day of year by [lia]; only the 366 days of a year beginning on
    1 March and the 400 years of an era are checked by computation.
    The month is always in [1, 12], which is what makes
    [monthNames[month - 1]] (line 61) a name and not [undefined]. *)

From S2P Require Import Prelude.

Open Scope Z_scope.

(** Milliseconds in a day. *)
Definition ms_per_day : Z := 86400000.

(** The day number of a time value, rounding towards minus infinity. *)
Definition day_of_time (t : Z) : Z := t / ms_per_day.

(** (year, month, day) of day number [z]. *)
Definition civil_from_days (z : Z) : Z * Z * Z :=
  let z' := z + 719468 in
  let era := z' / 146097 in
  let doe := z' - era * 146097 in
  let yoe := (doe - doe / 1460 + doe / 36524 - doe / 146096) / 365 in
  let doy := doe - (365 * yoe + yoe / 4 - yoe / 100) in
  let mp := (5 * doy + 2) / 153 in
  let d := doy - (153 * mp + 2) / 5 + 1 in
  let m := if mp <? 10 then mp + 3 else mp - 9 in
  let y := yoe + era * 400 in
  (if m <=? 2 then y + 1 else y, m, d).

(** [$year] of a date. *)
Definition year_of (t : Z) : Z := fst (fst (civil_from_days (day_of_time t))).

(** [$month] of a date, 1 to 12. *)
Definition month_of (t : Z) : Z := snd (fst (civil_from_days (day_of_time t))).

(** ** The Gregorian calendar, as a reference

    The calendar the conversion must follow, written independently of
    it: leap years, the length of each month, valid dates, and the day
    after a date. *)

Definition leap_year (y : Z) : bool :=
  ((y mod 4 =? 0) && negb (y mod 100 =? 0)) || (y mod 400 =? 0).

Definition days_in_month (y m : Z) : Z :=
  if m =? 2 then (if leap_year y then 29 else 28)
  else if (m =? 4) || (m =? 6) || (m =? 9) || (m =? 11) then 30 else 31.

Definition valid_civil (c : Z * Z * Z) : bool :=
  let '(y, m, d) := c in (1 <=? m) && (m <=? 12) && (1 <=? d) && (d <=? days_in_month y m).

Definition next_day (c : Z * Z * Z) : Z * Z * Z :=
  let '(y, m, d) := c in
  if d <? days_in_month y m then (y, m, d + 1)
  else if m <? 12 then (y, m + 1, 1) else (y + 1, 1, 1).

(** The pieces of [civil_from_days], used to check it against the
    calendar: the day of a 400-year era where year [y] of the era
    starts (on 1 March), the month, day and year offset of day [doy] of
    a year that starts on 1 March, and the day after such a date in a
    year whose February has 29 days ([long]) or 28. *)
Definition year_start (y : Z) : Z := 365 * y + y / 4 - y / 100 + y / 400.

Definition march_date (doy : Z) : Z * Z * Z :=
  let mp := (5 * doy + 2) / 153 in
  let d := doy - (153 * mp + 2) / 5 + 1 in
  let m := if mp <? 10 then mp + 3 else mp - 9 in
  (m, d, if m <=? 2 then 1 else 0).

Definition month_len (long : bool) (m : Z) : Z :=
  if m =? 2 then (if long then 29 else 28)
  else if (m =? 4) || (m =? 6) || (m =? 9) || (m =? 11) then 30 else 31.

Definition march_next (long : bool) (c : Z * Z * Z) : Z * Z * Z :=
  let '(m, d, off) := c in
  if d <? month_len long m then (m, d + 1, off)
  else if m =? 12 then (1, 1, 1) else (m + 1, 1, off).

Definition triple_eqb (c c' : Z * Z * Z) : bool :=
  let '(a, b, e) := c in let '(a', b', e') := c' in (a =? a') && (b =? b') && (e =? e').

(** Day [doy] of a year of [365 + long] days is a valid date, followed
    by the next date, or it is the last day, the end of February. *)
Definition march_at (long : bool) (doy : Z) : bool :=
  let '(m, d, off) := march_date doy in
  (1 <=? m) && (m <=? 12) && (1 <=? d) && (d <=? month_len long m) &&
  (off =? if m <=? 2 then 1 else 0) &&
  (if doy + 1 <? (if long then 366 else 365)
   then triple_eqb (march_date (doy + 1)) (march_next long (m, d, off))
   else (m =? 2) && (d =? month_len long 2)).

(** Year [y] of an era is 366 days long exactly when the February it
    ends with is in a leap year. *)
Definition year_len_at (y : Z) : bool :=
  year_start (y + 1) - year_start y =? if leap_year (y + 1) then 366 else 365.

(** ** Lemmas *)

(** After unfolding [civil_from_days], name its intermediate quantities
    and record their ranges: day of era in [0, 146096], year of era in
    [0, 399], day of year in [0, 365], shifted month in [0, 11]. *)
Ltac civil_bounds :=
  match goal with |- context [?z + 719468] =>
    let z' := fresh "z'" in set (z' := z + 719468) end;
  match goal with |- context [?z' / 146097] =>
    let era := fresh "era" in set (era := z' / 146097) end;
  match goal with |- context [?z' - ?era * 146097] =>
    let doe := fresh "doe" in set (doe := z' - era * 146097);
    assert (0 <= doe < 146097)
      by (subst doe; pose proof (Z.mod_pos_bound z' 146097); rewrite Z.mod_eq in *; lia) end;
  match goal with |- context [(?doe - ?doe / 1460 + ?doe / 36524 - ?doe / 146096) / 365] =>
    let yoe := fresh "yoe" in set (yoe := (doe - doe / 1460 + doe / 36524 - doe / 146096) / 365);
    assert (0 <= yoe <= 399) by (subst yoe; Z.div_mod_to_equations; lia) end;
  match goal with |- context [?doe - (365 * ?yoe + ?yoe / 4 - ?yoe / 100)] =>
    let doy := fresh "doy" in set (doy := doe - (365 * yoe + yoe / 4 - yoe / 100));
    assert (0 <= doy <= 365) by (subst doy yoe; Z.div_mod_to_equations; lia) end;
  match goal with |- context [(5 * ?doy + 2) / 153] =>
    let mp := fresh "mp" in set (mp := (5 * doy + 2) / 153);
    assert (0 <= mp <= 11) by (subst mp; Z.div_mod_to_equations; lia) end.

(** The month of any day number lies in [1, 12]. *)
Lemma civil_month_range z : 1 <= snd (fst (civil_from_days z)) <= 12.
Proof.
  unfold civil_from_days. cbn [fst snd]. civil_bounds.
  destruct (Z.ltb_spec mp 10); lia.
Qed.

Lemma month_of_range t : 1 <= month_of t <= 12.
Proof. apply civil_month_range. Qed.

Lemma march_table (long : bool) doy :
  0 <= doy < (if long then 366 else 365) -> march_at long doy = true.
Proof.
  intros H. destruct long;
    [apply (forall_range_spec _ 0 366) | apply (forall_range_spec _ 0 365)];
    solve [vm_compute; reflexivity | cbn; lia].
Qed.

Lemma year_len yoe :
  0 <= yoe <= 399 ->
  year_start (yoe + 1) - year_start yoe = if leap_year (yoe + 1) then 366 else 365.
Proof.
  intros H. apply Z.eqb_eq, (forall_range_spec year_len_at 0 400); [vm_compute; reflexivity | cbn; lia].
Qed.

Lemma yoe_spec doe :
  0 <= doe <= 146096 ->
  let yoe := (doe - doe / 1460 + doe / 36524 - doe / 146096) / 365 in
  0 <= yoe <= 399 /\ year_start yoe <= doe < year_start (yoe + 1).
Proof. intros H yoe. subst yoe. unfold year_start. Z.div_mod_to_equations. lia. Qed.

Lemma year_start_mono a b : 0 <= a < b -> year_start (a + 1) <= year_start b.
Proof. intros H. unfold year_start. Z.div_mod_to_equations. lia. Qed.

Lemma year_start_unique a b x :
  0 <= a -> 0 <= b ->
  year_start a <= x < year_start (a + 1) -> year_start b <= x < year_start (b + 1) -> a = b.
Proof.
  intros Ha Hb Hx Hy.
  destruct (Z.lt_trichotomy a b) as [Hab|[?|Hab]]; [|done|];
    [pose proof (year_start_mono a b) | pose proof (year_start_mono b a)]; lia.
Qed.

Lemma leap_year_400 y k : leap_year (y + k * 400) = leap_year y.
Proof.
  unfold leap_year.
  replace (y + k * 400) with (y + (k * 100) * 4) at 1 by lia. rewrite Z.mod_add by lia.
  replace (y + k * 400) with (y + (k * 4) * 100) at 1 by lia. rewrite Z.mod_add by lia.
  rewrite Z.mod_add by lia. done.
Qed.

(** [civil_from_days] on day [doy] of year [yoe] of era [era]. *)
Lemma civil_at z era yoe doy :
  z + 719468 = era * 146097 + year_start yoe + doy ->
  0 <= yoe <= 399 -> 0 <= doy < year_start (yoe + 1) - year_start yoe ->
  civil_from_days z = let '(m, d, off) := march_date doy in (yoe + era * 400 + off, m, d).
Proof.
  intros Hz Hy Hd.
  assert (Hs : year_start yoe + doy < 146097)
    by (pose proof (year_start_mono yoe 400); assert (year_start 400 = 146097) by reflexivity; lia).
  assert (Hs0 : 0 <= year_start yoe) by (unfold year_start; Z.div_mod_to_equations; lia).
  assert (He : (z + 719468) / 146097 = era)
    by (rewrite Hz; replace (era * 146097 + year_start yoe + doy) with ((year_start yoe + doy) + era * 146097) by lia;
        rewrite Z.div_add, Z.div_small; lia).
  unfold civil_from_days. rewrite He.
  replace (z + 719468 - era * 146097) with (year_start yoe + doy) by lia.
  pose proof (yoe_spec (year_start yoe + doy) ltac:(lia)) as Hys. cbv zeta in Hys.
  set (x := year_start yoe + doy) in *.
  set (yoe' := (x - x / 1460 + x / 36524 - x / 146096) / 365) in *.
  assert (yoe' = yoe) as -> by (apply (year_start_unique _ _ x); unfold x in *; lia). subst x.
  replace (year_start yoe + doy - (365 * yoe + yoe / 4 - yoe / 100)) with doy
    by (unfold year_start; rewrite (Z.div_small yoe 400) by lia; lia).
  unfold march_date. destruct (_ <=? 2); rewrite ?Z.add_0_r; done.
Qed.

(** Every day number is some day of some year of some era. *)
Lemma civil_exists z :
  exists era yoe doy, z + 719468 = era * 146097 + year_start yoe + doy /\
    0 <= yoe <= 399 /\ 0 <= doy < year_start (yoe + 1) - year_start yoe.
Proof.
  set (doe := (z + 719468) mod 146097).
  assert (0 <= doe < 146097) by (apply Z.mod_pos_bound; lia).
  assert (exists yoe, 0 <= yoe <= 399 /\ year_start yoe <= doe < year_start (yoe + 1))
    as (yoe & Hy & Hr) by (eexists; apply (yoe_spec doe); lia).
  exists ((z + 719468) / 146097), yoe, (doe - year_start yoe).
  pose proof (Z.div_mod (z + 719468) 146097). lia.
Qed.

Lemma triple_eqb_spec c c' : triple_eqb c c' = true -> c = c'.
Proof. destruct c as [[a b] e], c' as [[a' b'] e']. cbn. rewrite !andb_true_iff, !Z.eqb_eq. by intros [[-> ->] ->]. Qed.

(** In a year starting on 1 March of year [y], the month lengths are
    those of the calendar year the date falls in. *)
Lemma days_in_month_march y m off :
  off = (if m <=? 2 then 1 else 0) ->
  days_in_month (y + off) m = month_len (leap_year (y + 1)) m.
Proof.
  intros ->. unfold days_in_month, month_len.
  destruct (Z.eqb_spec m 2) as [->|]; [done|]. by destruct (m <=? 2).
Qed.

Lemma next_day_march y m d off :
  m <= 12 -> off = (if m <=? 2 then 1 else 0) ->
  next_day (y + off, m, d) =
    let '(m', d', off') := march_next (leap_year (y + 1)) (m, d, off) in (y + off', m', d').
Proof.
  intros H12 Hoff. unfold next_day, march_next. rewrite (days_in_month_march y m off Hoff).
  destruct (_ <? _); [done|].
  destruct (Z.eqb_spec m 12) as [->|]; cbn in Hoff; subst off.
  - cbn. f_equal. f_equal. lia.
  - rewrite (proj2 (Z.ltb_lt m 12)) by lia. done.
Qed.

