(* ===== verification/Sync.v ===== *)
(** * [syncExpenses] (controllers/expense.controller.ts, lines 75-139)

    The handler reconciles a batch of SMS-derived transactions with the
    stored expenses of the authenticated user.  [sync_try] is the body of
    the [try] block, step by step as the source writes it: the request
    check (line 79), the timestamps (86-88), the query for existing
    expenses (91-94) and their timestamps (96-98), the partition (101-107),
    the documents with their defaults (110-119), the [insertMany] that is
    skipped for an empty batch (121-124) and the 201 response (126-131).
    [syncExpenses] adds the [catch] (132-138): any exception (a [TypeError]
    on a [null] transaction, a failed validation, a duplicate key) becomes
    a 500, and the collection keeps whatever [insertMany] wrote before
    failing.

    The section is parameterised by the JavaScript [Date.parse]
    ([DateParse]). *)

From S2P Require Import Prelude Json Store.

Section Sync.
Context `{dp : DateParse}.

(** The JSON bodies the handler sends. *)
Inductive sync_body : Type :=
  | SyncMessage (message : string)
      (** [{message}] *)
  | SyncSaved (message : string) (saved : list expense) (alreadyEntered : list jsval)
      (** [{success: true, message, saved, alreadyEntered}] *)
  | SyncFailure (message : string).
      (** [{success: false, message}] *)

(** [transactions.map(txn => txn.timestamp)]: a [null] element throws. *)
Definition read_timestamps (txns : list jsval) : res js_error (list (option jsval)) :=
  res_mapM (fun txn => get_prop (Some txn) "timestamp") txns.

(** [.map(ts => new Date(ts).getTime()).filter(t => !isNaN(t))] *)
Definition normalized_timestamps (tss : list (option jsval)) : list Z :=
  omap date_getTime tss.

(** [existingExpenses.map(e => e.date.getTime())] for the query
    [Expense.find({userId, date: {$in: timestamps}})]. *)
Definition existing_timestamps (d : db) (uid : nat) (ts : list Z) : list Z :=
  map date (find_by_dates d uid ts).

(** [existingTimestamps.has(new Date(txn.timestamp).getTime())]; an
    Invalid Date is never in the set, which holds stored dates only. *)
Definition is_entered (existing : list Z) (txn : jsval) : bool :=
  match date_getTime (prop txn "timestamp") with
  | Some t => existsb (Z.eqb t) existing
  | None => false
  end.

(** The document of a new transaction (lines 110-119). *)
Definition build_doc (uid : nat) (txn : jsval) : raw_expense := {|
  r_userId := uid;
  r_category := js_or (prop txn "transactionType") (Some (JStr "unknown"));
  r_amount := prop txn "amount";
  r_description := js_or (prop txn "rawMessage") (prop txn "sender");
  r_date := Some (date_getTime (prop txn "timestamp"));
  r_sender := prop txn "sender";
  r_senderReceiver := js_or (prop txn "senderReceiver") (Some (JStr "Unknown"));
  r_upiTransactionId := js_or (prop txn "upiTransactionId") (Some JNull);
  r_rawMessage := None
|}.

(** The template literal of line 128. *)
Definition sync_message (n_saved n_already : nat) : string :=
  string_of_Z (Z.of_nat n_saved) +:+ " new transactions saved. " +:+
  string_of_Z (Z.of_nat n_already) +:+ " already existed.".

Definition sync_try (d : db) (uid : nat) (reqbody : jsval)
    : db * res js_error (response sync_body) :=
  match get_prop (Some reqbody) "transactions" with
  | Err e => (d, Err e)
  | Ok transactions =>
      if negb (truthy transactions) || negb (is_array transactions) then
        (d, Ok (Resp 400 (SyncMessage "Transactions array is required")))
      else
        let txns := match transactions with Some (JArr l) => l | _ => [] end in
        match read_timestamps txns with
        | Err e => (d, Err e)
        | Ok tss =>
            let existing := existing_timestamps d uid (normalized_timestamps tss) in
            let newTransactions := List.filter (fun t => negb (is_entered existing t)) txns in
            let alreadyEntered := List.filter (is_entered existing) txns in
            let expensesToInsert := map (build_doc uid) newTransactions in
            let '(d', r) :=
              if Nat.ltb 0 (length expensesToInsert) then insert_many d expensesToInsert
              else (d, Ok []) in
            (d', inserted <- r ;;
                 Ok (Resp 201 (SyncSaved (sync_message (length inserted) (length alreadyEntered))
                                         inserted alreadyEntered)))
        end
  end.

Definition syncExpenses (d : db) (uid : nat) (reqbody : jsval) : db * response sync_body :=
  let '(d', r) := sync_try d uid reqbody in
  match r with
  | Ok resp => (d', resp)
  | Err _ => (d', Resp 500 (SyncFailure "Server error while syncing messages"))
  end.

(** ** Lemmas *)

(** The user has a stored expense at time [x]. *)
Definition stored_at (d : db) (uid : nat) (x : Z) : bool :=
  existsb (fun e => Nat.eqb (userId e) uid && Z.eqb (date e) x)%bool (docs d).

Lemma stored_at_spec d uid x :
  stored_at d uid x = true <-> exists e, In e (docs d) /\ userId e = uid /\ date e = x.
Proof.
  unfold stored_at. rewrite existsb_exists. split.
  - intros (e & He & [Hu Hd]%andb_true_iff). apply Nat.eqb_eq in Hu. apply Z.eqb_eq in Hd. eauto.
  - intros (e & He & Hu & Hd). exists e. split; [done|].
    apply andb_true_iff. split; [by apply Nat.eqb_eq | by apply Z.eqb_eq].
Qed.

Lemma stored_at_ukey d uid x :
  stored_at d uid x = true <-> (uid, x) ∈ map ukey (docs d).
Proof.
  rewrite stored_at_spec, list_elem_of_fmap. unfold ukey. split.
  - intros (e & He & <- & <-). exists e. split; [done|]. by apply list_elem_of_In.
  - intros (e & [= -> ->] & He%list_elem_of_In). eauto.
Qed.

Lemma stored_at_prefix d d' uid x :
  docs d `prefix_of` docs d' -> stored_at d uid x = true -> stored_at d' uid x = true.
Proof.
  intros [k Hk]. rewrite !stored_at_spec, Hk. intros (e & He & ?). exists e.
  split; [apply in_or_app; auto | done].
Qed.

Lemma read_timestamps_Ok txns tss :
  read_timestamps txns = Ok tss ->
  tss = map (fun t => prop t "timestamp") txns /\ Forall (fun t => t <> JNull) txns.
Proof.
  revert tss; induction txns as [|t txns IH]; simpl; intros tss H.
  - by injection H as <-.
  - res_inv H. res_inv H. injection H as <-.
    destruct t; simpl in H0; try discriminate; injection H0 as <-;
      destruct (IH _ H1) as [-> ?]; (split; [done | constructor; [discriminate | done]]).
Qed.

Lemma read_timestamps_total txns :
  Forall (fun t => t <> JNull) txns ->
  read_timestamps txns = Ok (map (fun t => prop t "timestamp") txns).
Proof.
  induction 1 as [|t txns Ht _ IH]; [done|].
  unfold read_timestamps in *. cbn [res_mapM]. rewrite get_prop_Ok by done. cbn [res_bind]. by rewrite IH.
Qed.

(** Whether a submitted transaction counts as already entered depends only
    on the user's stored expenses at its normalised timestamp. *)
Lemma is_entered_stored d uid txns t :
  In t txns ->
  is_entered (existing_timestamps d uid
                (normalized_timestamps (map (fun t => prop t "timestamp") txns))) t =
  match date_getTime (prop t "timestamp") with
  | Some x => stored_at d uid x
  | None => false
  end.
Proof.
  intros Ht. unfold is_entered. destruct (date_getTime _) as [x|] eqn:Hx; [|done].
  apply Bool.eq_iff_eq_true. rewrite existsb_exists, stored_at_spec.
  unfold existing_timestamps, find_by_dates. split.
  - intros (y & (e & <- & He)%in_map_iff & ->%Z.eqb_eq).
    apply filter_In in He as [He [Hu _]%andb_true_iff]. apply Nat.eqb_eq in Hu. eauto.
  - intros (e & He & Hu & <-). exists (date e). split; [|apply Z.eqb_refl].
    apply in_map, filter_In. split; [done|]. apply andb_true_iff. split; [by apply Nat.eqb_eq|].
    apply existsb_exists. exists (date e). split; [|apply Z.eqb_refl].
    apply list_elem_of_In, list_elem_of_omap. exists (prop t "timestamp").
    split; [apply list_elem_of_In, in_map_iff; eauto | done].
Qed.

(** The collection after a sync is the one before, or the one an
    [insertMany] of the documents of some transactions left. *)
Lemma sync_try_state d uid body :
  (sync_try d uid body).1 = d \/
  exists txns, (sync_try d uid body).1 = (insert_many d (map (build_doc uid) txns)).1.
Proof.
  unfold sync_try. destruct (get_prop _ _) as [tr|]; [|by left].
  destruct (_ || _)%bool; [by left|].
  destruct (read_timestamps _); [|by left].
  destruct (Nat.ltb _ _); [|by left].
  right. match goal with |- context [insert_many d (map (build_doc uid) ?l)] =>
    exists l; destruct (insert_many d (map (build_doc uid) l)) end. done.
Qed.

Lemma syncExpenses_state d uid body :
  (syncExpenses d uid body).1 = (sync_try d uid body).1.
Proof. unfold syncExpenses. destruct (sync_try d uid body) as [d' []]; done. Qed.

(** The shape of a 201 answer: the body held an array of non-null
    transactions, the partition was computed against the stored
    expenses, and the new ones were inserted (unless there were none). *)
Lemma syncExpenses_201 d uid body d' b :
  syncExpenses d uid body = (d', Resp 201 b) ->
  exists txns saved,
    prop body "transactions" = Some (JArr txns) /\
    Forall (fun t => t <> JNull) txns /\
    let existing := existing_timestamps d uid
                      (normalized_timestamps (map (fun t => prop t "timestamp") txns)) in
    let newT := List.filter (fun t => negb (is_entered existing t)) txns in
    let already := List.filter (is_entered existing) txns in
    b = SyncSaved (sync_message (length saved) (length already)) saved already /\
    ((newT = [] /\ saved = [] /\ d' = d) \/
     (newT <> [] /\ insert_many d (map (build_doc uid) newT) = (d', Ok saved))).
Proof.
  unfold syncExpenses, sync_try.
  destruct (get_prop (Some body) _) as [tr|] eqn:Hg; [|by intros [=]].
  apply get_prop_Ok_inv in Hg as ->.
  remember (prop body "transactions") as tr eqn:Hp.
  destruct (negb (truthy _) || negb (is_array _))%bool eqn:Hc; [by intros [=]|].
  destruct tr as [[|?|?|?|l|?]|]; simpl in Hc; rewrite ?orb_true_r in Hc; try discriminate Hc.
  destruct (read_timestamps l) as [tss|] eqn:Hr; [|by intros [=]].
  apply read_timestamps_Ok in Hr as [-> Hnn].
  destruct (Nat.ltb 0 _) eqn:Hlt.
  - destruct (insert_many _ _) as [d2 [saved|err]] eqn:Hi; simpl; [|by intros [=]].
    intros [= <- <-]. exists l, saved. do 2 (split; [done|]). cbv zeta.
    split; [done|]. right. split; [|done].
    intros Hnil. rewrite Hnil in Hlt. discriminate.
  - simpl. intros [= <- <-]. exists l, []. do 2 (split; [done|]). cbv zeta.
    split; [done|]. left. split; [|done].
    apply Nat.ltb_ge in Hlt. rewrite length_map in Hlt. apply length_zero_iff_nil. lia.
Qed.

(** The handler on an array of non-null transactions. *)
Lemma sync_try_array d uid body txns :
  prop body "transactions" = Some (JArr txns) ->
  Forall (fun t => t <> JNull) txns ->
  sync_try d uid body =
    let existing := existing_timestamps d uid
                      (normalized_timestamps (map (fun t => prop t "timestamp") txns)) in
    let newT := List.filter (fun t => negb (is_entered existing t)) txns in
    let already := List.filter (is_entered existing) txns in
    let '(d', r) :=
      if Nat.ltb 0 (length (map (build_doc uid) newT))
      then insert_many d (map (build_doc uid) newT) else (d, Ok []) in
    (d', inserted <- r ;;
         Ok (Resp 201 (SyncSaved (sync_message (length inserted) (length already))
                                 inserted already))).
Proof.
  intros Hp Hnn. unfold sync_try.
  rewrite get_prop_Ok by (intros ->; discriminate Hp). rewrite Hp.
  cbn [negb truthy is_array orb]. rewrite read_timestamps_total by done. reflexivity.
Qed.

(** When every submitted transaction is already stored, nothing is
    written and the whole batch is echoed back as already entered. *)
Lemma syncExpenses_all_entered d uid body txns :
  prop body "transactions" = Some (JArr txns) ->
  Forall (fun t => t <> JNull) txns ->
  (forall t, In t txns -> exists x,
      date_getTime (prop t "timestamp") = Some x /\ stored_at d uid x = true) ->
  syncExpenses d uid body =
    (d, Resp 201 (SyncSaved (sync_message 0 (length txns)) [] txns)).
Proof.
  intros Hp Hnn Hall.
  assert (Hent : forall t, In t txns -> is_entered (existing_timestamps d uid
     (normalized_timestamps (map (fun t => prop t "timestamp") txns))) t = true).
  { intros t Ht. rewrite is_entered_stored by done.
    destruct (Hall t Ht) as (x & -> & ?). done. }
  unfold syncExpenses. rewrite (sync_try_array _ _ _ _ Hp Hnn). cbv zeta.
  rewrite filter_all_false, filter_all_true; [done | |];
    apply Forall_forall; intros t Ht%list_elem_of_In; by rewrite Hent.
Qed.

(** A transaction that the handler inserted is stored afterwards at its
    timestamp. *)
Lemma inserted_stored d uid newT d' saved t :
  insert_many d (map (build_doc uid) newT) = (d', Ok saved) -> In t newT ->
  exists x, date_getTime (prop t "timestamp") = Some x /\ stored_at d' uid x = true.
Proof.
  intros Hi Ht. apply insert_many_Ok in Hi as (Hc & Hd & _).
  apply cast_batch_Forall2 in Hc.
  apply (in_map (build_doc uid)) in Ht.
  destruct (Forall2_In_l _ _ _ _ Hc Ht) as (e & He & Hu & Hdt). simpl in Hu, Hdt.
  injection Hdt as ->. exists (date e). split; [done|].
  apply stored_at_spec. exists e. rewrite Hd. split; [apply in_or_app; auto | done].
Qed.

(** Whatever its outcome, a sync keeps the invariant. *)
Lemma syncExpenses_wf d uid body : db_wf d -> db_wf (syncExpenses d uid body).1.
Proof.
  intros Hwf. rewrite syncExpenses_state.
  destruct (sync_try_state d uid body) as [-> | [rs ->]]; [done|]. by apply insert_many_wf.
Qed.

Lemma sync_try_prefix d uid body : docs d `prefix_of` docs (sync_try d uid body).1.
Proof.
  destruct (sync_try_state d uid body) as [-> | [rs ->]]; [done|].
  apply insert_many_prefix.
Qed.

(** A submitted transaction is either already entered or new. *)
Lemma entered_or_new (ex : list Z) (txns : list jsval) t :
  In t txns ->
  is_entered ex t = true \/ In t (List.filter (fun t => negb (is_entered ex t)) txns).
Proof.
  intros Ht. destruct (is_entered ex t) eqn:He; [by left|].
  right. apply filter_In. by rewrite He.
Qed.

(** ** Properties of [syncExpenses] *)

(** C1. Idempotence: after a successful sync, submitting the same body
    again writes nothing, saves no transaction and reports every
    submitted transaction as already entered. *)
Theorem sync_idempotent d uid body d' msg saved already :
  syncExpenses d uid body = (d', Resp 201 (SyncSaved msg saved already)) ->
  exists txns, prop body "transactions" = Some (JArr txns) /\
    syncExpenses d' uid body =
      (d', Resp 201 (SyncSaved (sync_message 0 (length txns)) [] txns)).
Proof.
  intros Hs. pose proof (syncExpenses_state d uid body) as Hst. rewrite Hs in Hst.
  pose proof (sync_try_prefix d uid body) as Hpre. rewrite <- Hst in Hpre. simpl in Hpre.
  destruct (syncExpenses_201 _ _ _ _ _ Hs) as (txns & sv & Hp & Hnn & Hrest).
  cbv zeta in Hrest. destruct Hrest as [_ Hcase].
  exists txns. split; [done|]. apply syncExpenses_all_entered; [done | done |].
  intros t Ht.
  destruct (entered_or_new (existing_timestamps d uid
    (normalized_timestamps (map (fun t => prop t "timestamp") txns))) txns t Ht) as [He | Hnew].
  - rewrite is_entered_stored in He by done.
    destruct (date_getTime _) as [x|]; [|discriminate].
    exists x. split; [done|]. by apply (stored_at_prefix d).
  - destruct Hcase as [[Hnil _] | [_ Hi]]; [by rewrite Hnil in Hnew|].
    eapply inserted_stored; [exact Hi | exact Hnew].
Qed.

(** C5. A sync never removes or changes a stored expense: the documents
    before the call are a prefix of the documents after it, also when it
    answers 500. *)
Theorem sync_never_removes d uid body :
  docs d `prefix_of` docs (syncExpenses d uid body).1.
Proof. rewrite syncExpenses_state. apply sync_try_prefix. Qed.

(** C6. A 201 answer accounts for the whole batch: the saved documents are
    appended to the collection and belong to the caller, every submitted
    transaction is either saved or echoed as already entered, and the
    message states both counts. *)
Theorem sync_success_accounts d uid body d' msg saved already :
  syncExpenses d uid body = (d', Resp 201 (SyncSaved msg saved already)) ->
  exists txns, prop body "transactions" = Some (JArr txns) /\
    docs d' = docs d ++ saved /\
    Forall (fun e => userId e = uid) saved /\
    length saved + length already = length txns /\
    msg = sync_message (length saved) (length already).
Proof.
  intros Hs. destruct (syncExpenses_201 _ _ _ _ _ Hs) as (txns & sv & Hp & _ & Hrest).
  cbv zeta in Hrest. destruct Hrest as [[= -> -> ->] Hcase].
  exists txns. split; [done|].
  match goal with |- context [List.filter (is_entered ?ex) txns] =>
    pose proof (filter_length_split (is_entered ex) txns) as Hsplit end.
  destruct Hcase as [(Hnil & -> & ->) | (_ & Hi)].
  - rewrite Hnil in Hsplit. rewrite app_nil_r. simpl in *. repeat split; [constructor | lia].
  - apply insert_many_Ok in Hi as (Hc & Hd & _).
    apply cast_batch_Forall2 in Hc. split; [done|]. split.
    + apply Forall_forall. intros e He%list_elem_of_In.
      destruct (Forall2_In_r _ _ _ e Hc He) as (r & Hr & Hu & _).
      apply in_map_iff in Hr as (t & <- & _). done.
    + split; [|done]. rewrite <- (Forall2_length _ _ _ Hc), length_map. lia.
Qed.

Lemma doc_valid_not_null uid t : doc_valid (build_doc uid t) = true -> t <> JNull.
Proof. intros Hv ->. cbv in Hv. discriminate. Qed.

(** C4. Two new transactions of one batch with the same timestamp: the
    ordered [insertMany] writes the first, then stops at the duplicate key
    of the second, and the handler answers 500 "Server error while syncing
    messages" although one expense has been saved. *)
Theorem sync_duplicate_in_batch d uid body t1 t2 x :
  prop body "transactions" = Some (JArr [t1; t2]) ->
  date_getTime (prop t1 "timestamp") = Some x ->
  date_getTime (prop t2 "timestamp") = Some x ->
  stored_at d uid x = false ->
  doc_valid (build_doc uid t1) = true ->
  doc_valid (build_doc uid t2) = true ->
  exists e1,
    syncExpenses d uid body =
      (mkDb (docs d ++ [e1]) (next_oid d + 2),
       Resp 500 (SyncFailure "Server error while syncing messages")) /\
    userId e1 = uid /\ date e1 = x.
Proof.
  intros Hp Hx1 Hx2 Hns Hv1 Hv2.
  assert (Hnn : Forall (fun t => t <> JNull) [t1; t2])
    by (repeat constructor; eapply doc_valid_not_null; eauto).
  pose proof (is_entered_stored d uid [t1; t2] t1 ltac:(simpl; auto)) as He1.
  pose proof (is_entered_stored d uid [t1; t2] t2 ltac:(simpl; auto)) as He2.
  rewrite Hx1, Hns in He1. rewrite Hx2, Hns in He2.
  destruct (cast_expense_valid (next_oid d) _ Hv1) as [e1 Hc1].
  destruct (cast_expense_valid (S (next_oid d)) _ Hv2) as [e2 Hc2].
  pose proof (cast_expense_fields _ _ _ Hc1) as (_ & Hu1 & Hd1).
  pose proof (cast_expense_fields _ _ _ Hc2) as (_ & Hu2 & Hd2).
  simpl in Hu1, Hu2, Hd1, Hd2. rewrite Hx1 in Hd1. rewrite Hx2 in Hd2.
  injection Hd1 as Hd1. injection Hd2 as Hd2.
  exists e1. split; [|done].
  unfold syncExpenses. rewrite (sync_try_array _ _ _ _ Hp Hnn). cbv zeta.
  cbn [List.filter]. rewrite He1, He2. cbn [negb map length Nat.ltb Nat.leb].
  unfold insert_many. cbn [cast_batch length]. rewrite Hc1, Hc2. cbn [res_bind insert_ordered].
  rewrite insert_one_fresh; cbn [docs next_oid].
  - rewrite insert_one_taken; [done|]. cbn [docs].
    rewrite map_app, elem_of_app. right. simpl. rewrite list_elem_of_singleton.
    unfold ukey. congruence.
  - unfold ukey. rewrite Hu1, <- Hd1. intros Hin%stored_at_ukey. congruence.
Qed.

(** C7. A new transaction whose timestamp is not a valid date is not
    filtered out: it reaches [insertMany], whose validation rejects the
    whole batch; the handler answers 500 and nothing is written. *)
Theorem sync_invalid_timestamp_fails d uid body txns t :
  prop body "transactions" = Some (JArr txns) ->
  Forall (fun t => t <> JNull) txns ->
  In t txns -> date_getTime (prop t "timestamp") = None ->
  syncExpenses d uid body = (d, Resp 500 (SyncFailure "Server error while syncing messages")).
Proof.
  intros Hp Hnn Ht Hnan.
  unfold syncExpenses. rewrite (sync_try_array _ _ _ _ Hp Hnn). cbv zeta.
  match goal with |- context [List.filter (fun t => negb (is_entered ?ex t)) txns] =>
    destruct (entered_or_new ex txns t Ht) as [He | Hnew] end.
  { rewrite is_entered_stored, Hnan in He by done. discriminate. }
  destruct (List.filter _ txns) as [|t0 newT]; [destruct Hnew|].
  cbn [map length Nat.ltb Nat.leb].
  unfold insert_many. destruct (cast_batch _ _) as [es|err] eqn:Hc; [|done].
  exfalso. apply cast_batch_Forall2 in Hc.
  destruct (Forall2_In_l _ _ _ (build_doc uid t) Hc) as (e & _ & _ & Hd).
  { exact (in_map (build_doc uid) (t0 :: newT) t Hnew). }
  simpl in Hd. rewrite Hnan in Hd. discriminate.
Qed.

(** C8. A body whose [transactions] is missing or not an array is
    answered 400 "Transactions array is required" and writes nothing. *)
Theorem sync_rejects_non_array d uid body :
  body <> JNull -> is_array (prop body "transactions") = false ->
  syncExpenses d uid body = (d, Resp 400 (SyncMessage "Transactions array is required")).
Proof.
  intros Hb Ha. unfold syncExpenses, sync_try.
  rewrite get_prop_Ok by done. rewrite Ha, orb_true_r. done.
Qed.

End Sync.

(** ** Examples *)

Module SyncExamples.
#[local] Existing Instance date_parse_none.

(** A debit SMS of 15 March 2024, 00:00 UTC, for 50; a second SMS with
    the same timestamp; an SMS whose timestamp is no date. *)
Local Abbreviation txn_a := (JObj [("timestamp", JNum 1710460800000); ("amount", JNum 50);
  ("transactionType", JStr "debit"); ("sender", JStr "VM-HDFCBK")]).
Local Abbreviation txn_a' := (JObj [("timestamp", JNum 1710460800000); ("amount", JNum 70)]).
Local Abbreviation txn_bad := (JObj [("timestamp", JStr "yesterday"); ("amount", JNum 10)]).
Local Abbreviation body_of txns := (JObj [("transactions", JArr txns)]).

Local Abbreviation db0 := (mkDb [] 0).
Local Abbreviation exp_a := (mkExpense 0 7 "debit" 50 (Some "VM-HDFCBK") 1710460800000
  (Some "VM-HDFCBK") (Some "Unknown") None None).
Local Abbreviation db1 := (mkDb [exp_a] 1).

Lemma sync_idempotent_witness :
  exists txns, prop (body_of [txn_a]) "transactions" = Some (JArr txns) /\
    syncExpenses db1 7 (body_of [txn_a]) =
      (db1, Resp 201 (SyncSaved (sync_message 0 (length txns)) [] txns)).
Proof.
  apply (sync_idempotent db0 7 (body_of [txn_a]) db1
           "1 new transactions saved. 0 already existed." [exp_a] []).
  vm_compute. reflexivity.
Defined.

Lemma sync_duplicate_in_batch_witness :
  exists e1,
    syncExpenses db0 7 (body_of [txn_a; txn_a']) =
      (mkDb (docs db0 ++ [e1]) (next_oid db0 + 2),
       Resp 500 (SyncFailure "Server error while syncing messages")) /\
    userId e1 = 7 /\ date e1 = 1710460800000%Z.
Proof.
  apply (sync_duplicate_in_batch db0 7 (body_of [txn_a; txn_a']) txn_a txn_a' 1710460800000);
    vm_compute; reflexivity.
Defined.

Lemma sync_success_accounts_witness :
  exists txns, prop (body_of [txn_a]) "transactions" = Some (JArr txns) /\
    docs db1 = docs db0 ++ [exp_a] /\
    Forall (fun e => userId e = 7) [exp_a] /\
    length [exp_a] + length (@nil jsval) = length txns /\
    "1 new transactions saved. 0 already existed." = sync_message (length [exp_a]) 0.
Proof.
  apply (sync_success_accounts db0 7 (body_of [txn_a]) db1
           "1 new transactions saved. 0 already existed." [exp_a] []).
  vm_compute. reflexivity.
Defined.

Lemma sync_invalid_timestamp_fails_witness :
  syncExpenses db1 7 (body_of [txn_a; txn_bad]) =
    (db1, Resp 500 (SyncFailure "Server error while syncing messages")).
Proof.
  apply (sync_invalid_timestamp_fails db1 7 (body_of [txn_a; txn_bad]) [txn_a; txn_bad] txn_bad).
  - reflexivity.
  - repeat constructor; discriminate.
  - simpl; auto.
  - reflexivity.
Defined.

Lemma sync_rejects_non_array_witness :
  syncExpenses db1 7 (JObj [("transactions", JStr "[]")]) =
    (db1, Resp 400 (SyncMessage "Transactions array is required")).
Proof.
  apply sync_rejects_non_array; [discriminate | reflexivity].
Defined.

End SyncExamples.
