(* ===== verification/Concurrency.v ===== *)
(** * Concurrent syncs (controllers/expense.controller.ts lines 75-139;
      specification, section 5)

    Node.js runs the handlers of concurrent requests interleaved at
    their [await]s.  [syncExpenses] has two: the query for the existing
    timestamps (line 91) and the [insertMany] (line 123).  MongoDB runs
    an ordered [insertMany] one document after the other, and the writes
    of other connections can come in between two of its documents.  A
    sync request in flight is therefore in one of four phases
    ([sync_phase]): received; queried (the existing timestamps are known);
    inserting (the batch has passed Mongoose's validation, its ObjectIds
    are taken, and some of its documents are still to be written); or
    answered.  [sync_query] is the code up to and including the query,
    [sync_prepare] the partition, the documents and their validation,
    [insert_next] the insertion of one document (or, when none is left,
    the response).  Each runs atomically on the collection as it is when
    the request is scheduled.  A schedule is the order in which the
    requests in flight take their steps: [run_schedule] runs one on a
    state of the collection and the requests ([cstate]).

    [cstate_wf] is the invariant of a concurrent state: the collection's
    invariant, and the ObjectIds of the stored documents together with
    those taken by the documents still to be written are distinct and
    below the counter.

    [sync_run] runs one request alone for [n] steps; [sync_phases_agree]
    checks the phases against the handler: a request scheduled alone
    reaches the answer and the collection of [syncExpenses] after
    finitely many steps.  [sync_step_wf] states the invariant for one
    step of one request, whatever the others have pending, so that
    [Server] reuses it for requests of every kind.  The theorems hold
    for every schedule: the invariant holds, nothing is removed, and two
    syncs of one new transaction that both query before either inserts
    end with one stored expense and a 500 for the second. *)

From S2P Require Import Prelude Json Store Sync.

Section Concurrency.
Context `{dp : DateParse}.

Definition sync_error : response sync_body :=
  Resp 500 (SyncFailure "Server error while syncing messages").

Inductive sync_phase : Type :=
  | Received (uid : nat) (body : jsval)
  | Queried (uid : nat) (txns : list jsval) (existing : list Z)
  | Inserting (already : list jsval) (todo inserted : list expense)
  | Answered (r : response sync_body).

(** Lines 76-98: the request check, the timestamps and the query. *)
Definition sync_query (d : db) (uid : nat) (body : jsval) : sync_phase :=
  match get_prop (Some body) "transactions" with
  | Err _ => Answered sync_error
  | Ok transactions =>
      if negb (truthy transactions) || negb (is_array transactions) then
        Answered (Resp 400 (SyncMessage "Transactions array is required"))
      else
        let txns := match transactions with Some (JArr l) => l | _ => [] end in
        match read_timestamps txns with
        | Err _ => Answered sync_error
        | Ok tss => Queried uid txns (existing_timestamps d uid (normalized_timestamps tss))
        end
  end.

(** Lines 126-131: the 201 answer. *)
Definition saved_response (inserted : list expense) (already : list jsval) : response sync_body :=
  Resp 201 (SyncSaved (sync_message (length inserted) (length already)) inserted already).

(** Lines 100-123 up to the writes: the partition, the documents, and
    [insertMany]'s validation of the whole batch, which takes the
    ObjectIds; with no new transaction there is no [insertMany]. *)
Definition sync_prepare (d : db) (uid : nat) (txns : list jsval) (existing : list Z)
    : db * sync_phase :=
  let newTransactions := List.filter (fun t => negb (is_entered existing t)) txns in
  let alreadyEntered := List.filter (is_entered existing) txns in
  let expensesToInsert := map (build_doc uid) newTransactions in
  if Nat.ltb 0 (length expensesToInsert) then
    match cast_batch (next_oid d) expensesToInsert with
    | Err _ => (d, Answered sync_error)
    | Ok es => (mkDb (docs d) (next_oid d + length expensesToInsert), Inserting alreadyEntered es [])
    end
  else (d, Answered (saved_response [] alreadyEntered)).

(** One document of the ordered [insertMany] (line 123); the first
    duplicate key stops it and the [catch] answers 500.  With no document
    left, the response (lines 126-131). *)
Definition insert_next (d : db) (already : list jsval) (todo inserted : list expense)
    : db * sync_phase :=
  match todo with
  | [] => (d, Answered (saved_response inserted already))
  | e :: todo' =>
      match insert_one d e with
      | Ok d' => (d', Inserting already todo' (inserted ++ [e]))
      | Err _ => (d, Answered sync_error)
      end
  end.

(** One step of a request in flight. *)
Definition sync_step (d : db) (th : sync_phase) : db * sync_phase :=
  match th with
  | Received uid body => (d, sync_query d uid body)
  | Queried uid txns ex => sync_prepare d uid txns ex
  | Inserting already todo inserted => insert_next d already todo inserted
  | Answered r => (d, Answered r)
  end.

(** The collection and the requests in flight. *)
Record cstate : Type := mkCState {
  cdb : db;
  threads : list sync_phase
}.

(** Request [i] takes its next step. *)
Definition cstep_at (s : cstate) (i : nat) : cstate :=
  match threads s !! i with
  | Some th => let '(d', th') := sync_step (cdb s) th in mkCState d' (<[i := th']> (threads s))
  | None => s
  end.

Definition run_schedule (s : cstate) (sched : list nat) : cstate := fold_left cstep_at sched s.

(** [n] steps of one request, with no other request in between. *)
Fixpoint sync_run (n : nat) (d : db) (th : sync_phase) : db * sync_phase :=
  match n with
  | 0 => (d, th)
  | S n => let '(d', th') := sync_step d th in sync_run n d' th'
  end.

End Concurrency.

(** The documents a request has validated but not written yet. *)
Definition pending (th : sync_phase) : list expense :=
  match th with Inserting _ todo _ => todo | _ => [] end.

(** The collection's invariant, with the ObjectIds taken by the pending
    documents. *)
Definition cstate_wf (s : cstate) : Prop :=
  db_wf (cdb s) /\
  NoDup (map oid (docs (cdb s) ++ flat_map pending (threads s))) /\
  Forall (fun e => oid e < next_oid (cdb s)) (flat_map pending (threads s)).

#[export] Instance cstate_wf_dec s : Decision (cstate_wf s).
Proof. unfold cstate_wf. apply _. Defined.

(** ** Lemmas *)

Section ConcurrencyLemmas.
Context `{dp : DateParse}.

(** A request running alone. *)
Lemma run_alone d th n :
  run_schedule (mkCState d [th]) (repeat 0 n) = let '(d', th') := sync_run n d th in mkCState d' [th'].
Proof.
  revert d th; induction n as [|n IH]; intros d th; [done|].
  unfold run_schedule in *. simpl. unfold cstep_at at 2. simpl.
  destruct (sync_step d th) as [d1 th1]. apply IH.
Qed.

Lemma sync_run_answered d r n : sync_run n d (Answered r) = (d, Answered r).
Proof. induction n as [|n IH]; [done|]. exact IH. Qed.

Lemma sync_run_add n m d th :
  sync_run (n + m) d th = let '(d', th') := sync_run n d th in sync_run m d' th'.
Proof.
  revert d th; induction n as [|n IH]; intros d th; [done|].
  simpl. destruct (sync_step d th) as [d1 th1]. apply IH.
Qed.

(** Once answered, a request stays answered. *)
Lemma sync_run_stable n m d th d' r :
  sync_run n d th = (d', Answered r) -> n <= m -> sync_run m d th = (d', Answered r).
Proof.
  intros H Hm. replace m with (n + (m - n)) by lia. rewrite sync_run_add, H. apply sync_run_answered.
Qed.

(** The writes of a validated batch, alone: the ordered insertion, one
    document per step, then the answer. *)
Lemma sync_run_inserting d a todo ins :
  sync_run (S (length todo)) d (Inserting a todo ins) =
  let '(d', r) := insert_ordered d todo in
  (d', Answered (match r with Ok l => saved_response (ins ++ l) a | Err _ => sync_error end)).
Proof.
  revert d ins; induction todo as [|e todo IH]; intros d ins.
  - simpl. by rewrite app_nil_r.
  - change (S (length (e :: todo))) with (1 + S (length todo)). rewrite sync_run_add.
    simpl (sync_run 1 _ _). cbn [insert_ordered]. destruct (insert_one d e) as [d1|err].
    + rewrite IH. destruct (insert_ordered d1 todo) as [d2 [l|err]]; simpl; [|done].
      by rewrite <- app_assoc.
    + apply sync_run_answered.
Qed.

(** The request, alone, reaches the answer and the collection of
    [syncExpenses]: the query, the validation, one step per document and
    the answer. *)
Lemma sync_run_agrees d uid body :
  exists n, sync_run n d (Received uid body) =
            ((syncExpenses d uid body).1, Answered (syncExpenses d uid body).2).
Proof.
  unfold syncExpenses, sync_try.
  destruct (get_prop (Some body) "transactions") as [tr|] eqn:Hg;
    [destruct (_ || _)%bool eqn:Hb; [|destruct (read_timestamps _) as [tss|] eqn:Hr]|];
    try (exists 1; cbn [sync_run sync_step]; unfold sync_query; rewrite ?Hg, ?Hb, ?Hr; reflexivity).
  set (ex := existing_timestamps d uid (normalized_timestamps tss)).
  set (txns := match tr with Some (JArr l) => l | _ => [] end) in *.
  set (L := map (build_doc uid) (List.filter (fun t => negb (is_entered ex t)) txns)).
  assert (Hq : forall n, sync_run (S (S n)) d (Received uid body) =
             let '(d', th') := sync_prepare d uid txns ex in sync_run n d' th').
  { intros n. cbn [sync_run sync_step]. unfold sync_query. rewrite Hg, Hb. fold txns. rewrite Hr.
    done. }
  unfold sync_prepare in Hq. fold L in Hq |- *.
  destruct (Nat.ltb 0 (length L)) eqn:Hl; [|exists 2; rewrite (Hq 0); reflexivity].
  unfold insert_many. destruct (cast_batch (next_oid d) L) as [es|err] eqn:Hc;
    [|exists 2; rewrite (Hq 0); reflexivity].
  exists (S (S (S (length es)))). rewrite Hq. cbv beta iota. rewrite sync_run_inserting.
  destruct (insert_ordered _ es) as [d' [l|err]]; reflexivity.
Qed.

Lemma insert_Permutation {A} (l : list A) i x y : l !! i = Some x -> <[i:=y]> l ≡ₚ y :: delete i l.
Proof.
  revert i; induction l as [|z l IH]; intros [|i] H; simpl in *; try discriminate; [done|].
  rewrite (IH i H). constructor.
Qed.

(** The pending documents after a request moved from [x] to [y], in any
    list of requests: the others' and its own. *)
Lemma flat_map_insert {A B} (f : A -> list B) ts i x y :
  ts !! i = Some x ->
  flat_map f ts ≡ₚ flat_map f (delete i ts) ++ f x /\
  flat_map f (<[i:=y]> ts) ≡ₚ flat_map f (delete i ts) ++ f y.
Proof.
  intros H. split; [rewrite (Permutation_flat_map f (delete_Permutation ts i x H))
                   |rewrite (Permutation_flat_map f (insert_Permutation ts i x y H))];
    simpl; apply Permutation_app_comm.
Qed.

(** Fewer pending documents keep the invariant's id conditions. *)
Lemma pending_sub d P Q R :
  NoDup (map oid (docs d ++ P)) -> Forall (fun e => oid e < next_oid d) P -> P ≡ₚ Q ++ R ->
  NoDup (map oid (docs d ++ Q)) /\ Forall (fun e => oid e < next_oid d) Q.
Proof.
  intros Hnd Hlt HP. rewrite HP, app_assoc, map_app in Hnd. rewrite HP in Hlt.
  apply NoDup_app in Hnd as [Hnd _]. apply Forall_app in Hlt as [Hlt _]. done.
Qed.

Lemma sync_query_pending d uid body : pending (sync_query d uid body) = [].
Proof. unfold sync_query. by repeat case_match. Qed.

Lemma sync_prepare_cases d uid txns ex d' th' :
  sync_prepare d uid txns ex = (d', th') ->
  (d' = d /\ pending th' = []) \/
  exists rs es a, cast_batch (next_oid d) rs = Ok es /\
    d' = mkDb (docs d) (next_oid d + length rs) /\ th' = Inserting a es [].
Proof.
  unfold sync_prepare. destruct (Nat.ltb _ _); [|intros [= <- <-]; by left].
  destruct (cast_batch _ _) as [es|err] eqn:Hc; intros [= <- <-]; [right|by left]. eauto 6.
Qed.

(** A validated batch takes fresh ids: the invariant holds with its
    documents pending. *)
Lemma wf_reserve d P rs es :
  db_wf d -> NoDup (map oid (docs d ++ P)) -> Forall (fun e => oid e < next_oid d) P ->
  cast_batch (next_oid d) rs = Ok es ->
  db_wf (mkDb (docs d) (next_oid d + length rs)) /\
  NoDup (map oid (docs d ++ P ++ es)) /\ Forall (fun e => oid e < next_oid d + length rs) (P ++ es).
Proof.
  intros (Hk & Ho & Hb) Hnd Hlt Hc. pose proof (cast_batch_oids _ _ _ Hc) as Hids.
  assert (Hold : forall x, x ∈ map oid (docs d ++ P) -> x < next_oid d).
  { intros x (e & -> & He)%list_elem_of_fmap. apply elem_of_app in He as [He|He];
      [apply (proj1 (Forall_forall _ _) Hb)|apply (proj1 (Forall_forall _ _) Hlt)]; done. }
  split; [|split].
  - split; [done|]. split; [done|]. eapply Forall_impl; [exact Hb|]. simpl; lia.
  - rewrite app_assoc, map_app, Hids. apply NoDup_app. split; [done|]. split; [|apply NoDup_seq].
    intros x Hx%Hold Hs%elem_of_seq. lia.
  - apply Forall_app. split; [eapply Forall_impl; [exact Hlt|]; simpl; lia|].
    apply Forall_forall. intros e He. assert (Hs : oid e ∈ seq (next_oid d) (length rs)).
    { rewrite <- Hids. by apply list_elem_of_fmap_2. }
    apply elem_of_seq in Hs. lia.
Qed.

(** Writing one pending document keeps the invariant. *)
Lemma wf_write d P e :
  db_wf d -> NoDup (map oid (docs d ++ e :: P)) -> Forall (fun x => oid x < next_oid d) (e :: P) ->
  ukey e ∉ map ukey (docs d) ->
  db_wf (mkDb (docs d ++ [e]) (next_oid d)) /\
  NoDup (map oid ((docs d ++ [e]) ++ P)) /\ Forall (fun x => oid x < next_oid d) P.
Proof.
  intros (Hk & Ho & Hb) Hnd [He Hlt]%Forall_cons Hfree.
  rewrite <- app_assoc. simpl. split; [|done].
  split; [simpl; rewrite map_app; by apply NoDup_snoc|]. split.
  - simpl. rewrite <- (app_nil_r (docs d ++ [e])), <- app_assoc. simpl.
    rewrite map_app in Hnd |- *. simpl in *. apply NoDup_app in Hnd as (H1 & H2 & H3).
    apply NoDup_app. split; [done|]. split; [|apply NoDup_singleton].
    intros x Hx ->%list_elem_of_singleton. apply (H2 _ Hx). by left.
  - simpl. apply Forall_app. split; [done|]. by apply Forall_singleton.
Qed.

(** One step of a request keeps the invariant, [P] being the documents
    the other requests have pending. *)
Lemma sync_step_wf d th P :
  db_wf d -> NoDup (map oid (docs d ++ P ++ pending th)) ->
  Forall (fun e => oid e < next_oid d) (P ++ pending th) ->
  let '(d', th') := sync_step d th in
  db_wf d' /\ NoDup (map oid (docs d' ++ P ++ pending th')) /\
  Forall (fun e => oid e < next_oid d') (P ++ pending th').
Proof.
  intros Hwf Hnd Hlt. destruct (sync_step d th) as [d' th'] eqn:Hs.
  destruct th as [uid body|uid txns ex|a todo ins|r]; simpl in Hs, Hnd, Hlt.
  - injection Hs as <- <-. by rewrite sync_query_pending.
  - apply sync_prepare_cases in Hs as [[-> ->]|(rs & es & a & Hc & -> & ->)]; [done|].
    rewrite app_nil_r in Hnd, Hlt. simpl. by apply wf_reserve.
  - destruct todo as [|e todo]; simpl in Hs; [by injection Hs as <- <-|].
    destruct (insert_one d e) as [d1|err] eqn:Hins; injection Hs as <- <-; simpl.
    + apply insert_one_Ok in Hins as [-> Hfree].
      rewrite <- Permutation_middle in Hnd, Hlt. simpl. by apply wf_write.
    + rewrite app_nil_r. split; [done|]. by apply (pending_sub d (P ++ e :: todo) P (e :: todo)).
  - by injection Hs as <- <-.
Qed.

(** Every step of every request keeps the invariant. *)
Lemma cstep_at_wf s i : cstate_wf s -> cstate_wf (cstep_at s i).
Proof.
  unfold cstep_at. destruct (threads s !! i) as [th|] eqn:Hi; [|done].
  destruct s as [d ts]. simpl in *. intros (Hwf & Hnd & Hlt).
  pose proof (sync_step_wf d th (flat_map pending (delete i ts)) Hwf) as Hs.
  destruct (sync_step d th) as [d' th'].
  destruct (flat_map_insert pending ts i th th' Hi) as [H1 H2].
  rewrite H1 in Hnd, Hlt. unfold cstate_wf. simpl. rewrite H2. by apply Hs.
Qed.

Lemma sync_step_prefix d th : docs d `prefix_of` docs (sync_step d th).1.
Proof.
  destruct th as [uid body|uid txns ex|a [|e todo] ins|r]; simpl; try done.
  - destruct (sync_prepare d uid txns ex) as [d' th'] eqn:Hs.
    by apply sync_prepare_cases in Hs as [[-> _]|(rs & es & a & _ & -> & _)].
  - destruct (insert_one d e) as [d1|err] eqn:Hins; simpl; [|done].
    apply insert_one_Ok in Hins as [-> _]. simpl. by eexists.
Qed.

Lemma cstep_at_prefix s i : docs (cdb s) `prefix_of` docs (cdb (cstep_at s i)).
Proof.
  unfold cstep_at. destruct (threads s !! i) as [th|]; [|done].
  pose proof (sync_step_prefix (cdb s) th). by destruct (sync_step (cdb s) th).
Qed.

Lemma sync_query_array d uid body txns :
  prop body "transactions" = Some (JArr txns) -> Forall (fun t => t <> JNull) txns ->
  sync_query d uid body =
    Queried uid txns (existing_timestamps d uid (normalized_timestamps (map (fun t => prop t "timestamp") txns))).
Proof.
  intros Hp Hnn. unfold sync_query.
  rewrite get_prop_Ok by (intros ->; discriminate Hp). rewrite Hp.
  cbn [negb truthy is_array orb]. by rewrite read_timestamps_total.
Qed.

(** One new transaction: its document is validated under the next id. *)
Lemma sync_prepare_one d uid t ex e :
  is_entered ex t = false -> cast_expense (next_oid d) (build_doc uid t) = Ok e ->
  sync_prepare d uid [t] ex = (mkDb (docs d) (S (next_oid d)), Inserting [] [e] []).
Proof.
  intros Ht Hc. unfold sync_prepare. cbn [List.filter]. rewrite Ht. cbn.
  rewrite Hc. cbn. by rewrite Nat.add_1_r.
Qed.

End ConcurrencyLemmas.

(** ** Properties *)

Section ConcurrencyProperties.
Context `{dp : DateParse}.

(** A sync request scheduled alone reaches, after finitely many
    steps (the query, the validation, one step per document and the
    answer), exactly the answer and the collection of [syncExpenses],
    and stays there: the phased model agrees with the handler. *)
Theorem sync_phases_agree d uid body :
  exists n, forall m, n <= m ->
    run_schedule (mkCState d [Received uid body]) (repeat 0 m) =
    mkCState (syncExpenses d uid body).1 [Answered (syncExpenses d uid body).2].
Proof.
  destruct (sync_run_agrees d uid body) as [n Hn]. exists n. intros m Hm.
  by rewrite run_alone, (sync_run_stable _ _ _ _ _ _ Hn Hm).
Qed.

(** C3. Under every schedule of concurrent syncs, whose writes
    interleave document by document, the invariant holds: the unique
    index on [(userId, date)] and distinct stored ids below the counter,
    with the ids that pending documents have taken distinct from all
    others. *)
Theorem schedule_preserves_wf s sched : cstate_wf s -> cstate_wf (run_schedule s sched).
Proof.
  unfold run_schedule. revert s; induction sched as [|i sched IH]; intros s Hs; [done|].
  simpl. by apply IH, cstep_at_wf.
Qed.

(** Under every schedule, no stored expense is removed or changed. *)
Theorem schedule_never_removes s sched : docs (cdb s) `prefix_of` docs (cdb (run_schedule s sched)).
Proof.
  unfold run_schedule. revert s; induction sched as [|i sched IH]; intros s; [done|].
  simpl. etrans; [|apply IH]. apply cstep_at_prefix.
Qed.

(** C2. Two syncs of one new, valid transaction by the same user that
    both query before either inserts (and both validate before either
    writes): the first saves it (201), the second hits the unique index
    and answers 500; one expense is stored. *)
Theorem concurrent_syncs_race d uid body t x :
  prop body "transactions" = Some (JArr [t]) ->
  date_getTime (prop t "timestamp") = Some x ->
  stored_at d uid x = false ->
  doc_valid (build_doc uid t) = true ->
  exists e,
    run_schedule (mkCState d [Received uid body; Received uid body]) [0; 1; 0; 1; 0; 1; 0] =
      mkCState (mkDb (docs d ++ [e]) (S (S (next_oid d))))
        [Answered (Resp 201 (SyncSaved (sync_message 1 0) [e] [])); Answered sync_error] /\
    userId e = uid /\ date e = x.
Proof.
  intros Hp Hx Hns Hv.
  assert (Hnn : Forall (fun t => t <> JNull) [t]) by (repeat constructor; by eapply doc_valid_not_null).
  pose proof (is_entered_stored d uid [t] t ltac:(simpl; auto)) as He. rewrite Hx, Hns in He.
  destruct (cast_expense_valid (next_oid d) _ Hv) as [e Hc].
  destruct (cast_expense_valid (S (next_oid d)) _ Hv) as [e' Hc'].
  pose proof (cast_expense_fields _ _ _ Hc) as (_ & Hu & Hd).
  pose proof (cast_expense_fields _ _ _ Hc') as (_ & Hu' & Hd').
  simpl in Hu, Hu', Hd, Hd'. rewrite Hx in Hd, Hd'. injection Hd as Hd. injection Hd' as Hd'.
  exists e. split; [|done].
  set (ex := existing_timestamps d uid _) in He.
  assert (Hfree : insert_one (mkDb (docs d) (S (S (next_oid d)))) e =
                  Ok (mkDb (docs d ++ [e]) (S (S (next_oid d))))).
  { unfold insert_one. simpl. replace (existsb (same_ukey e) (docs d)) with false; [done|].
    symmetry. apply not_true_iff_false. rewrite existsb_same_ukey.
    unfold ukey. rewrite Hu, <- Hd. intros Hin%stored_at_ukey. congruence. }
  assert (Hdup : exists err, insert_one (mkDb (docs d ++ [e]) (S (S (next_oid d)))) e' = Err err).
  { unfold insert_one. simpl. replace (existsb (same_ukey e') (docs d ++ [e])) with true; [eauto|].
    symmetry. rewrite existsb_same_ukey. rewrite map_app, elem_of_app. right. simpl.
    rewrite list_elem_of_singleton. unfold ukey. congruence. }
  destruct Hdup as [err Hdup].
  unfold run_schedule. cbn [fold_left]. unfold cstep_at. cbn [threads cdb lookup list_lookup sync_step].
  rewrite (sync_query_array _ _ _ _ Hp Hnn). fold ex. cbn.
  rewrite (sync_query_array _ _ _ _ Hp Hnn). fold ex. cbn.
  rewrite (sync_prepare_one _ _ _ _ _ He Hc). cbn.
  rewrite (sync_prepare_one (mkDb (docs d) (S (next_oid d))) _ _ _ _ He Hc'). cbn.
  rewrite Hfree. cbn. rewrite Hdup. cbn. done.
Qed.

End ConcurrencyProperties.

(** ** Examples *)

Module ConcurrencyExamples.
#[local] Existing Instance date_parse_none.

(** The same SMS of 15 March 2024 sent twice by user 7 from two
    connections at once. *)
Local Abbreviation txn_a := (JObj [("timestamp", JNum 1710460800000); ("amount", JNum 50)]).
Local Abbreviation body_a := (JObj [("transactions", JArr [txn_a])]).

Lemma concurrent_syncs_race_witness :
  exists e,
    run_schedule (mkCState (mkDb [] 0) [Received 7 body_a; Received 7 body_a]) [0; 1; 0; 1; 0; 1; 0] =
      mkCState (mkDb ([] ++ [e]) 2)
        [Answered (Resp 201 (SyncSaved (sync_message 1 0) [e] [])); Answered sync_error] /\
    userId e = 7 /\ date e = 1710460800000%Z.
Proof.
  apply (concurrent_syncs_race (mkDb [] 0) 7 body_a txn_a); reflexivity.
Defined.

Lemma schedule_preserves_wf_witness :
  cstate_wf (mkCState (mkDb [] 0) [Received 7 body_a; Received 7 body_a]) /\
  cstate_wf (run_schedule (mkCState (mkDb [] 0) [Received 7 body_a; Received 7 body_a])
               [0; 1; 0; 1; 0; 1; 0]).
Proof.
  assert (H : cstate_wf (mkCState (mkDb [] 0) [Received 7 body_a; Received 7 body_a]))
    by (apply (bool_decide_unpack _); vm_compute; exact I).
  split; [exact H|]. apply schedule_preserves_wf. exact H.
Defined.

(** Two SMS of user 7, sent in opposite orders from two connections.
    The two [insertMany]s interleave document by document: each request
    writes its first document and then hits the other's, so both
    transactions are stored and both callers are answered 500. *)
Local Abbreviation txn_b := (JObj [("timestamp", JNum 1710547200000); ("amount", JNum 20)]).
Local Abbreviation body_ab := (JObj [("transactions", JArr [txn_a; txn_b])]).
Local Abbreviation body_ba := (JObj [("transactions", JArr [txn_b; txn_a])]).

Example crossed_batches_both_fail :
  let s := run_schedule (mkCState (mkDb [] 0) [Received 7 body_ab; Received 7 body_ba])
                        [0; 1; 0; 1; 0; 1; 0; 1] in
  map date (docs (cdb s)) = [1710460800000%Z; 1710547200000%Z] /\
  threads s = [Answered sync_error; Answered sync_error].
Proof. vm_compute. split; reflexivity. Qed.

End ConcurrencyExamples.
