(* ===== verification/Monthly.v ===== *)
(** * [getMonthlyExpenses] (controllers/expense.controller.ts, lines 33-72)

    The handler runs an aggregation pipeline over the Expense collection
    and formats its result:
    - [$match: { userId, category: "debit" }] (line 40): [match_stage];
    - [$group] by [{year: $year date, month: $month date}] with
      [$sum: "$amount"] and [$push: "$$ROOT"] (lines 42-48): [group_stage],
      a fold over the matched documents in natural order that keeps one
      accumulator per key, in the order the keys are first met;
    - [$sort: {"_id.year": -1, "_id.month": -1}] (line 49): [sort_stage];
    - the [map] of lines 58-65: [format], which writes the key as
      ["<monthNames[month - 1]> <year>"].
    [getMonthlyExpenses] answers 200 with the formatted list.

    The abstract specification [monthly_spec] says what the report is:
    the caller's debit expenses partitioned by calendar month, one entry
    per month that has some, most recent month first, each with the sum
    of its amounts.  [monthly_refines_spec] proves that the pipeline
    computes it. *)

From S2P Require Import Prelude Json Store Calendar.

(** ** Data *)

(** A [$group] output document: [_id: {year, month}], [totalAmount],
    [transactions]. *)
Record month_group : Type := mkGroup {
  g_year : Z;
  g_month : Z;
  g_total : Z;
  g_transactions : list expense
}.

(** An element of the response: [{month, totalAmount, transactions}]. *)
Record month_summary : Type := mkSummary {
  month : string;
  totalAmount : Z;
  transactions : list expense
}.

(** The grouping key of a document. *)
Definition month_key (e : expense) : Z * Z := (year_of (date e), month_of (date e)).

Definition g_key (g : month_group) : Z * Z := (g_year g, g_month g).

(** [(y1, m1) >= (y2, m2)] in the order of [$sort: {year: -1, month: -1}]. *)
Definition key_ge (k1 k2 : Z * Z) : Prop :=
  (k2.1 < k1.1 \/ (k2.1 = k1.1 /\ k2.2 <= k1.2))%Z.

#[export] Instance key_ge_dec k1 k2 : Decision (key_ge k1 k2).
Proof. unfold key_ge. apply _. Defined.

Definition group_ge (g1 g2 : month_group) : Prop := key_ge (g_key g1) (g_key g2).

#[export] Instance group_ge_dec g1 g2 : Decision (group_ge g1 g2).
Proof. unfold group_ge. apply _. Defined.

(** ** The pipeline *)

Definition match_stage (uid : nat) (l : list expense) : list expense :=
  List.filter (fun e => Nat.eqb (userId e) uid && String.eqb (category e) "debit")%bool l.

(** One document into the accumulators: [$sum] adds its amount and
    [$push] appends it to the group of its key, or a new group starts. *)
Fixpoint group_add (e : expense) (gs : list month_group) : list month_group :=
  match gs with
  | [] => [mkGroup (month_key e).1 (month_key e).2 (amount e) [e]]
  | g :: gs' =>
      if decide (g_key g = month_key e)
      then mkGroup (g_year g) (g_month g) (g_total g + amount e)%Z (g_transactions g ++ [e]) :: gs'
      else g :: group_add e gs'
  end.

Definition group_stage (l : list expense) : list month_group :=
  fold_left (fun gs e => group_add e gs) l [].

Definition sort_stage (gs : list month_group) : list month_group :=
  merge_sort group_ge gs.

Definition monthNames : list string :=
  ["January"; "February"; "March"; "April"; "May"; "June";
   "July"; "August"; "September"; "October"; "November"; "December"].

(** [monthNames[month - 1]] inside a template literal: an index outside
    the array prints as ["undefined"]. *)
Definition month_name (m : Z) : string :=
  if (m - 1 <? 0)%Z then "undefined"
  else match nth_error monthNames (Z.to_nat (m - 1)) with
       | Some n => n
       | None => "undefined"
       end.

Definition format (g : month_group) : month_summary :=
  mkSummary (month_name (g_month g) +:+ " " +:+ string_of_Z (g_year g))
            (g_total g) (g_transactions g).

Definition monthly_groups (d : db) (uid : nat) : list month_group :=
  sort_stage (group_stage (match_stage uid (docs d))).

Definition monthly_pipeline (d : db) (uid : nat) : list month_summary :=
  map format (monthly_groups d uid).

(** The handler: [res.json(formatted)], status 200.  (The [catch] of
    lines 68-71 is unreachable here: the pipeline cannot fail on a
    collection of validated documents.) *)
Definition getMonthlyExpenses (d : db) (uid : nat) : response (list month_summary) :=
  Resp 200 (monthly_pipeline d uid).

(** The keys of [group_stage], in the order they are first met. *)
Definition seen_keys (l : list expense) : list (Z * Z) :=
  fold_left (fun ks e => if decide (month_key e ∈ ks) then ks else ks ++ [month_key e]) l [].

(** ** The specification *)

Definition sum_amounts (l : list expense) : Z := fold_right (fun e s => amount e + s)%Z 0%Z l.

(** The caller's debit expenses of month [k], with their total. *)
Definition group_of (l : list expense) (k : Z * Z) : month_group :=
  let es := List.filter (fun e => bool_decide (month_key e = k)) l in
  mkGroup k.1 k.2 (sum_amounts es) es.

(** The months that have a debit expense, most recent first. *)
Definition spec_months (l : list expense) : list (Z * Z) :=
  merge_sort key_ge (remove_dups (map month_key l)).

Definition monthly_spec (d : db) (uid : nat) : list month_summary :=
  let l := match_stage uid (docs d) in
  map (fun k => format (group_of l k)) (spec_months l).

(** ** Lemmas *)

Lemma sum_amounts_app l1 l2 : sum_amounts (l1 ++ l2) = (sum_amounts l1 + sum_amounts l2)%Z.
Proof. induction l1 as [|e l1 IH]; simpl; [done|]. rewrite IH. lia. Qed.

Lemma g_key_group_of l k : g_key (group_of l k) = k.
Proof. by destruct k. Qed.

Lemma group_of_snoc_other l e k :
  month_key e <> k -> group_of (l ++ [e]) k = group_of l k.
Proof.
  intros Hne. unfold group_of. rewrite List.filter_app. simpl.
  rewrite bool_decide_false by done. by rewrite app_nil_r.
Qed.

Lemma group_of_snoc_same l e :
  group_of (l ++ [e]) (month_key e) =
  let g := group_of l (month_key e) in
  mkGroup (g_year g) (g_month g) (g_total g + amount e)%Z (g_transactions g ++ [e]).
Proof.
  unfold group_of. rewrite List.filter_app. simpl. rewrite bool_decide_true by done.
  rewrite sum_amounts_app. simpl. f_equal. lia.
Qed.

Lemma group_of_absent l k :
  (forall e, In e l -> month_key e <> k) -> List.filter (fun e => bool_decide (month_key e = k)) l = [].
Proof.
  intros H. apply filter_all_false. apply Forall_forall. intros e He%list_elem_of_In.
  by apply bool_decide_false, H.
Qed.

(** One accumulation step on accumulators that are the groups of [l]
    for the keys [ks]. *)
Lemma group_add_groups l e ks :
  NoDup ks ->
  (month_key e ∉ ks -> forall e', In e' l -> month_key e' <> month_key e) ->
  group_add e (map (group_of l) ks) =
  map (group_of (l ++ [e])) (if decide (month_key e ∈ ks) then ks else ks ++ [month_key e]).
Proof.
  induction ks as [|k ks IH]; intros Hnd Hfresh.
  - rewrite decide_False by set_solver. simpl. f_equal.
    unfold group_of. rewrite List.filter_app, group_of_absent by (apply Hfresh; set_solver).
    simpl. rewrite bool_decide_true by done. simpl. f_equal; [by destruct (month_key e)..|lia].
  - apply NoDup_cons in Hnd as [Hk Hnd]. simpl. rewrite g_key_group_of.
    destruct (decide (k = month_key e)) as [->|Hne].
    + rewrite decide_True by set_solver. simpl. rewrite group_of_snoc_same. f_equal.
      apply map_ext_in. intros k' Hk'%list_elem_of_In.
      rewrite group_of_snoc_other; [done|]. intros Heq. rewrite <- Heq in Hk'. done.
    + rewrite IH; [| done | intros Hn; apply Hfresh; set_solver].
      destruct (decide (month_key e ∈ ks)).
      * rewrite decide_True by set_solver. simpl. by rewrite group_of_snoc_other by congruence.
      * rewrite decide_False by set_solver. simpl. by rewrite group_of_snoc_other by congruence.
Qed.

Lemma seen_keys_snoc l e :
  seen_keys (l ++ [e]) =
  (if decide (month_key e ∈ seen_keys l) then seen_keys l else seen_keys l ++ [month_key e]).
Proof. unfold seen_keys. by rewrite fold_left_app. Qed.

Lemma seen_keys_spec l :
  NoDup (seen_keys l) /\ forall k, k ∈ seen_keys l <-> k ∈ map month_key l.
Proof.
  induction l as [|e l IH] using rev_ind.
  - split; [constructor | set_solver].
  - destruct IH as [Hnd Hel]. rewrite seen_keys_snoc, map_app.
    destruct (decide (month_key e ∈ seen_keys l)) as [Hin|Hnin].
    + split; [done|]. intros k. rewrite Hel. apply Hel in Hin. simpl.
      rewrite elem_of_app, list_elem_of_singleton. split; [auto | intros [?| ->]; done].
    + split.
      * apply NoDup_app. split; [done|]. split; [set_solver|]. apply NoDup_singleton.
      * intros k. rewrite !elem_of_app, Hel. done.
Qed.

(** [$group] computes, for each key in the order first met, the total and
    the documents of that key. *)
Lemma group_stage_spec l : group_stage l = map (group_of l) (seen_keys l).
Proof.
  induction l as [|e l IH] using rev_ind; [done|].
  unfold group_stage in *. rewrite fold_left_app. simpl. rewrite IH.
  destruct (seen_keys_spec l) as [Hnd Hel].
  rewrite seen_keys_snoc. apply group_add_groups; [done|].
  intros Hn e' He' Heq. apply Hn, Hel. rewrite <- Heq.
  apply list_elem_of_fmap_2, list_elem_of_In, He'.
Qed.

#[export] Instance key_ge_total : Total key_ge.
Proof. intros [y1 m1] [y2 m2]. unfold key_ge; simpl. lia. Qed.

#[export] Instance key_ge_trans : Transitive key_ge.
Proof. intros [y1 m1] [y2 m2] [y3 m3]. unfold key_ge; simpl. lia. Qed.

#[export] Instance group_ge_total : Total group_ge.
Proof. intros g1 g2. apply key_ge_total. Qed.

#[export] Instance group_ge_trans : Transitive group_ge.
Proof. intros g1 g2 g3. apply key_ge_trans. Qed.

Lemma key_ge_antisym k1 k2 : key_ge k1 k2 -> key_ge k2 k1 -> k1 = k2.
Proof. destruct k1 as [y1 m1], k2 as [y2 m2]. unfold key_ge; simpl. intros. f_equal; lia. Qed.

Lemma spec_months_spec l :
  NoDup (spec_months l) /\ forall k, k ∈ spec_months l <-> k ∈ map month_key l.
Proof.
  unfold spec_months. split.
  - rewrite merge_sort_Permutation. apply NoDup_remove_dups.
  - intros k. by rewrite merge_sort_Permutation, elem_of_remove_dups.
Qed.

(** The sorted groups are the groups of the specified months. *)
Lemma sort_groups_spec l :
  sort_stage (group_stage l) = map (group_of l) (spec_months l).
Proof.
  rewrite group_stage_spec. unfold sort_stage.
  destruct (seen_keys_spec l) as [Hnd1 Hel1]. destruct (spec_months_spec l) as [Hnd2 Hel2].
  apply Sorted_unique_strong with (R := group_ge); [apply _| | | |].
  - intros g1 g2 Hg1 Hg2 H12 H21.
    rewrite merge_sort_Permutation in Hg1.
    apply list_elem_of_fmap in Hg1 as (k1 & -> & _). apply list_elem_of_fmap in Hg2 as (k2 & -> & _).
    unfold group_ge in *. rewrite !g_key_group_of in *. f_equal. by apply key_ge_antisym.
  - apply Sorted_merge_sort, _.
  - apply (Sorted_fmap _ key_ge); [intros k1 k2; unfold group_ge; by rewrite !g_key_group_of|].
    apply Sorted_merge_sort, _.
  - rewrite merge_sort_Permutation. apply Permutation_map, NoDup_Permutation; [done | done |].
    intros k. by rewrite Hel1, Hel2.
Qed.

Lemma monthly_groups_spec d uid :
  monthly_groups d uid = map (group_of (match_stage uid (docs d))) (spec_months (match_stage uid (docs d))).
Proof. apply sort_groups_spec. Qed.

Lemma month_name_range m : (1 <= m <= 12)%Z -> month_name m ∈ monthNames.
Proof.
  intros Hm. assert (m = 1 \/ m = 2 \/ m = 3 \/ m = 4 \/ m = 5 \/ m = 6 \/ m = 7 \/
                     m = 8 \/ m = 9 \/ m = 10 \/ m = 11 \/ m = 12)%Z as Hc by lia.
  repeat destruct Hc as [->|Hc]; subst; vm_compute; set_solver.
Qed.

(** ** Properties of [getMonthlyExpenses] *)

(** C9. The report is in strictly descending (year, month) order: of two
    consecutive (indeed any two) groups, the first has the later month. *)
Theorem monthly_strictly_descending d uid :
  StronglySorted (fun g1 g2 => (g_year g2 < g_year g1 \/
                               (g_year g2 = g_year g1 /\ g_month g2 < g_month g1))%Z)
                 (monthly_groups d uid).
Proof.
  rewrite monthly_groups_spec. set (l := match_stage uid (docs d)).
  destruct (spec_months_spec l) as [Hnd _].
  assert (Hs : StronglySorted key_ge (spec_months l))
    by (apply StronglySorted_merge_sort; apply _).
  induction Hs as [|k ks Hks IH Hall]; simpl; constructor.
  - apply IH. by apply NoDup_cons in Hnd as [_ ?].
  - apply NoDup_cons in Hnd as [Hk _]. apply Forall_fmap, Forall_forall.
    intros k' Hk'. apply (proj1 (Forall_forall _ _) Hall) in Hk' as Hge.
    destruct k as [y m], k' as [y' m']. unfold key_ge in Hge; simpl in *.
    assert ((y', m') <> (y, m)) by (intros Heq; rewrite Heq in Hk'; done).
    assert (y' <> y \/ m' <> m) by (destruct (decide (y' = y)); [right; congruence | left; done]).
    lia.
Qed.

(** Each entry's [totalAmount] is the exact sum of the amounts of the
    transactions listed in it. *)
Theorem monthly_totals_exact d uid :
  Forall (fun s => totalAmount s = sum_amounts (transactions s)) (monthly_pipeline d uid).
Proof.
  unfold monthly_pipeline. rewrite monthly_groups_spec.
  apply Forall_fmap, Forall_fmap, Forall_forall. intros k _. done.
Qed.

(** C10. Refinement: the pipeline computes the specification — one entry
    per calendar month in which the caller has a debit expense, most
    recent first, listing exactly that month's debit expenses of the
    caller in natural order with their sum. *)
Theorem monthly_refines_spec d uid :
  getMonthlyExpenses d uid = Resp 200 (monthly_spec d uid).
Proof.
  unfold getMonthlyExpenses, monthly_pipeline, monthly_spec.
  rewrite monthly_groups_spec, map_map. done.
Qed.

(** A caller without debit expenses gets an empty list, not an
    error. *)
Theorem monthly_empty d uid :
  (forall e, In e (docs d) -> userId e = uid -> category e <> "debit") ->
  getMonthlyExpenses d uid = Resp 200 [].
Proof.
  intros H. unfold getMonthlyExpenses, monthly_pipeline, monthly_groups, match_stage.
  rewrite (filter_all_false _ (docs d)); [done|].
  apply Forall_forall. intros e He%list_elem_of_In.
  destruct (Nat.eqb_spec (userId e) uid) as [Hu|]; [|done].
  destruct (String.eqb_spec (category e) "debit"); [|done]. by destruct (H e He Hu).
Qed.

(** C11. Every label is "<name> <year>" with a name of the month table:
    the month index is always in range, so no label reads "undefined". *)
Theorem monthly_labels_defined d uid :
  Forall (fun s => exists name y, name ∈ monthNames /\ month s = name +:+ " " +:+ string_of_Z y)
         (monthly_pipeline d uid).
Proof.
  unfold monthly_pipeline. rewrite monthly_groups_spec.
  apply Forall_fmap, Forall_fmap, Forall_forall. intros k Hk.
  destruct (spec_months_spec (match_stage uid (docs d))) as [_ Hel].
  apply Hel, list_elem_of_fmap in Hk as (e & -> & _).
  do 2 eexists. split; [|reflexivity]. apply month_name_range, month_of_range.
Qed.

(** ** Examples *)

Module MonthlyExamples.

(** The scenario of the specification: a debit of 50 on 2024-03-15 and
    one of 20 on 2024-04-01, with a credit and another user's debit that
    the report leaves out. *)
Local Abbreviation march := (mkExpense 0 7 "debit" 50 None 1710460800000 None None None None).
Local Abbreviation april := (mkExpense 1 7 "debit" 20 None 1711929600000 None None None None).
Local Abbreviation credit := (mkExpense 2 7 "credit" 99 None 1711929600001 None None None None).
Local Abbreviation other := (mkExpense 3 8 "debit" 5 None 1711929600002 None None None None).
Local Abbreviation d := (mkDb [march; april; credit; other] 4).

(** The specification's scenario: April 2024 (20) comes before
    March 2024 (50), each with its single transaction. *)
Example monthly_scenario :
  getMonthlyExpenses d 7 =
    Resp 200 [mkSummary "April 2024" 20 [april]; mkSummary "March 2024" 50 [march]].
Proof. vm_compute. reflexivity. Qed.

Lemma monthly_empty_witness :
  getMonthlyExpenses (mkDb [credit; other] 4) 7 = Resp 200 [].
Proof.
  apply monthly_empty. intros e He Hu.
  destruct He as [<-|[<-|[]]]; simpl in *; [discriminate | lia].
Defined.

End MonthlyExamples.
