(* ===== verification/Crud.v ===== *)
(** * The single-expense handlers (controllers/expense.controller.ts)

    [createExpense] (lines 8-20), [getUserExpenses] (23-30),
    [getExpenseById] (144-152) and [deleteExpense] (170-178), each as a
    function from the collection, the authenticated user id and the
    request to the new collection and the response.  The lookups filter
    by id and owner in one query ([find_owned]), as the source does with
    [{ _id: req.params.id, userId: req.user.id }].

    The route parameter [req.params.id] is a string that Mongoose casts
    to an ObjectId; a string that is no ObjectId makes the query throw a
    CastError, which the handlers' [catch] turns into a 500.  [id_param]
    records the result of that cast.

    [db_equiv] relates two collections that differ only in natural
    order; the invariant respects it ([db_wf_proper]), and so does the
    listing of [getUserExpenses] under the invariant
    ([getUserExpenses_equiv]). *)

From S2P Require Import Prelude Json Store.

(** ** Data *)

(** [req.params.id] after the ObjectId cast. *)
Inductive id_param : Type :=
  | IdValid (n : nat)
  | IdMalformed.

(** The JSON bodies of these handlers. *)
Inductive crud_body : Type :=
  | CrudExpense (e : expense)            (** the document *)
  | CrudExpenses (l : list expense)      (** a list of documents *)
  | CrudMessage (message : string)       (** [{message}] *)
  | CrudError (err : js_error).          (** [{message: err.message}] *)

(** ** Collection operations *)

(** [Model.create(doc)]: a fresh ObjectId, validation, insertion. *)
Definition create_one (d : db) (r : raw_expense) : res js_error (db * expense) :=
  let id := next_oid d in
  e <- cast_expense id r ;;
  d' <- insert_one (mkDb (docs d) (S id)) e ;;
  Ok (d', e).

(** [{ _id: id, userId: uid }] *)
Definition owned (id uid : nat) (e : expense) : bool :=
  (Nat.eqb (oid e) id && Nat.eqb (userId e) uid)%bool.

(** [Model.findOne({ _id: id, userId: uid })]: the first match in natural
    order. *)
Definition find_owned (d : db) (id uid : nat) : option expense :=
  List.find (owned id uid) (docs d).

(** [Model.findOneAndDelete({ _id: id, userId: uid })]: the deleted
    document, if any. *)
Definition delete_owned (d : db) (id uid : nat) : db * option expense :=
  match find_owned d id uid with
  | Some e => (mkDb (List.filter (fun x => negb (Nat.eqb (oid x) (oid e))) (docs d)) (next_oid d), Some e)
  | None => (d, None)
  end.

(** [.sort({ date: -1 })] *)
Definition date_ge (e1 e2 : expense) : Prop := (date e2 <= date e1)%Z.

#[export] Instance date_ge_dec e1 e2 : Decision (date_ge e1 e2).
Proof. unfold date_ge. apply _. Defined.

(** Two collections with the same documents in any natural order and the
    same id counter. *)
Definition db_equiv (d1 d2 : db) : Prop := docs d1 ≡ₚ docs d2 /\ next_oid d1 = next_oid d2.

(** ** Handlers *)

(** [Expense.create({ category, amount, description, userId })]: the
    document has no [date]. *)
Definition create_doc (uid : nat) (body : jsval) : raw_expense := {|
  r_userId := uid;
  r_category := prop body "category";
  r_amount := prop body "amount";
  r_description := prop body "description";
  r_date := None;
  r_sender := None;
  r_senderReceiver := None;
  r_upiTransactionId := None;
  r_rawMessage := None
|}.

Definition createExpense (d : db) (uid : nat) (body : jsval) : db * response crud_body :=
  match create_one d (create_doc uid body) with
  | Ok (d', e) => (d', Resp 201 (CrudExpense e))
  | Err err => (d, Resp 400 (CrudError err))
  end.

Definition getUserExpenses (d : db) (uid : nat) : response crud_body :=
  Resp 200 (CrudExpenses (merge_sort date_ge
    (List.filter (fun e => Nat.eqb (userId e) uid) (docs d)))).

Definition getExpenseById (d : db) (uid : nat) (id : id_param) : response crud_body :=
  match id with
  | IdMalformed => Resp 500 (CrudMessage "Server error")
  | IdValid n =>
      match find_owned d n uid with
      | Some e => Resp 200 (CrudExpense e)
      | None => Resp 404 (CrudMessage "Expense not found")
      end
  end.

Definition deleteExpense (d : db) (uid : nat) (id : id_param) : db * response crud_body :=
  match id with
  | IdMalformed => (d, Resp 500 (CrudMessage "Server error"))
  | IdValid n =>
      match delete_owned d n uid with
      | (d', Some _) => (d', Resp 200 (CrudMessage "Expense deleted successfully"))
      | (d', None) => (d', Resp 404 (CrudMessage "Expense not found"))
      end
  end.

(** ** Lemmas *)

#[export] Instance date_ge_total : Total date_ge.
Proof. intros e1 e2. unfold date_ge. lia. Qed.

#[export] Instance date_ge_trans : Transitive date_ge.
Proof. intros e1 e2 e3. unfold date_ge. lia. Qed.

Lemma find_owned_Some d n uid e :
  find_owned d n uid = Some e -> In e (docs d) /\ oid e = n /\ userId e = uid.
Proof.
  unfold find_owned. intros H. pose proof (find_some _ _ H) as [Hin Ho].
  apply andb_true_iff in Ho as [Ho Hu]. apply Nat.eqb_eq in Ho, Hu. auto.
Qed.

Lemma find_owned_None d n uid :
  find_owned d n uid = None <-> forall e, In e (docs d) -> oid e = n -> userId e <> uid.
Proof.
  unfold find_owned. split.
  - intros H e He Ho Hu. apply (find_none _ _ H) in He. unfold owned in He.
    rewrite Ho, Hu, !Nat.eqb_refl in He. discriminate.
  - intros H. destruct (List.find _ _) as [e|] eqn:Hf; [|done].
    destruct (find_owned_Some d n uid e Hf) as (? & ? & ?). by destruct (H e).
Qed.

(** Under the invariant, the owner's lookup by id returns the one document
    with that id. *)
Lemma find_owned_unique d n uid e :
  db_wf d -> In e (docs d) -> oid e = n -> userId e = uid -> find_owned d n uid = Some e.
Proof.
  intros (_ & Hnd & _) He Ho Hu. destruct (find_owned d n uid) as [e'|] eqn:Hf.
  - apply find_owned_Some in Hf as (He' & Ho' & _). f_equal.
    by apply (NoDup_map_inj_in oid (docs d)); [| | | congruence].
  - rewrite find_owned_None in Hf. by destruct (Hf e).
Qed.

(** Removing documents keeps the invariant. *)
Lemma db_wf_filter d p : db_wf d -> db_wf (mkDb (List.filter p (docs d)) (next_oid d)).
Proof.
  intros (Hk & Ho & Hb). split; [|split]; simpl; [by apply NoDup_map_filter..|].
  apply Forall_forall. intros x Hx%list_elem_of_In. apply filter_In in Hx as [Hx _].
  by apply (proj1 (Forall_forall _ _) Hb), list_elem_of_In.
Qed.

(** Appending a document with the next id and a free key keeps the
    invariant. *)
Lemma db_wf_snoc d e :
  db_wf d -> oid e = next_oid d -> (forall x, In x (docs d) -> ukey x <> ukey e) ->
  db_wf (mkDb (docs d ++ [e]) (S (next_oid d))).
Proof.
  intros (Hk & Ho & Hb) Hi Hfree. by apply snoc_fresh.
Qed.

Lemma create_one_Ok d r d' e :
  create_one d r = Ok (d', e) ->
  d' = mkDb (docs d ++ [e]) (S (next_oid d)) /\ oid e = next_oid d /\
  forall x, In x (docs d) -> ukey x <> ukey e.
Proof.
  unfold create_one. intros H. repeat res_inv H. injection H as <- <-.
  apply insert_one_Ok in H1 as [-> Hfree]. apply cast_expense_fields in H0 as (Hi & _).
  repeat split; [done|]. intros x Hx Hk. apply Hfree. simpl. rewrite <- Hk.
  by apply list_elem_of_fmap_2, list_elem_of_In.
Qed.

Lemma createExpense_wf d uid body : db_wf d -> db_wf (createExpense d uid body).1.
Proof.
  unfold createExpense. destruct (create_one _ _) as [[d' e]|] eqn:Hc; [|done].
  apply create_one_Ok in Hc as (-> & Hi & Hfree). intros Hwf. by apply db_wf_snoc.
Qed.

Lemma createExpense_prefix d uid body : docs d `prefix_of` docs (createExpense d uid body).1.
Proof.
  unfold createExpense. destruct (create_one _ _) as [[d' e]|] eqn:Hc; [|done].
  apply create_one_Ok in Hc as (-> & _). simpl. by eexists.
Qed.

Lemma deleteExpense_wf d uid id : db_wf d -> db_wf (deleteExpense d uid id).1.
Proof.
  unfold deleteExpense, delete_owned. intros Hwf.
  repeat case_match; simplify_eq/=; try done; by apply db_wf_filter.
Qed.

(** Deleting keeps every document of another user. *)
Lemma deleteExpense_keeps_others d uid id x :
  db_wf d -> In x (docs d) -> userId x <> uid -> In x (docs (deleteExpense d uid id).1).
Proof.
  intros (_ & Ho & _) Hx Hu. unfold deleteExpense, delete_owned.
  destruct id as [n|]; [|done]. destruct (find_owned d n uid) as [e|] eqn:Hf; [|done].
  apply find_owned_Some in Hf as (He & _ & Hue). simpl. apply filter_In. split; [done|].
  apply negb_true_iff, Nat.eqb_neq. intros Hoe.
  assert (x = e) as -> by (apply (NoDup_map_inj_in oid (docs d)); auto). congruence.
Qed.

#[export] Instance db_equiv_Equivalence : Equivalence db_equiv.
Proof.
  split.
  - done.
  - intros d1 d2 [? ?]. by split.
  - intros d1 d2 d3 [? ?] [? ?]. split; by etrans.
Qed.

(** The invariant does not depend on the natural order. *)
#[export] Instance db_wf_proper : Proper (db_equiv ==> iff) db_wf.
Proof.
  intros d1 d2 [Hp Hn]. unfold db_wf. rewrite Hn.
  by rewrite (Permutation_map ukey Hp), (Permutation_map oid Hp), Hp.
Qed.

Lemma user_dates_NoDup d uid :
  db_wf d -> NoDup (map date (List.filter (fun e => Nat.eqb (userId e) uid) (docs d))).
Proof.
  intros (Hk & _ & _). apply (NoDup_map_filter ukey) with (p := fun e => Nat.eqb (userId e) uid) in Hk.
  revert Hk. generalize (docs d) as l. intros l.
  induction l as [|x l IH]; simpl; [intros; constructor|].
  destruct (Nat.eqb_spec (userId x) uid) as [Hx|]; simpl; [|auto].
  intros [Hn Hl]%NoDup_cons. constructor; [|auto].
  intros (y & Hy & Hin)%list_elem_of_fmap. apply Hn, list_elem_of_fmap.
  exists y. split; [|done]. apply list_elem_of_In, filter_In in Hin as [_ Hu%Nat.eqb_eq].
  unfold ukey. congruence.
Qed.

(** [getUserExpenses] does not depend on the natural order of the
    collection: under the invariant the sort by date has no ties. *)
Lemma getUserExpenses_equiv d1 d2 uid :
  db_wf d1 -> db_equiv d1 d2 -> getUserExpenses d1 uid = getUserExpenses d2 uid.
Proof.
  intros Hwf [Hp _]. unfold getUserExpenses. do 2 f_equal.
  set (f := fun e => Nat.eqb (userId e) uid).
  assert (Hf : List.filter f (docs d1) ≡ₚ List.filter f (docs d2)) by by apply filter_Permutation.
  apply (StronglySorted_unique_strong date_ge); [| apply StronglySorted_merge_sort; apply _..|].
  - intros x1 x2 Hx1 Hx2 H12 H21. rewrite merge_sort_Permutation in Hx1.
    rewrite merge_sort_Permutation, <- Hf in Hx2. apply list_elem_of_In in Hx1, Hx2.
    apply (NoDup_map_inj_in date (List.filter f (docs d1))); [by apply user_dates_NoDup|done|done|].
    unfold date_ge in *. lia.
  - by rewrite !merge_sort_Permutation.
Qed.

(** ** Properties *)

(** C13. [createExpense] never creates an expense: it does not pass a
    [date], which the schema requires, so validation fails, the answer is
    400 and the collection is unchanged. *)
Theorem create_expense_always_rejected d uid body :
  exists err, createExpense d uid body = (d, Resp 400 (CrudError err)).
Proof.
  unfold createExpense, create_one.
  destruct (cast_expense _ _) as [e|err] eqn:Hc; [|by eexists].
  apply cast_expense_fields in Hc as (_ & _ & Hd). discriminate.
Qed.

(** C14. [getUserExpenses] returns exactly the caller's expenses, newest
    first; under the unique index no two share a date, so the order is
    strict. *)
Theorem get_user_expenses_sorted d uid :
  db_wf d ->
  exists l, getUserExpenses d uid = Resp 200 (CrudExpenses l) /\
    l ≡ₚ List.filter (fun e => Nat.eqb (userId e) uid) (docs d) /\
    StronglySorted (fun e1 e2 => (date e2 < date e1)%Z) l.
Proof.
  intros Hwf. eexists. split; [reflexivity|]. split; [apply merge_sort_Permutation|].
  assert (Hs : StronglySorted date_ge (merge_sort date_ge
    (List.filter (fun e => Nat.eqb (userId e) uid) (docs d)))) by (apply StronglySorted_merge_sort; apply _).
  eapply StronglySorted_distinct with (f := date) in Hs.
  - eapply StronglySorted_mono; [|exact Hs]. unfold date_ge. intros x y [? ?]. lia.
  - rewrite merge_sort_Permutation. by apply user_dates_NoDup.
Qed.

(** C15. Under the invariant, [getExpenseById] answers 200 with [e]
    exactly when [e] is a stored expense with that id owned by the
    caller. *)
Theorem get_expense_by_id_owner d uid n e :
  db_wf d ->
  getExpenseById d uid (IdValid n) = Resp 200 (CrudExpense e) <->
  In e (docs d) /\ oid e = n /\ userId e = uid.
Proof.
  intros Hwf. simpl. split.
  - destruct (find_owned d n uid) as [e'|] eqn:Hf; [|discriminate].
    intros [= ->]. by apply find_owned_Some.
  - intros (He & Ho & Hu). by rewrite (find_owned_unique d n uid e).
Qed.

(** C17. Deleting an expense that the caller does not own (another user's,
    or none) answers 404 and changes nothing. *)
Theorem delete_foreign_untouched d uid n :
  (forall e, In e (docs d) -> oid e = n -> userId e <> uid) ->
  deleteExpense d uid (IdValid n) = (d, Resp 404 (CrudMessage "Expense not found")).
Proof.
  intros H. simpl. unfold delete_owned. by rewrite (proj2 (find_owned_None d n uid) H).
Qed.

(** C16. Deleting one's own expense answers 200, removes exactly the
    document with that id, and keeps the invariant. *)
Theorem delete_owned_removes d uid e :
  db_wf d -> In e (docs d) -> userId e = uid ->
  let d' := mkDb (List.filter (fun x => negb (Nat.eqb (oid x) (oid e))) (docs d)) (next_oid d) in
  deleteExpense d uid (IdValid (oid e)) = (d', Resp 200 (CrudMessage "Expense deleted successfully")) /\
  db_wf d'.
Proof.
  intros Hwf He Hu d'. simpl. unfold delete_owned.
  rewrite (find_owned_unique d (oid e) uid e) by done. split; [done|].
  by apply db_wf_filter.
Qed.

(** ** Examples *)

Module CrudExamples.

Local Abbreviation e0 := (mkExpense 0 7 "debit" 50 None 1710460800000 None None None None).
Local Abbreviation e1 := (mkExpense 1 8 "debit" 20 None 1711929600000 None None None None).
Local Abbreviation e2 := (mkExpense 2 7 "credit" 5 None 1711929600000 None None None None).
Local Abbreviation d := (mkDb [e0; e1; e2] 3).

Lemma get_user_expenses_sorted_witness :
  exists l, getUserExpenses d 7 = Resp 200 (CrudExpenses l) /\
    l ≡ₚ List.filter (fun e => Nat.eqb (userId e) 7) (docs d) /\
    StronglySorted (fun e1 e2 => (date e2 < date e1)%Z) l.
Proof.
  apply get_user_expenses_sorted. apply (bool_decide_unpack _). vm_compute. exact I.
Defined.

Lemma get_expense_by_id_owner_witness :
  getExpenseById d 7 (IdValid 2) = Resp 200 (CrudExpense e2) <->
  In e2 (docs d) /\ oid e2 = 2 /\ userId e2 = 7.
Proof.
  apply get_expense_by_id_owner. apply (bool_decide_unpack _). vm_compute. exact I.
Defined.

(** User 7 asks to delete expense 1, which belongs to user 8. *)
Lemma delete_foreign_untouched_witness :
  deleteExpense d 7 (IdValid 1) = (d, Resp 404 (CrudMessage "Expense not found")).
Proof.
  apply delete_foreign_untouched. intros e He Ho.
  destruct He as [<-|[<-|[<-|[]]]]; simpl in *; lia.
Defined.

Lemma delete_owned_removes_witness :
  let d' := mkDb (List.filter (fun x => negb (Nat.eqb (oid x) (oid e0))) (docs d)) (next_oid d) in
  deleteExpense d 7 (IdValid (oid e0)) =
    (d', Resp 200 (CrudMessage "Expense deleted successfully")) /\ db_wf d'.
Proof.
  apply delete_owned_removes.
  - apply (bool_decide_unpack _). vm_compute. exact I.
  - simpl; auto.
  - reflexivity.
Defined.

End CrudExamples.
