(* ===== verification/Update.v ===== *)
(** * [updateExpense] (controllers/expense.controller.ts, lines 154-167)

    The handler calls
    [Expense.findOneAndUpdate({ _id: req.params.id, userId: req.user.id },
    req.body, { new: true, runValidators: true })].  Mongoose first casts
    the filter and the update, and runs the update validators on the
    paths the update names; any failure is thrown and the [catch] answers
    400.  Then MongoDB finds the caller's document with that id (none:
    the handler answers 404), applies the update (a change of [_id] is
    refused), enforces the unique index on [(userId, date)] and returns
    the new document, which the handler sends with status 200.

    The body is a JSON object; Mongoose wraps its plain keys in [$set].
    A key that is not a path of the schema is dropped (strict mode).  A
    body with update operators (keys starting with [$]) or one that is not
    an object (an array is an aggregation pipeline) is outside the model:
    [updateExpense] answers [None] for it.

    The ObjectId cast of a JSON value is bson's [new ObjectId(v)]; like
    [Date.parse] it is an interface, the class [ObjectIdCast], and the
    theorems hold for every instance.  Mongoose's CastError and
    ValidationError are both [ValidationError] here: the handler answers
    400 with the error's message for both. *)

From S2P Require Import Prelude Json Store Crud.

(** bson's [new ObjectId(v)] on a non-null value: [None] when it throws. *)
Class ObjectIdCast := oid_cast : jsval -> option nat.

(** An instance for examples: ObjectIds written as decimal strings. *)
Definition oid_decimal : ObjectIdCast := fun v =>
  match v with
  | JStr s => parse_Z s ≫= fun z => if (0 <=? z)%Z then Some (Z.to_nat z) else None
  | _ => None
  end.

Section Update.
Context `{dp : DateParse} `{oc : ObjectIdCast}.

(** ** Casting the update *)

(** SchemaObjectId cast: [null] stays [null]. *)
Definition cast_objectid (v : option jsval) : res js_error (option nat) :=
  match v with
  | None | Some JNull => Ok None
  | Some v' => match oid_cast v' with Some n => Ok (Some n) | None => Err ValidationError end
  end.

(** SchemaDate cast of a JSON value (mongoose/lib/cast/date.js): [null]
    and [""] are [null], a boolean is a cast error, a number is
    [new Date(n)], a numeric string outside the years of [Date.parse]
    ([>= 275761] or [< -271820]) is [new Date(Number(s))], any other
    value is [new Date(v.valueOf())]; an Invalid Date is a cast error.
    [Number(s)] is taken on the decimal integer syntax of [parse_Z]. *)
Definition cast_date_value (v : option jsval) : res js_error (option Z) :=
  let valid (o : option Z) := match o with Some t => Ok (Some t) | None => Err ValidationError end in
  match v with
  | None | Some JNull | Some (JStr EmptyString) => Ok None
  | Some (JBool _) => Err ValidationError
  | Some (JStr s) =>
      match parse_Z s with
      | Some n =>
          if ((275761 <=? n) || (n <? -271820))%Z then valid (time_clip n)
          else valid (date_parse s ≫= time_clip)
      | None => valid (date_parse s ≫= time_clip)
      end
  | Some v' => valid (date_getTime (Some v'))
  end.

(** One path of the update: [None] when the body does not name it,
    otherwise the value cast (and validated) by [c]. *)
Definition cast_path {A} (k : string) (fs : list (string * jsval))
    (c : option jsval -> res js_error A) : res js_error (option A) :=
  match obj_lookup k fs with
  | None => Ok None
  | Some v => x <- c (Some v) ;; Ok (Some x)
  end.

(** The cast [$set]: for each path, [None] when it is not updated. *)
Record update : Type := mkUpdate {
  u_id : option (option nat);
  u_userId : option nat;
  u_category : option string;
  u_amount : option Z;
  u_description : option (option string);
  u_date : option Z;
  u_sender : option (option string);
  u_senderReceiver : option (option string);
  u_upiTransactionId : option (option string);
  u_rawMessage : option (option string)
}.

(** [castUpdate] and the update validators: the [required] validator
    runs on the required paths the update sets. *)
Definition cast_update (fs : list (string * jsval)) : res js_error update :=
  i <- cast_path "_id" fs cast_objectid ;;
  u <- cast_path "userId" fs (fun v => x <- cast_objectid v ;; required_value x) ;;
  cat <- cast_path "category" fs (fun v => x <- cast_string v ;; required_string x) ;;
  amt <- cast_path "amount" fs (fun v => x <- cast_number v ;; required_value x) ;;
  desc <- cast_path "description" fs cast_string ;;
  dt <- cast_path "date" fs (fun v => x <- cast_date_value v ;; required_value x) ;;
  snd <- cast_path "sender" fs cast_string ;;
  sr <- cast_path "senderReceiver" fs cast_string ;;
  upi <- cast_path "upiTransactionId" fs cast_string ;;
  raw <- cast_path "rawMessage" fs cast_string ;;
  Ok (mkUpdate i u cat amt desc dt snd sr upi raw).

(** ** Applying it *)

Definition set_path {A} (o : option A) (x : A) : A :=
  match o with Some y => y | None => x end.

(** [$set] on a document; [_id] is checked separately. *)
Definition apply_update (u : update) (e : expense) : expense :=
  mkExpense (oid e)
    (set_path (u_userId u) (userId e))
    (set_path (u_category u) (category e))
    (set_path (u_amount u) (amount e))
    (set_path (u_description u) (description e))
    (set_path (u_date u) (date e))
    (set_path (u_sender u) (sender e))
    (set_path (u_senderReceiver u) (senderReceiver e))
    (set_path (u_upiTransactionId u) (upiTransactionId e))
    (set_path (u_rawMessage u) (rawMessage e)).

(** [$set: {_id: v}] is allowed only when [v] is the document's id. *)
Definition id_unchanged (u : update) (e : expense) : bool :=
  match u_id u with
  | None => true
  | Some (Some n) => Nat.eqb n (oid e)
  | Some None => false
  end.

(** Another document already holds the key of the updated one. *)
Definition key_taken (d : db) (e' : expense) : bool :=
  existsb (fun x => negb (Nat.eqb (oid x) (oid e')) && same_ukey x e')%bool (docs d).

(** The document [e'] in place of the one with its id. *)
Definition replace_doc (l : list expense) (e' : expense) : list expense :=
  map (fun x => if Nat.eqb (oid x) (oid e') then e' else x) l.

(** MongoDB's [findOneAndUpdate] with [new: true]: the updated document,
    [None] when no document matches the filter. *)
Definition find_one_and_update (d : db) (n uid : nat) (u : update)
    : db * res js_error (option expense) :=
  match find_owned d n uid with
  | None => (d, Ok None)
  | Some e =>
      if negb (id_unchanged u e) then (d, Err (ImmutableField "_id"))
      else let e' := apply_update u e in
      if key_taken d e' then (d, Err DuplicateKey)
      else (mkDb (replace_doc (docs d) e') (next_oid d), Ok (Some e'))
  end.

(** An update operator such as [$unset] or [$inc]. *)
Definition is_operator (k : string) : bool :=
  match k with String "$"%char _ => true | _ => false end.

Definition updateExpense (d : db) (uid : nat) (id : id_param) (body : jsval)
    : option (db * response crud_body) :=
  match body with
  | JObj fs =>
      if existsb (fun kv => is_operator kv.1) fs then None
      else Some
        match id with
        | IdMalformed => (d, Resp 400 (CrudError ValidationError))
        | IdValid n =>
            match cast_update fs with
            | Err err => (d, Resp 400 (CrudError err))
            | Ok u =>
                match find_one_and_update d n uid u with
                | (d', Err err) => (d', Resp 400 (CrudError err))
                | (d', Ok None) => (d', Resp 404 (CrudMessage "Expense not found"))
                | (d', Ok (Some e')) => (d', Resp 200 (CrudExpense e'))
                end
            end
        end
  | _ => None
  end.

(** ** Lemmas *)

Lemma cast_path_Ok {A} k fs (c : option jsval -> res js_error A) o :
  cast_path k fs c = Ok o ->
  (obj_lookup k fs = None /\ o = None) \/
  (exists v x, obj_lookup k fs = Some v /\ c (Some v) = Ok x /\ o = Some x).
Proof.
  unfold cast_path. destruct (obj_lookup k fs) as [v|]; [|intros [= <-]; auto].
  intros H. res_inv H. injection H as <-. right. eauto.
Qed.

Lemma replace_doc_oids l e' : map oid (replace_doc l e') = map oid l.
Proof.
  induction l as [|x l IH]; simpl; [done|]. rewrite IH.
  by destruct (Nat.eqb_spec (oid x) (oid e')) as [->|].
Qed.

Lemma replace_doc_Forall2 l e' :
  Forall2 (fun x y => x = y \/ (oid x = oid e' /\ y = e')) l (replace_doc l e').
Proof.
  induction l as [|x l IH]; simpl; constructor; [|done].
  destruct (Nat.eqb_spec (oid x) (oid e')); auto.
Qed.

(** Replacing a document by one with the same id and a free key keeps
    the keys distinct. *)
Lemma replace_doc_ukeys l e' :
  NoDup (map oid l) -> NoDup (map ukey l) ->
  (forall x, In x l -> oid x <> oid e' -> ukey x <> ukey e') ->
  NoDup (map ukey (replace_doc l e')).
Proof.
  induction l as [|x l IH]; simpl; [constructor|].
  intros [Hxo Ho]%NoDup_cons [Hxk Hk]%NoDup_cons Hfree.
  constructor; [|apply IH; auto].
  intros (y & Hy & Hin)%list_elem_of_fmap.
  apply list_elem_of_In in Hin. unfold replace_doc in Hin.
  apply in_map_iff in Hin as (z & <- & Hz).
  destruct (Nat.eqb_spec (oid x) (oid e')) as [Hx|Hx];
    destruct (Nat.eqb_spec (oid z) (oid e')) as [Hz'|Hz'].
  - apply Hxo, list_elem_of_fmap. exists z. split; [congruence|by apply list_elem_of_In].
  - by apply (Hfree z); [right| |].
  - by apply (Hfree x); [left| |].
  - apply Hxk, list_elem_of_fmap. exists z. split; [done|by apply list_elem_of_In].
Qed.

Lemma key_taken_false d e' :
  key_taken d e' = false -> forall x, In x (docs d) -> oid x <> oid e' -> ukey x <> ukey e'.
Proof.
  unfold key_taken. intros H x Hx Ho Hk. apply not_true_iff_false in H. apply H.
  apply existsb_exists. exists x. split; [done|].
  apply andb_true_iff. split; [by apply negb_true_iff, Nat.eqb_neq|by apply same_ukey_spec].
Qed.

(** The outcomes of [updateExpense]: either nothing is written and the
    answer is an error, or the caller's document with that id is replaced
    by its update. *)
Lemma updateExpense_cases d uid id body d' r :
  updateExpense d uid id body = Some (d', r) ->
  (d' = d /\ status r <> 200%Z) \/
  (exists n fs u e, id = IdValid n /\ body = JObj fs /\ cast_update fs = Ok u /\
     find_owned d n uid = Some e /\ id_unchanged u e = true /\
     key_taken d (apply_update u e) = false /\
     d' = mkDb (replace_doc (docs d) (apply_update u e)) (next_oid d) /\
     r = Resp 200 (CrudExpense (apply_update u e))).
Proof.
  unfold updateExpense. destruct body as [| | | | |fs]; try discriminate.
  destruct (existsb _ fs); [discriminate|]. intros [= Hr].
  destruct id as [n|]; [|invc Hr; left; simpl; auto].
  destruct (cast_update fs) as [u|err] eqn:Hu; [|invc Hr; left; simpl; auto].
  unfold find_one_and_update in Hr.
  destruct (find_owned d n uid) as [e|] eqn:Hf; [|invc Hr; left; simpl; auto].
  destruct (id_unchanged u e) eqn:Hi; simpl in Hr; [|invc Hr; left; simpl; auto].
  destruct (key_taken d (apply_update u e)) eqn:Hk; invc Hr; [left; simpl; auto|].
  right. eauto 12.
Qed.

(** The ten steps of [cast_update], one per path. *)
Lemma cast_update_Ok fs u :
  cast_update fs = Ok u ->
  cast_path "userId" fs (fun v => x <- cast_objectid v ;; required_value x) = Ok (u_userId u) /\
  cast_path "category" fs (fun v => x <- cast_string v ;; required_string x) = Ok (u_category u) /\
  cast_path "amount" fs (fun v => x <- cast_number v ;; required_value x) = Ok (u_amount u) /\
  cast_path "date" fs (fun v => x <- cast_date_value v ;; required_value x) = Ok (u_date u).
Proof. unfold cast_update. intros H. repeat res_inv H. by injection H as <-. Qed.

Lemma cast_path_absent {A} k fs (c : option jsval -> res js_error A) o :
  cast_path k fs c = Ok o -> obj_lookup k fs = None -> o = None.
Proof. intros [[_ ->]|(v & x & Hv & _)]%cast_path_Ok; congruence. Qed.

Lemma replace_doc_In l e e' :
  In e l -> oid e = oid e' -> In e' (replace_doc l e').
Proof.
  intros He Ho. apply in_map_iff. exists e. split; [|done].
  by rewrite Ho, Nat.eqb_refl.
Qed.

(** Replacing the caller's document by its update keeps the invariant
    when the new key is free. *)
Lemma replace_wf d n uid u e :
  db_wf d -> find_owned d n uid = Some e -> key_taken d (apply_update u e) = false ->
  db_wf (mkDb (replace_doc (docs d) (apply_update u e)) (next_oid d)).
Proof.
  intros (Hu & Ho & Hb) Hf Hk. apply find_owned_Some in Hf as (He & _).
  split; [|split]; simpl; rewrite ?replace_doc_oids.
  - apply replace_doc_ukeys; [done|done|]. by apply key_taken_false.
  - done.
  - apply (Forall_map oid (fun k => k < next_oid d)). rewrite replace_doc_oids.
    by apply (Forall_map oid (fun k => k < next_oid d)).
Qed.

Lemma updateExpense_wf d uid id body d' r :
  db_wf d -> updateExpense d uid id body = Some (d', r) -> db_wf d'.
Proof.
  intros Hwf [[-> _]|(n & fs & u & e & _ & _ & _ & Hf & _ & Hk & -> & _)]%updateExpense_cases;
    [done|].
  by apply (replace_wf d n uid u e).
Qed.

(** An update keeps every document of another user. *)
Lemma updateExpense_keeps_others d uid id body d' r x :
  db_wf d -> updateExpense d uid id body = Some (d', r) ->
  In x (docs d) -> userId x <> uid -> In x (docs d').
Proof.
  intros (_ & Ho & _) [[-> _]|(n & fs & u & e & _ & _ & _ & Hf & _ & _ & -> & _)]%updateExpense_cases
    Hx Hux; [done|].
  apply find_owned_Some in Hf as (He & _ & Hue). simpl. apply in_map_iff. exists x.
  split; [|done]. destruct (Nat.eqb_spec (oid x) (oid (apply_update u e))) as [Hoe|]; [|done].
  assert (x = e) as -> by (apply (NoDup_map_inj_in oid (docs d)); auto). congruence.
Qed.

(** ** Properties *)

(** [updateExpense] keeps the collection well formed: the unique
    index on [(userId, date)] holds and the ids stay distinct and below
    the counter. *)
Theorem update_preserves_wf d uid id body d' r :
  db_wf d -> updateExpense d uid id body = Some (d', r) -> db_wf d'.
Proof. apply updateExpense_wf. Qed.

(** Only the owner can update: when the caller owns no document with
    that id, the collection is unchanged and the answer is not a
    success. *)
Theorem update_foreign_untouched d uid n body d' r :
  find_owned d n uid = None ->
  updateExpense d uid (IdValid n) body = Some (d', r) -> d' = d /\ status r <> 200%Z.
Proof.
  intros Hn [?|(n' & fs & u & e & [= <-] & _ & _ & Hf & _)]%updateExpense_cases;
    [done|congruence].
Qed.

(** C18. An update changes at most the document with the requested id:
    every other document is kept, in its place, and the id counter is
    unchanged. *)
Theorem update_touches_only_target d uid n body d' r :
  updateExpense d uid (IdValid n) body = Some (d', r) ->
  next_oid d' = next_oid d /\
  Forall2 (fun x y => x = y \/ (oid x = n /\ oid y = n)) (docs d) (docs d').
Proof.
  intros [[-> _]|(n' & fs & u & e & [= <-] & _ & _ & Hf & _ & _ & -> & _)]%updateExpense_cases.
  - split; [done|]. apply Forall2_same_length_lookup. split; [done|]. intros; left; congruence.
  - split; [done|]. apply find_owned_Some in Hf as (_ & <- & _).
    eapply Forall2_impl; [apply replace_doc_Forall2|]. intros x y [->|[Hx ->]]; auto.
Qed.

(** C19. The body's [userId] is applied: a successful update of one's
    own expense can hand it to any other user id, after which it is no
    longer the caller's. *)
Theorem update_reassigns_owner d uid n fs d' e' v u' :
  updateExpense d uid (IdValid n) (JObj fs) = Some (d', Resp 200 (CrudExpense e')) ->
  obj_lookup "userId" fs = Some v -> cast_objectid (Some v) = Ok (Some u') ->
  userId e' = u' /\ In e' (docs d').
Proof.
  intros [[_ Hs]|(n' & fs' & u & e & [= <-] & [= <-] & Hu & Hf & _ & _ & -> & [= ->])]%updateExpense_cases
    Hv Hc; [by contradict Hs|].
  apply cast_update_Ok in Hu as (Hu & _). split.
  - apply cast_path_Ok in Hu as [[? _]|(v' & x & Hv' & Hx & Ho)]; [congruence|].
    rewrite Hv in Hv'. injection Hv' as <-. rewrite Hc in Hx. injection Hx as <-.
    simpl. by rewrite Ho.
  - apply find_owned_Some in Hf as (He & _). by eapply replace_doc_In.
Qed.

(** C20. For a well-formed id and a plain object body, the answer is 404
    exactly when the body passes casting and validation and the caller
    owns no document with that id: an invalid body is a 400 whether or
    not the document exists. *)
Theorem update_not_found_iff d uid n fs d' r :
  updateExpense d uid (IdValid n) (JObj fs) = Some (d', r) ->
  (status r = 404%Z <-> (exists u, cast_update fs = Ok u) /\ find_owned d n uid = None).
Proof.
  unfold updateExpense, find_one_and_update. destruct (existsb _ fs); [discriminate|].
  intros [= Hr]. repeat (case_match; simplify_eq/=);
    (split; [intros Hs; simplify_eq/=; eauto | intros [[? ?] ?]; simplify_eq/=; done]).
Qed.

(** C21. A successful update keeps the id of the caller's document and
    every required path the body does not name. *)
Theorem update_keeps_unnamed_paths d uid n fs d' e' :
  updateExpense d uid (IdValid n) (JObj fs) = Some (d', Resp 200 (CrudExpense e')) ->
  exists e, find_owned d n uid = Some e /\ oid e' = oid e /\
    (obj_lookup "userId" fs = None -> userId e' = userId e) /\
    (obj_lookup "category" fs = None -> category e' = category e) /\
    (obj_lookup "amount" fs = None -> amount e' = amount e) /\
    (obj_lookup "date" fs = None -> date e' = date e).
Proof.
  intros [[_ Hs]|(n' & fs' & u & e & [= <-] & [= <-] & Hu & Hf & _ & _ & _ & [= ->])]%updateExpense_cases;
    [by contradict Hs|].
  exists e. apply cast_update_Ok in Hu as (H1 & H2 & H3 & H4). simpl.
  repeat split; try done; intros Hn;
    [ rewrite (cast_path_absent _ _ _ _ H1 Hn) | rewrite (cast_path_absent _ _ _ _ H2 Hn)
    | rewrite (cast_path_absent _ _ _ _ H3 Hn) | rewrite (cast_path_absent _ _ _ _ H4 Hn) ]; done.
Qed.

End Update.

(** ** Examples *)

Module UpdateExamples.

#[local] Existing Instance date_parse_none.
#[local] Existing Instance oid_decimal.

Local Abbreviation e0 := (mkExpense 0 7 "debit" 50 None 1710460800000 None None None None).
Local Abbreviation e1 := (mkExpense 1 8 "debit" 20 None 1711929600000 None None None None).
Local Abbreviation e2 := (mkExpense 2 7 "credit" 5 None 1711929600000 None None None None).
Local Abbreviation d := (mkDb [e0; e1; e2] 3).
(** User 7 gives expense 0 to user 8. *)
Local Abbreviation give := (JObj [("userId", JStr "8")]).
Local Abbreviation e0' := (mkExpense 0 8 "debit" 50 None 1710460800000 None None None None).
Local Abbreviation d' := (mkDb [e0'; e1; e2] 3).

Lemma update_preserves_wf_witness : db_wf d'.
Proof.
  apply (update_preserves_wf d 7 (IdValid 0) give d' (Resp 200 (CrudExpense e0'))).
  - apply (bool_decide_unpack _). vm_compute. exact I.
  - reflexivity.
Defined.

(** User 8 asks to update expense 0, which is user 7's. *)
Lemma update_foreign_untouched_witness :
  d = d /\ status (Resp 404 (CrudMessage "Expense not found")) <> 200%Z.
Proof.
  apply (update_foreign_untouched d 8 0 (JObj [("amount", JNum 1)])); reflexivity.
Defined.

Lemma update_touches_only_target_witness :
  next_oid d' = next_oid d /\
  Forall2 (fun x y => x = y \/ (oid x = 0 /\ oid y = 0)) (docs d) (docs d').
Proof.
  apply (update_touches_only_target d 7 0 give d' (Resp 200 (CrudExpense e0'))). reflexivity.
Defined.

Lemma update_reassigns_owner_witness : userId e0' = 8 /\ In e0' (docs d').
Proof.
  apply (update_reassigns_owner d 7 0 [("userId", JStr "8")] d' e0' (JStr "8") 8); reflexivity.
Defined.

(** Moving expense 2 to user 8 would give user 8 two expenses at one
    date: refused with 400, not 404. *)
Lemma update_not_found_iff_witness :
  status (Resp 400 (CrudError DuplicateKey)) = 404%Z <->
  (exists u, cast_update [("userId", JStr "8")] = Ok u) /\ find_owned d 2 7 = None.
Proof.
  apply (update_not_found_iff d 7 2 [("userId", JStr "8")] d). reflexivity.
Defined.

Lemma update_keeps_unnamed_paths_witness :
  exists e, find_owned d 0 7 = Some e /\ oid e0' = oid e /\
    (obj_lookup "userId" [("userId", JStr "8")] = None -> userId e0' = userId e) /\
    (obj_lookup "category" [("userId", JStr "8")] = None -> category e0' = category e) /\
    (obj_lookup "amount" [("userId", JStr "8")] = None -> amount e0' = amount e) /\
    (obj_lookup "date" [("userId", JStr "8")] = None -> date e0' = date e).
Proof.
  apply (update_keeps_unnamed_paths d 7 0 [("userId", JStr "8")] d'). reflexivity.
Defined.

End UpdateExamples.
