(* ===== verification/Users.v ===== *)
(** * Sign-up and log-in (controllers/user.controller.ts, models/User.ts)

    [createUser] (lines 7-15) takes [name], [email] and [passwordHash]
    from the body and calls [User.create]: the three String paths are
    required, and [email] has a unique index.  Any failure is a 400 with
    the error's message; a success answers 201 with the stored document.

    [loginUser] (lines 17-43) looks the user up with
    [User.findOne({ email })], compares [password] with the stored hash
    with [bcrypt.compare], and signs a JWT carrying [{id, email}] with
    [process.env.JWT_SECRET || "secret"].  An unknown email and a wrong
    password are both 400; anything thrown is a 500.

    The libraries the controller only calls are interfaces: [Bcrypt]
    ([bcrypt.compare] on two strings), [JwtSign] ([jwt.sign] of the
    payload with a secret; the issue time and the one-hour expiry are
    part of the token the instance builds).  A filter [{ email: undefined }]
    is either dropped by the query layer (the filter is then [{}], which
    matches the first user) or sent as [null] (which matches no user,
    since every user has an email): the class [UndefinedFilter] says
    which, and the theorems hold for both.  An [email] that is an object
    or an array is a query operator ([$ne], [$in], ...): outside the
    model, [loginUser] answers [None] for it.

    The users are kept apart from the expenses: no handler touches both
    collections. *)

From S2P Require Import Prelude Json Store.

(** ** Data *)

Record user : Type := mkUser {
  u_oid : nat;            (** [_id] *)
  name : string;
  email : string;
  passwordHash : string
}.

(** The User collection, in natural order, and the ObjectId counter. *)
Record udb : Type := mkUdb {
  users : list user;
  next_uid : nat
}.

(** The JSON bodies of the two handlers. *)
Inductive user_body : Type :=
  | UserCreated (u : user)                                  (** the stored document *)
  | UserLogin (token : string) (id : nat) (em nm : string)  (** [{token, user: {id, email, name}}] *)
  | UserMessage (message : string)                          (** [{message}] *)
  | UserError (err : js_error).                             (** [{message: err.message}] *)

(** [bcrypt.compare(password, hash)] on two strings. *)
Class Bcrypt := bcrypt_compare : string -> string -> bool.

(** [jwt.sign({id, email}, secret, {expiresIn: "1h"})]. *)
Class JwtSign := jwt_sign : nat -> string -> string -> string.

(** Whether [findOne({ email: undefined })] drops the key. *)
Class UndefinedFilter := undefined_dropped : bool.

(** Instances for examples: a "hash" compared as plain text, a token
    that shows what it is signed over, and undefined sent as [null]. *)
Definition bcrypt_plain : Bcrypt := String.eqb.
Definition jwt_show : JwtSign := fun i e sec => string_of_Z (Z.of_nat i) +:+ "|" +:+ e +:+ "|" +:+ sec.
Definition undefined_as_null : UndefinedFilter := false.

(** ** Sign-up *)

(** [new User({ name, email, passwordHash })] and its validation. *)
Definition cast_user (id : nat) (nm em ph : option jsval) : res js_error user :=
  n <- cast_string nm ;; n <- required_string n ;;
  e <- cast_string em ;; e <- required_string e ;;
  p <- cast_string ph ;; p <- required_string p ;;
  Ok (mkUser id n e p).

(** Insertion under the unique index on [email]. *)
Definition insert_user (d : udb) (u : user) : res js_error udb :=
  if existsb (fun x => String.eqb (email x) (email u)) (users d) then Err DuplicateKey
  else Ok (mkUdb (users d ++ [u]) (next_uid d)).

Definition createUser (d : udb) (body : jsval) : udb * response user_body :=
  let r :=
    nm <- get_prop (Some body) "name" ;;
    em <- get_prop (Some body) "email" ;;
    ph <- get_prop (Some body) "passwordHash" ;;
    u <- cast_user (next_uid d) nm em ph ;;
    d' <- insert_user (mkUdb (users d) (S (next_uid d))) u ;;
    Ok (d', u) in
  match r with
  | Ok (d', u) => (d', Resp 201 (UserCreated u))
  | Err err => (d, Resp 400 (UserError err))
  end.

(** ** Log-in *)

Section Login.
Context `{bc : Bcrypt} `{jw : JwtSign} `{uf : UndefinedFilter}.

Definition find_email (d : udb) (s : string) : option user :=
  List.find (fun u => String.eqb (email u) s) (users d).

(** [User.findOne({ email })] with the value from the body, cast for the
    String path; [None] for a query operator. *)
Definition find_by_email (d : udb) (v : option jsval) : option (option user) :=
  match v with
  | None => Some (if undefined_dropped then head (users d) else None)
  | Some JNull => Some None
  | Some (JStr s) => Some (find_email d s)
  | Some (JNum n) => Some (find_email d (string_of_Z n))
  | Some (JBool b) => Some (find_email d (if b then "true" else "false"))
  | Some (JArr _) | Some (JObj _) => None
  end.

(** [process.env.JWT_SECRET || "secret"]. *)
Definition jwt_secret (env : option string) : string :=
  match env with
  | Some s => if String.eqb s EmptyString then "secret" else s
  | None => "secret"
  end.

Definition loginUser (d : udb) (env : option string) (body : jsval) : option (response user_body) :=
  match get_prop (Some body) "email", get_prop (Some body) "password" with
  | Ok em, Ok pw =>
      match find_by_email d em with
      | None => None
      | Some None => Some (Resp 400 (UserMessage "Invalid Username"))
      | Some (Some u) =>
          match pw with
          | Some (JStr p) =>
              if bcrypt_compare p (passwordHash u) then
                Some (Resp 200 (UserLogin (jwt_sign (u_oid u) (email u) (jwt_secret env))
                                  (u_oid u) (email u) (name u)))
              else Some (Resp 400 (UserMessage "Invalid Password"))
          | _ => Some (Resp 500 (UserMessage "Server error"))
          end
      end
  | _, _ => Some (Resp 500 (UserMessage "Server error"))
  end.

End Login.

(** ** The invariant *)

Definition udb_wf (d : udb) : Prop :=
  NoDup (map email (users d)) /\
  NoDup (map u_oid (users d)) /\
  Forall (fun u => u_oid u < next_uid d) (users d).

#[export] Instance udb_wf_dec d : Decision (udb_wf d).
Proof. unfold udb_wf. apply _. Defined.

(** ** Lemmas *)

Lemma insert_user_Ok d u d' :
  insert_user d u = Ok d' ->
  d' = mkUdb (users d ++ [u]) (next_uid d) /\ forall x, In x (users d) -> email x <> email u.
Proof.
  unfold insert_user. destruct (existsb _ _) eqn:He; [discriminate|]. intros [= <-].
  split; [done|]. intros x Hx Heq. apply not_true_iff_false in He. apply He.
  apply existsb_exists. exists x. split; [done|]. by apply String.eqb_eq.
Qed.

Lemma insert_user_taken d u x :
  In x (users d) -> email x = email u -> insert_user d u = Err DuplicateKey.
Proof.
  intros Hx He. unfold insert_user. rewrite (proj2 (existsb_exists _ _)); [done|].
  exists x. split; [done|]. by apply String.eqb_eq.
Qed.

Lemma cast_user_fields i nm em ph u :
  cast_user i nm em ph = Ok u ->
  u_oid u = i /\ cast_string em = Ok (Some (email u)) /\ cast_string ph = Ok (Some (passwordHash u)).
Proof.
  unfold cast_user. intros H. repeat res_inv H. injection H as <-. simpl.
  unfold required_string in *. repeat case_match; simplify_eq/=; auto.
Qed.

(** The outcomes of [createUser]: a 400 that writes nothing, or the new
    user appended under a fresh id and a free email. *)
Lemma createUser_cases d body d' r :
  createUser d body = (d', r) ->
  (d' = d /\ exists err, r = Resp 400 (UserError err)) \/
  (exists u, r = Resp 201 (UserCreated u) /\
     d' = mkUdb (users d ++ [u]) (S (next_uid d)) /\ u_oid u = next_uid d /\
     (forall x, In x (users d) -> email x <> email u) /\
     cast_string (prop body "email") = Ok (Some (email u)) /\
     cast_string (prop body "passwordHash") = Ok (Some (passwordHash u))).
Proof.
  unfold createUser. destruct (res_bind _ _) as [[d1 u]|err] eqn:Hr; intros [= <- <-]; [|eauto].
  right. exists u. repeat res_inv Hr. injection Hr as <- <-.
  apply insert_user_Ok in H3 as [-> Hfree]. apply cast_user_fields in H2 as (Hi & He & Hp).
  rewrite (get_prop_Ok_inv _ _ _ H0) in He. rewrite (get_prop_Ok_inv _ _ _ H1) in Hp.
  auto 10.
Qed.

Lemma find_email_Some d s u : find_email d s = Some u -> In u (users d) /\ email u = s.
Proof.
  unfold find_email. intros H. destruct (find_some _ _ H) as [Hin Hs].
  by apply String.eqb_eq in Hs.
Qed.

Lemma find_email_None d s :
  (forall u, In u (users d) -> email u <> s) -> find_email d s = None.
Proof.
  intros H. unfold find_email. destruct (List.find _ _) as [u|] eqn:Hf; [|done].
  destruct (find_some _ _ Hf) as [Hin Hs%String.eqb_eq]. by destruct (H u).
Qed.

Lemma find_email_In d s u : In u (users d) -> email u = s -> find_email d s <> None.
Proof.
  intros Hu Hs Hf. unfold find_email in Hf. pose proof (find_none _ _ Hf u Hu) as Hn.
  simpl in Hn. rewrite Hs, String.eqb_refl in Hn. discriminate.
Qed.

(** Under the unique index, the user with an email is the one found. *)
Lemma find_email_unique d s u :
  NoDup (map email (users d)) -> In u (users d) -> email u = s -> find_email d s = Some u.
Proof.
  intros Hnd Hu Hs. destruct (find_email d s) as [u'|] eqn:Hf.
  - apply find_email_Some in Hf as [Hu' Hs']. f_equal.
    apply (NoDup_map_inj_in email (users d)); [done|done|done|congruence].
  - by destruct (find_email_In d s u).
Qed.

(** Appending a user with the next id and a free email keeps the
    invariant. *)
Lemma udb_wf_snoc d u :
  udb_wf d -> u_oid u = next_uid d -> (forall x, In x (users d) -> email x <> email u) ->
  udb_wf (mkUdb (users d ++ [u]) (S (next_uid d))).
Proof.
  intros (He & Ho & Hb) Hi Hfree. by apply snoc_fresh.
Qed.

Lemma createUser_wf d body : udb_wf d -> udb_wf (createUser d body).1.
Proof.
  destruct (createUser d body) as [d' r] eqn:Hc. simpl.
  apply createUser_cases in Hc as [[-> _]|(u & _ & -> & Hi & Hfree & _)]; [done|].
  intros Hwf. by apply udb_wf_snoc.
Qed.

(** ** Properties *)

(** Sign-up keeps the User collection well formed: emails are
    unique, ids are distinct and below the counter. *)
Theorem create_user_preserves_wf d body : udb_wf d -> udb_wf (createUser d body).1.
Proof. apply createUser_wf. Qed.

(** C23. Signing up with an email that a user already has is a 400 and
    writes nothing. *)
Theorem create_user_duplicate_email d body x :
  In x (users d) -> prop body "email" = Some (JStr (email x)) ->
  exists err, createUser d body = (d, Resp 400 (UserError err)).
Proof.
  intros Hx Hp. destruct (createUser d body) as [d' r] eqn:Hc.
  apply createUser_cases in Hc as [[-> (err & ->)]|(u & _ & _ & _ & Hfree & He & _)]; [eauto|].
  rewrite Hp in He. injection He as He. by destruct (Hfree x).
Qed.

(** C22. The server stores the [passwordHash] the client sends, as the
    String cast of the body's value: no hashing happens at sign-up, and
    the 201 answer echoes the stored hash. *)
Theorem create_user_stores_hash_verbatim d body d' u :
  createUser d body = (d', Resp 201 (UserCreated u)) ->
  cast_string (prop body "passwordHash") = Ok (Some (passwordHash u)) /\
  users d' = users d ++ [u].
Proof.
  intros Hc. apply createUser_cases in Hc as [[_ (err & [=])]|(u' & [= <-] & -> & _ & _ & _ & Hp)].
  auto.
Qed.

Section LoginProperties.
Context `{bc : Bcrypt} `{jw : JwtSign} `{uf : UndefinedFilter}.

(** C24. With a string email and password, under the unique index, log-in
    succeeds exactly for the user with that email whose stored hash
    matches the password, and the token is signed over that user's id
    and email with the configured secret. *)
Theorem login_success_iff d env body s p tok i em nm :
  udb_wf d ->
  prop body "email" = Some (JStr s) -> prop body "password" = Some (JStr p) ->
  loginUser d env body = Some (Resp 200 (UserLogin tok i em nm)) <->
  exists u, In u (users d) /\ email u = s /\ bcrypt_compare p (passwordHash u) = true /\
    tok = jwt_sign (u_oid u) s (jwt_secret env) /\ i = u_oid u /\ em = s /\ nm = name u.
Proof.
  intros (Hnd & _) He Hp. unfold loginUser.
  rewrite !(prop_Some_get_prop _ _ _ _ He), He, Hp. simpl. split.
  - destruct (find_email d s) as [u|] eqn:Hf; [|discriminate].
    apply find_email_Some in Hf as [Hu <-].
    destruct (bcrypt_compare p (passwordHash u)) eqn:Hb; [|discriminate].
    intros [= <- <- <- <-]. exists u. auto 8.
  - intros (u & Hu & Hs & Hb & -> & -> & -> & ->).
    rewrite (find_email_unique d s u Hnd Hu Hs), Hb. by subst s.
Qed.

(** A string email that no user has is answered 400 "Invalid
    Username". *)
Theorem login_unknown_email d env body s :
  prop body "email" = Some (JStr s) -> (forall u, In u (users d) -> email u <> s) ->
  loginUser d env body = Some (Resp 400 (UserMessage "Invalid Username")).
Proof.
  intros He Hn. unfold loginUser. rewrite !(prop_Some_get_prop _ _ _ _ He), He. simpl.
  by rewrite find_email_None.
Qed.

(** C25. For a known email, a [password] that is missing or not a string
    makes [bcrypt.compare] throw: the answer is 500, not 400. *)
Theorem login_password_not_string d env body s :
  prop body "email" = Some (JStr s) -> (exists u, In u (users d) /\ email u = s) ->
  (forall p, prop body "password" <> Some (JStr p)) ->
  loginUser d env body = Some (Resp 500 (UserMessage "Server error")).
Proof.
  intros He (u & Hu & Hs) Hp. unfold loginUser. rewrite !(prop_Some_get_prop _ _ _ _ He), He. simpl.
  destruct (find_email d s) as [u'|] eqn:Hf.
  - destruct (prop body "password") as [[]|]; try done. by destruct (Hp s0).
  - by destruct (find_email_In d s u).
Qed.

End LoginProperties.

(** ** Examples *)

Module UsersExamples.

#[local] Existing Instance bcrypt_plain.
#[local] Existing Instance jwt_show.
#[local] Existing Instance undefined_as_null.

Local Abbreviation alice := (mkUser 0 "Alice" "alice@example.com" "h-alice").
Local Abbreviation d := (mkUdb [alice] 1).
Local Abbreviation bob_body :=
  (JObj [("name", JStr "Bob"); ("email", JStr "bob@example.com"); ("passwordHash", JStr "pw")]).
Local Abbreviation bob := (mkUser 1 "Bob" "bob@example.com" "pw").

Lemma create_user_preserves_wf_witness : udb_wf (createUser d bob_body).1.
Proof. apply create_user_preserves_wf. apply (bool_decide_unpack _). vm_compute. exact I. Defined.

Lemma create_user_duplicate_email_witness :
  exists err, createUser d (JObj [("name", JStr "A2"); ("email", JStr "alice@example.com");
                                  ("passwordHash", JStr "x")]) = (d, Resp 400 (UserError err)).
Proof. apply (create_user_duplicate_email _ _ alice); [left; done | reflexivity]. Defined.

(** Bob's password "pw" is stored as his hash. *)
Lemma create_user_stores_hash_verbatim_witness :
  cast_string (prop bob_body "passwordHash") = Ok (Some (passwordHash bob)) /\
  users (mkUdb [alice; bob] 2) = users d ++ [bob].
Proof. apply create_user_stores_hash_verbatim. reflexivity. Defined.

Lemma login_success_iff_witness :
  loginUser d None (JObj [("email", JStr "alice@example.com"); ("password", JStr "h-alice")]) =
    Some (Resp 200 (UserLogin "0|alice@example.com|secret" 0 "alice@example.com" "Alice")) <->
  exists u, In u (users d) /\ email u = "alice@example.com" /\ bcrypt_compare "h-alice" (passwordHash u) = true /\
    "0|alice@example.com|secret" = jwt_sign (u_oid u) "alice@example.com" (jwt_secret None) /\
    0 = u_oid u /\ "alice@example.com" = "alice@example.com" /\ "Alice" = name u.
Proof.
  apply login_success_iff; [apply (bool_decide_unpack _); vm_compute; exact I | reflexivity | reflexivity].
Defined.

Lemma login_unknown_email_witness :
  loginUser d None (JObj [("email", JStr "eve@example.com"); ("password", JStr "x")]) =
    Some (Resp 400 (UserMessage "Invalid Username")).
Proof.
  apply login_unknown_email with (s := "eve@example.com"); [reflexivity|].
  intros u [<-|[]]. simpl. discriminate.
Defined.

Lemma login_password_not_string_witness :
  loginUser d None (JObj [("email", JStr "alice@example.com"); ("password", JNum 1234)]) =
    Some (Resp 500 (UserMessage "Server error")).
Proof.
  apply login_password_not_string with (s := "alice@example.com"); [reflexivity | | ].
  - exists alice. split; [left|]; done.
  - intros p. simpl. discriminate.
Defined.

End UsersExamples.
