(* ===== verification/Regex.v ===== *)
(** * Regular expressions as utils/validation.ts uses them

    The validators test strings against regular expressions anchored at
    both ends ([/^...$/] without flags) whose only non-regular feature
    is a lookahead at the start ([(?=.*[a-z])]).  For such a pattern
    JavaScript's backtracking [RegExp.prototype.test] accepts a string
    exactly when the string belongs to the pattern's language, and a
    lookahead [(?=A)] at the start of [^(?=A)R$] is the intersection with
    [A] followed by anything.  This file gives the language ([in_re]),
    an executable matcher by Brzozowski derivatives ([matches]) and the
    proof that the two agree ([matches_spec]).

    Strings are lists of ASCII characters; [.] is any character but the
    line terminators [\n] and [\r] (the others are not ASCII). *)

From S2P Require Import Prelude.

Inductive re : Type :=
  | RNone                    (** no string *)
  | REps                     (** the empty string *)
  | RChr (p : ascii -> bool) (** one character of a class *)
  | RCat (r1 r2 : re)
  | RAlt (r1 r2 : re)
  | RStar (r : re)
  | RAnd (r1 r2 : re).       (** both; a lookahead at the start *)

Inductive in_re : re -> list ascii -> Prop :=
  | in_eps : in_re REps []
  | in_chr p c : p c = true -> in_re (RChr p) [c]
  | in_cat r1 r2 w1 w2 : in_re r1 w1 -> in_re r2 w2 -> in_re (RCat r1 r2) (w1 ++ w2)
  | in_alt_l r1 r2 w : in_re r1 w -> in_re (RAlt r1 r2) w
  | in_alt_r r1 r2 w : in_re r2 w -> in_re (RAlt r1 r2) w
  | in_star_nil r : in_re (RStar r) []
  | in_star_app r w1 w2 : in_re r w1 -> in_re (RStar r) w2 -> in_re (RStar r) (w1 ++ w2)
  | in_and r1 r2 w : in_re r1 w -> in_re r2 w -> in_re (RAnd r1 r2) w.

(** [r+] *)
Definition RPlus (r : re) : re := RCat r (RStar r).

(** [[\s\S]*]: any string. *)
Definition RAll : re := RStar (RChr (fun _ => true)).

(** The line terminators [.] does not match. *)
Definition is_line_terminator (c : ascii) : bool :=
  (Ascii.eqb c "010"%char || Ascii.eqb c "013"%char)%bool.

(** [.] *)
Definition RDot : re := RChr (fun c => negb (is_line_terminator c)).

(** [(?=.*X)] at the start: some prefix is [.*X]. *)
Definition RLookahead (p : ascii -> bool) : re := RCat (RCat (RStar RDot) (RChr p)) RAll.

(** [r{n}] *)
Fixpoint RRep (n : nat) (r : re) : re :=
  match n with O => REps | S n' => RCat r (RRep n' r) end.

(** [r{n,}] *)
Definition RAtLeast (n : nat) (r : re) : re := RCat (RRep n r) (RStar r).

(** ** The matcher *)

Fixpoint nullable (r : re) : bool :=
  match r with
  | RNone | RChr _ => false
  | REps | RStar _ => true
  | RCat r1 r2 | RAnd r1 r2 => nullable r1 && nullable r2
  | RAlt r1 r2 => nullable r1 || nullable r2
  end.

(** The strings [w] with [c :: w] in [r]. *)
Fixpoint deriv (c : ascii) (r : re) : re :=
  match r with
  | RNone | REps => RNone
  | RChr p => if p c then REps else RNone
  | RCat r1 r2 =>
      if nullable r1 then RAlt (RCat (deriv c r1) r2) (deriv c r2) else RCat (deriv c r1) r2
  | RAlt r1 r2 => RAlt (deriv c r1) (deriv c r2)
  | RStar r1 => RCat (deriv c r1) (RStar r1)
  | RAnd r1 r2 => RAnd (deriv c r1) (deriv c r2)
  end.

Fixpoint matches (r : re) (w : list ascii) : bool :=
  match w with
  | [] => nullable r
  | c :: w' => matches (deriv c r) w'
  end.

(** [/^r$/.test(s)] *)
Definition re_test (r : re) (s : string) : bool := matches r (String.list_ascii_of_string s).

(** ** Correctness of the matcher *)

Lemma app_eq_cons {A} (w1 w2 : list A) c w :
  w1 ++ w2 = c :: w -> (w1 = [] /\ w2 = c :: w) \/ (exists w1', w1 = c :: w1' /\ w = w1' ++ w2).
Proof. destruct w1 as [|x w1]; simpl; [auto|]. intros [= -> <-]. eauto. Qed.

Lemma in_cat_inv r1 r2 w :
  in_re (RCat r1 r2) w -> exists w1 w2, w = w1 ++ w2 /\ in_re r1 w1 /\ in_re r2 w2.
Proof. intros H. inversion H; subst. eauto. Qed.

Lemma in_alt_inv r1 r2 w : in_re (RAlt r1 r2) w -> in_re r1 w \/ in_re r2 w.
Proof. intros H. inversion H; subst; auto. Qed.

Lemma in_and_inv r1 r2 w : in_re (RAnd r1 r2) w -> in_re r1 w /\ in_re r2 w.
Proof. intros H. inversion H; subst; auto. Qed.

Lemma in_chr_inv p w : in_re (RChr p) w -> exists c, w = [c] /\ p c = true.
Proof. intros H. inversion H; subst. eauto. Qed.

Lemma nullable_spec r : nullable r = true <-> in_re r [].
Proof.
  induction r as [| |p|r1 IH1 r2 IH2|r1 IH1 r2 IH2|r IH|r1 IH1 r2 IH2]; simpl; split.
  - discriminate.
  - intros H. inversion H.
  - constructor.
  - done.
  - discriminate.
  - by intros (c & ? & _)%in_chr_inv.
  - intros [H1 H2]%andb_true_iff. apply (in_cat _ _ [] []); [by apply IH1|by apply IH2].
  - intros (w1 & w2 & Hw & H1 & H2)%in_cat_inv. symmetry in Hw.
    apply app_eq_nil in Hw as [-> ->]. apply andb_true_iff. split; [by apply IH1|by apply IH2].
  - intros [H|H]%orb_true_iff; [apply in_alt_l; by apply IH1|apply in_alt_r; by apply IH2].
  - intros [H|H]%in_alt_inv; apply orb_true_iff; [left; by apply IH1|right; by apply IH2].
  - constructor.
  - done.
  - intros [H1 H2]%andb_true_iff. constructor; [by apply IH1|by apply IH2].
  - intros [H1 H2]%in_and_inv. apply andb_true_iff. split; [by apply IH1|by apply IH2].
Qed.

(** A non-empty word of [r*] starts with a non-empty word of [r]. *)
Lemma star_cons r c w :
  in_re (RStar r) (c :: w) -> exists w1 w2, w = w1 ++ w2 /\ in_re r (c :: w1) /\ in_re (RStar r) w2.
Proof.
  remember (RStar r) as s eqn:Hs. remember (c :: w) as cw eqn:Hcw. intros H.
  revert w Hcw. induction H as [| | | | | |r' w1 w2 H1 _ H2 IH2|]; intros w0 Hcw;
    try discriminate; injection Hs as ->.
  destruct (app_eq_cons w1 w2 c w0 Hcw) as [[-> ->]|(w1' & -> & ->)].
  - by apply IH2.
  - by exists w1', w2.
Qed.

Lemma deriv_spec c r w : in_re (deriv c r) w <-> in_re r (c :: w).
Proof.
  revert w. induction r as [| |p|r1 IH1 r2 IH2|r1 IH1 r2 IH2|r IH|r1 IH1 r2 IH2];
    intros w; simpl.
  - split; intros H; inversion H.
  - split; intros H; inversion H.
  - split.
    + destruct (p c) eqn:Hp; intros H; inversion H. by constructor.
    + intros (c' & [= -> ->] & Hp)%in_chr_inv. rewrite Hp. constructor.
  - assert (Hcat : forall w1 w2, in_re (deriv c r1) w1 -> in_re r2 w2 ->
                   in_re (RCat r1 r2) (c :: w1 ++ w2))
      by (intros w1 w2 H1 H2; apply (in_cat _ _ (c :: w1) w2); [by apply IH1|done]).
    split.
    + destruct (nullable r1) eqn:Hn.
      * intros [(w1 & w2 & -> & H1 & H2)%in_cat_inv|H]%in_alt_inv; [by apply Hcat|].
        apply (in_cat _ _ [] (c :: w)); [by apply nullable_spec|by apply IH2].
      * intros (w1 & w2 & -> & H1 & H2)%in_cat_inv. by apply Hcat.
    + intros (w1 & w2 & Hw & H1 & H2)%in_cat_inv.
      destruct (app_eq_cons w1 w2 c w (eq_sym Hw)) as [[-> ->]|(w1' & -> & ->)].
      * apply nullable_spec in H1. rewrite H1. apply in_alt_r. by apply IH2.
      * assert (in_re (RCat (deriv c r1) r2) (w1' ++ w2)) by (constructor; [by apply IH1|done]).
        destruct (nullable r1); [by apply in_alt_l|done].
  - split; (intros [H|H]%in_alt_inv; [apply in_alt_l; by apply IH1 | apply in_alt_r; by apply IH2]).
  - split.
    + intros (w1 & w2 & -> & H1 & H2)%in_cat_inv.
      apply (in_star_app _ (c :: w1) w2); [by apply IH|done].
    + intros (w1 & w2 & -> & H1 & H2)%star_cons. constructor; [by apply IH|done].
  - split; intros [H1 H2]%in_and_inv; constructor; [by apply IH1|by apply IH2|by apply IH1|by apply IH2].
Qed.

(** The matcher decides the language. *)
Theorem matches_spec r w : matches r w = true <-> in_re r w.
Proof.
  revert r. induction w as [|c w IH]; intros r; simpl; [apply nullable_spec|].
  rewrite IH. apply deriv_spec.
Qed.

(** ** The languages of the derived forms *)

Section languages.
Context (p : ascii -> bool).

Lemma in_chr_iff w : in_re (RChr p) w <-> exists c, w = [c] /\ p c = true.
Proof. split; [apply in_chr_inv|]. intros (c & -> & Hc). by constructor. Qed.

Lemma in_star_chr w : in_re (RStar (RChr p)) w <-> Forall (fun c => p c = true) w.
Proof.
  split.
  - remember (RStar (RChr p)) as s eqn:Hs. intros H.
    induction H as [| | | | | |r w1 w2 H1 _ _ IH2|]; try discriminate; [done|].
    injection Hs as ->. apply Forall_app. split; [|by apply IH2].
    apply in_chr_inv in H1 as (c & -> & Hc). by constructor.
  - induction w as [|c w IH]; intros Hw; [constructor|].
    apply Forall_cons in Hw as [Hc Hw].
    apply (in_star_app _ [c] w); [by constructor|by apply IH].
Qed.

Lemma in_plus_chr w :
  in_re (RPlus (RChr p)) w <-> w <> [] /\ Forall (fun c => p c = true) w.
Proof.
  unfold RPlus. split.
  - intros (w1 & w2 & -> & (c & -> & Hc)%in_chr_inv & H2)%in_cat_inv.
    apply in_star_chr in H2. split; [done|]. by constructor.
  - intros [Hne Hw]. destruct w as [|c w]; [done|]. apply Forall_cons in Hw as [Hc Hw].
    apply (in_cat _ _ [c] w); [by constructor|by apply in_star_chr].
Qed.

Lemma in_rep_chr n w :
  in_re (RRep n (RChr p)) w <-> length w = n /\ Forall (fun c => p c = true) w.
Proof.
  revert w. induction n as [|n IH]; intros w; simpl.
  - split; [intros H; inversion H; auto|]. intros [Hl _]. destruct w; [constructor|done].
  - split.
    + intros (w1 & w2 & -> & (c & -> & Hc)%in_chr_inv & [Hl Hw]%IH)%in_cat_inv.
      simpl. split; [lia|]. by constructor.
    + intros [Hl Hw]. destruct w as [|c w]; [done|]. apply Forall_cons in Hw as [Hc Hw].
      apply (in_cat _ _ [c] w); [by constructor|]. apply IH. simpl in Hl. split; [lia|done].
Qed.

Lemma in_atleast_chr n w :
  in_re (RAtLeast n (RChr p)) w <-> n <= length w /\ Forall (fun c => p c = true) w.
Proof.
  unfold RAtLeast. split.
  - intros (w1 & w2 & -> & [Hl H1]%in_rep_chr & H2%in_star_chr)%in_cat_inv.
    rewrite length_app. split; [lia|]. by apply Forall_app.
  - intros [Hl Hw]. rewrite <- (take_drop n w). apply in_cat.
    + apply in_rep_chr. rewrite length_take. split; [lia|]. by apply Forall_take.
    + apply in_star_chr. by apply Forall_drop.
Qed.

End languages.

Lemma in_all w : in_re RAll w.
Proof. apply in_star_chr. by apply Forall_true. Qed.

(** [(?=.*X)] at the start: an [X] occurs before the first line
    terminator. *)
Lemma in_lookahead p w :
  in_re (RLookahead p) w <->
  exists w1 c w2, w = w1 ++ c :: w2 /\ Forall (fun c => negb (is_line_terminator c) = true) w1 /\
    p c = true.
Proof.
  unfold RLookahead. split.
  - intros (w12 & w3 & -> & (w1 & w2 & -> & H1 & (c & -> & Hc)%in_chr_inv)%in_cat_inv & _)%in_cat_inv.
    exists w1, c, w3. rewrite <- app_assoc. split; [done|]. split; [|done].
    by apply in_star_chr in H1.
  - intros (w1 & c & w2 & -> & H1 & Hc).
    replace (w1 ++ c :: w2) with ((w1 ++ [c]) ++ w2) by by rewrite <- app_assoc.
    apply in_cat; [apply in_cat; [by apply in_star_chr|by constructor]|apply in_all].
Qed.
