(* ===== verification/Validation.v ===== *)
(** * The validators of utils/validation.ts

    [validateEmail] (lines 3-6), [validatePassword] (8-12),
    [sanitizeInput] (14-16) and [validateName] (18-20) are pure string
    functions; no handler calls them.  Each regular expression is written
    as a [Regex.re] and tested with [re_test]; [String.prototype.trim]
    and [replace(/[<>]/g, "")] are list functions.

    Character classes are those of JavaScript on ASCII: [\s] (and what
    [trim] removes) is tab, line feed, vertical tab, form feed, carriage
    return and space; [\d] is [0-9].  A JavaScript string's [length]
    counts UTF-16 code units, which for ASCII is the number of
    characters. *)

From S2P Require Import Prelude Regex.

(** ** Character classes *)

Definition in_range (lo hi : nat) (c : ascii) : bool :=
  (lo <=? Ascii.nat_of_ascii c) && (Ascii.nat_of_ascii c <=? hi).

(** [\s] *)
Definition is_space (c : ascii) : bool := in_range 9 13 c || (Ascii.nat_of_ascii c =? 32).

Definition is_lower : ascii -> bool := in_range 97 122.
Definition is_upper : ascii -> bool := in_range 65 90.
Definition is_digit : ascii -> bool := in_range 48 57.

(** [[@$!%*?&]] *)
Definition is_special (c : ascii) : bool :=
  existsb (Ascii.eqb c) (String.list_ascii_of_string "@$!%*?&").

(** ** [validateEmail] *)

(** [[^\s@]] *)
Definition email_char (c : ascii) : bool := negb (is_space c || Ascii.eqb c "@"%char).

(** [/^[^\s@]+@[^\s@]+\.[^\s@]+$/] *)
Definition emailRegex : re :=
  RCat (RPlus (RChr email_char))
    (RCat (RChr (Ascii.eqb "@"%char))
      (RCat (RPlus (RChr email_char))
        (RCat (RChr (Ascii.eqb "."%char)) (RPlus (RChr email_char))))).

Definition validateEmail (email : string) : bool := re_test emailRegex email.

(** ** [validatePassword] *)

(** [[A-Za-z\d@$!%*?&]] *)
Definition password_char (c : ascii) : bool :=
  is_upper c || is_lower c || is_digit c || is_special c.

(** [/^(?=.*[a-z])(?=.*[A-Z])(?=.*\d)(?=.*[@$!%*?&])[A-Za-z\d@$!%*?&]{8,}$/] *)
Definition passwordRegex : re :=
  RAnd (RLookahead is_lower)
    (RAnd (RLookahead is_upper)
      (RAnd (RLookahead is_digit)
        (RAnd (RLookahead is_special) (RAtLeast 8 (RChr password_char))))).

Definition validatePassword (password : string) : bool := re_test passwordRegex password.

(** ** [sanitizeInput] *)

Fixpoint drop_spaces (l : list ascii) : list ascii :=
  match l with
  | c :: l' => if is_space c then drop_spaces l' else l
  | [] => []
  end.

(** [s.trim()] *)
Definition trim (l : list ascii) : list ascii := rev (drop_spaces (rev (drop_spaces l))).

Definition is_angle (c : ascii) : bool := Ascii.eqb c "<"%char || Ascii.eqb c ">"%char.

(** [input.trim().replace(/[<>]/g, "")] *)
Definition sanitizeInput (input : string) : string :=
  String.string_of_list_ascii
    (List.filter (fun c => negb (is_angle c)) (trim (String.list_ascii_of_string input))).

(** ** [validateName] *)

(** [/^[a-zA-Z\s]+$/] *)
Definition nameRegex : re := RPlus (RChr (fun c => is_lower c || is_upper c || is_space c)).

Definition validateName (name : string) : bool :=
  (2 <=? String.length name) && (String.length name <=? 50) && re_test nameRegex name.

(** ** Lemmas *)

Lemma password_char_not_terminator c : password_char c = true -> is_line_terminator c = false.
Proof.
  destruct (is_line_terminator c) eqn:Ht; [|done].
  unfold is_line_terminator in Ht. apply orb_true_iff in Ht as [Ht|Ht];
    apply Ascii.eqb_eq in Ht as ->; vm_compute; done.
Qed.

(** On a string without line terminators, a lookahead [(?=.*X)] at the
    start holds exactly when some character is an [X]. *)
Lemma lookahead_exists p w :
  Forall (fun c => password_char c = true) w ->
  in_re (RLookahead p) w <-> Exists (fun c => p c = true) w.
Proof.
  intros Hw. rewrite in_lookahead. split.
  - intros (w1 & c & w2 & -> & _ & Hc). apply Exists_app. right. by constructor.
  - intros (c & Hin & Hc)%Exists_exists. apply list_elem_of_split in Hin as (w1 & w2 & ->).
    exists w1, c, w2. split; [done|]. split; [|done].
    apply Forall_app in Hw as [Hw1 _]. eapply Forall_impl; [exact Hw1|].
    intros x Hx. by rewrite password_char_not_terminator.
Qed.

Lemma drop_spaces_suffix l : drop_spaces l `suffix_of` l.
Proof.
  induction l as [|c l IH]; simpl; [done|].
  destruct (is_space c); [|done]. by apply suffix_cons_r.
Qed.

Lemma suffix_sublist {A} (l1 l2 : list A) : l1 `suffix_of` l2 -> l1 `sublist_of` l2.
Proof. intros [k ->]. by apply sublist_inserts_l. Qed.

Lemma trim_sublist l : trim l `sublist_of` l.
Proof.
  unfold trim. transitivity (drop_spaces l); [|apply suffix_sublist, drop_spaces_suffix].
  set (D := drop_spaces l). destruct (drop_spaces_suffix (rev D)) as [k Hk].
  apply (f_equal (@rev ascii)) in Hk. rewrite rev_involutive, rev_app_distr in Hk.
  rewrite Hk at 2. by apply sublist_inserts_r.
Qed.

Lemma filter_sublist_of {A} (f : A -> bool) l : List.filter f l `sublist_of` l.
Proof.
  induction l as [|x l IH]; simpl; [done|].
  destruct (f x); [by apply sublist_skip|by apply sublist_cons].
Qed.

Lemma length_list_ascii s : length (String.list_ascii_of_string s) = String.length s.
Proof. induction s as [|c s IH]; simpl; [done|]. by rewrite IH. Qed.

(** [validateName] accepts exactly the strings of 2 to 50 letters and
    whitespace characters. *)
Lemma validate_name_iff s :
  validateName s = true <->
  (2 <= String.length s <= 50)%nat /\
  Forall (fun c => (is_lower c || is_upper c || is_space c) = true) (String.list_ascii_of_string s).
Proof.
  unfold validateName, re_test, nameRegex. rewrite !andb_true_iff, !Nat.leb_le, matches_spec.
  rewrite in_plus_chr. split; [intros [[? ?] [_ ?]]; auto|].
  intros [[H2 H50] Hw]. repeat split; try done. intros Hn.
  rewrite <- length_list_ascii, Hn in H2. simpl in H2. lia.
Qed.

(** [sanitizeInput] is not idempotent: removing the brackets after
    trimming can expose whitespace at an end. *)
Lemma sanitize_not_idempotent : sanitizeInput (sanitizeInput "< a") <> sanitizeInput "< a".
Proof. vm_compute. discriminate. Qed.

(** ** Properties *)

(** C26. [validateEmail] accepts exactly the strings [a@b.c] with [a],
    [b], [c] non-empty and free of whitespace and [@] ([b] may hold
    dots). *)
Theorem validate_email_iff s :
  validateEmail s = true <->
  exists a b c, String.list_ascii_of_string s = a ++ "@"%char :: b ++ "."%char :: c /\
    a <> [] /\ b <> [] /\ c <> [] /\ Forall (fun x => email_char x = true) (a ++ b ++ c).
Proof.
  unfold validateEmail, re_test, emailRegex. rewrite matches_spec. split.
  - intros (a & w1 & -> & [Ha Fa]%in_plus_chr & H1)%in_cat_inv.
    apply in_cat_inv in H1 as (w2 & w3 & -> & (x & -> & Hx%Ascii.eqb_eq)%in_chr_inv & H2).
    apply in_cat_inv in H2 as (b & w4 & -> & [Hb Fb]%in_plus_chr & H3).
    apply in_cat_inv in H3 as (w5 & c & -> & (y & -> & Hy%Ascii.eqb_eq)%in_chr_inv & [Hc Fc]%in_plus_chr).
    subst x y. exists a, b, c. repeat split; try done. by rewrite !Forall_app.
  - intros (a & b & c & -> & Ha & Hb & Hc & [Fa [Fb Fc]%Forall_app]%Forall_app).
    apply in_cat; [by apply in_plus_chr|]. apply (in_cat _ _ ["@"%char]); [by constructor|].
    apply in_cat; [by apply in_plus_chr|]. apply (in_cat _ _ ["."%char]); [by constructor|].
    by apply in_plus_chr.
Qed.

(** C27. [validatePassword] accepts exactly the strings of at least eight
    characters from [[A-Za-z0-9@$!%*?&]] that contain a lower-case
    letter, an upper-case letter, a digit and one of [@$!%*?&]. *)
Theorem validate_password_iff s :
  let w := String.list_ascii_of_string s in
  validatePassword s = true <->
  8 <= length w /\ Forall (fun c => password_char c = true) w /\
  Exists (fun c => is_lower c = true) w /\ Exists (fun c => is_upper c = true) w /\
  Exists (fun c => is_digit c = true) w /\ Exists (fun c => is_special c = true) w.
Proof.
  intros w. unfold validatePassword, re_test, passwordRegex. fold w. rewrite matches_spec. split.
  - intros [H1 [H2 [H3 [H4 [Hl Hw]%in_atleast_chr]%in_and_inv]%in_and_inv]%in_and_inv]%in_and_inv.
    rewrite lookahead_exists in H1, H2, H3, H4 by done. auto 10.
  - intros (Hl & Hw & E1 & E2 & E3 & E4).
    repeat (apply in_and; [by apply lookahead_exists|]). by apply in_atleast_chr.
Qed.

(** C28. The output of [sanitizeInput] contains no [<] or [>], and it is
    a subsequence of the input: characters are only removed, never added
    or reordered. *)
Theorem sanitize_spec s :
  let out := String.list_ascii_of_string (sanitizeInput s) in
  Forall (fun c => is_angle c = false) out /\ out `sublist_of` String.list_ascii_of_string s.
Proof.
  intros out. unfold out, sanitizeInput. rewrite String.list_ascii_of_string_of_list_ascii. split.
  - apply Forall_forall. intros c Hc%list_elem_of_In. apply filter_In in Hc as [_ Hc].
    by apply negb_true_iff in Hc.
  - etransitivity; [apply filter_sublist_of|apply trim_sublist].
Qed.
