(* ===== verification/Routing.v ===== *)
(** * Request routing (app.ts, routes/*.ts)

    [app.ts] installs [express.json()], [cors()], [helmet()] and
    [morgan("dev")] (lines 14-17), then mounts three routers (lines
    20-22): [testRoutes] on [/api/test], [userRoutes] on [/api/v1/users]
    and [expenseRoutes] on [/api/v1/expenses].  Each router is a list of
    routes tried in order; the first route whose method and path match
    handles the request.  A request that no route matches falls through
    to Express's final handler, a 404.

    Express's matching rules, as modelled here:
    - a path is its list of segments; matching is non-strict (a trailing
      slash does not matter) and case-insensitive for literal segments;
    - a parameter segment ([:id]) matches one non-empty segment and is
      passed on as written (percent-decoding is not modelled);
    - a mount path matches a prefix of whole segments, and the router sees
      the rest;
    - a [HEAD] request is handled by the [GET] route of its path;
    - [cors()] with its defaults answers every [OPTIONS] preflight with
      204 before any router runs.
    Request paths with empty inner segments ([//]) are outside the model.

    The routers' [authMiddleware] (routes/expese.routes.ts) is recorded
    per route as [rt_auth]; what it does is modelled in [App]. *)

From S2P Require Import Prelude.

(** ** Data *)

Inductive http_method : Type :=
  | GET | POST | PUT | DELETE | HEAD | OPTIONS
  | OtherMethod (m : string).

#[export] Instance http_method_eq_dec : EqDecision http_method.
Proof. solve_decision. Defined.

(** A segment of a route path. *)
Inductive seg_pat : Type :=
  | Lit (s : string)   (** a literal segment *)
  | Param.             (** [:id] *)

(** The controller functions the routes name. *)
Inductive handler : Type :=
  | HCreateExpense | HGetUserExpenses | HGetMonthlyExpenses | HGetExpenseById
  | HUpdateExpense | HDeleteExpense | HSyncExpenses
  | HCreateUser | HLoginUser
  | HTestAPI.

#[export] Instance handler_eq_dec : EqDecision handler.
Proof. solve_decision. Defined.

Record route : Type := mkRoute {
  rt_method : http_method;
  rt_path : list seg_pat;
  rt_auth : bool;          (** [authMiddleware] runs before the handler *)
  rt_handler : handler
}.

(** ** The route tables *)

(** routes/expese.routes.ts, lines 16-22. *)
Definition expenseRoutes : list route := [
  mkRoute POST [] true HCreateExpense;
  mkRoute GET [] true HGetUserExpenses;
  mkRoute GET [Lit "monthly"] true HGetMonthlyExpenses;
  mkRoute GET [Param] true HGetExpenseById;
  mkRoute PUT [Param] true HUpdateExpense;
  mkRoute DELETE [Param] true HDeleteExpense;
  mkRoute POST [Lit "sync"] true HSyncExpenses
].

(** routes/user.routes.ts, lines 7-8. *)
Definition userRoutes : list route := [
  mkRoute POST [] false HCreateUser;
  mkRoute POST [Lit "login"] false HLoginUser
].

(** routes/testRoutes.ts, line 6. *)
Definition testRoutes : list route := [mkRoute GET [] false HTestAPI].

(** app.ts, lines 20-22. *)
Definition app_mounts : list (list string * list route) := [
  (["api"; "test"], testRoutes);
  (["api"; "v1"; "users"], userRoutes);
  (["api"; "v1"; "expenses"], expenseRoutes)
].

(** The handlers that act on a user's expenses. *)
Definition is_expense_handler (h : handler) : bool :=
  match h with
  | HCreateExpense | HGetUserExpenses | HGetMonthlyExpenses | HGetExpenseById
  | HUpdateExpense | HDeleteExpense | HSyncExpenses => true
  | HCreateUser | HLoginUser | HTestAPI => false
  end.

(** ** Matching *)

(** ASCII lower case, the case folding of a case-insensitive match. *)
Definition lower_ascii (c : ascii) : ascii :=
  let n := Ascii.nat_of_ascii c in
  if (65 <=? n) && (n <=? 90) then Ascii.ascii_of_nat (n + 32) else c.

Fixpoint lower (s : string) : string :=
  match s with
  | EmptyString => EmptyString
  | String c s' => String (lower_ascii c) (lower s')
  end.

Definition seg_eq (a b : string) : bool := String.eqb (lower a) (lower b).

(** A route path against the rest of the request path: the parameters
    in order, or [None]. *)
Fixpoint match_path (ps : list seg_pat) (segs : list string) : option (list string) :=
  match ps, segs with
  | [], [] => Some []
  | Lit l :: ps', s :: segs' => if seg_eq l s then match_path ps' segs' else None
  | Param :: ps', s :: segs' =>
      if String.eqb s EmptyString then None else (s ::.) <$> match_path ps' segs'
  | _, _ => None
  end.

(** A mount path against the request path: the rest, or [None]. *)
Fixpoint strip_mount (mount segs : list string) : option (list string) :=
  match mount, segs with
  | [], _ => Some segs
  | m :: mount', s :: segs' => if seg_eq m s then strip_mount mount' segs' else None
  | _ :: _, [] => None
  end.

(** [route._handles_method]: [HEAD] falls back to [GET]. *)
Definition method_matches (rm m : http_method) : bool :=
  bool_decide (rm = m) || (bool_decide (m = HEAD) && bool_decide (rm = GET)).

(** The first route of a router that handles the request. *)
Fixpoint match_routes (rs : list route) (m : http_method) (segs : list string)
    : option (route * list string) :=
  match rs with
  | [] => None
  | r :: rs' =>
      match (if method_matches (rt_method r) m then match_path (rt_path r) segs else None) with
      | Some params => Some (r, params)
      | None => match_routes rs' m segs
      end
  end.

Inductive dispatch_result : Type :=
  | Preflight                                           (** [cors()] answers 204 *)
  | Routed (h : handler) (auth : bool) (params : list string)
  | NoRoute.                                            (** Express's 404 *)

(** The mounts in order; a router that matches no route passes the
    request on to the next mount. *)
Fixpoint dispatch_mounts (ms : list (list string * list route)) (m : http_method)
    (segs : list string) : dispatch_result :=
  match ms with
  | [] => NoRoute
  | (mount, rs) :: ms' =>
      match strip_mount mount segs ≫= fun rest => match_routes rs m rest with
      | Some (r, params) => Routed (rt_handler r) (rt_auth r) params
      | None => dispatch_mounts ms' m segs
      end
  end.

Definition dispatch (m : http_method) (segs : list string) : dispatch_result :=
  if bool_decide (m = OPTIONS) then Preflight else dispatch_mounts app_mounts m segs.

(** ** The specification's HTTP surface *)

(** The table of the specification (section 6), under the [/api/v1]
    prefix: the handler a request is meant for.  Its paths are lower
    case; [/expenses/monthly] is the monthly report, not an id. *)
Definition spec_route (m : http_method) (segs : list string) : option handler :=
  match segs with
  | [a] =>
      if String.eqb "users" a then (if bool_decide (m = POST) then Some HCreateUser else None)
      else if String.eqb "expenses" a then
        match m with POST => Some HCreateExpense | GET => Some HGetUserExpenses | _ => None end
      else None
  | [a; b] =>
      if String.eqb "users" a then
        (if bool_decide (m = POST) && String.eqb "login" b then Some HLoginUser else None)
      else if String.eqb "expenses" a then
        match m with
        | GET => if String.eqb "monthly" b then Some HGetMonthlyExpenses else Some HGetExpenseById
        | PUT => Some HUpdateExpense
        | DELETE => Some HDeleteExpense
        | POST => if String.eqb "sync" b then Some HSyncExpenses else None
        | _ => None
        end
      else None
  | _ => None
  end.

(** ** Lemmas *)

Lemma match_routes_In rs m segs r ps :
  match_routes rs m segs = Some (r, ps) -> In r rs.
Proof.
  induction rs as [|r' rs IH]; simpl; [discriminate|].
  case_match; [intros [= -> _]; auto|]. intros Hr. right. by apply IH.
Qed.

Lemma dispatch_mounts_In ms m segs h a ps :
  dispatch_mounts ms m segs = Routed h a ps ->
  exists mount rs r, In (mount, rs) ms /\ In r rs /\ h = rt_handler r /\ a = rt_auth r.
Proof.
  induction ms as [|[mount rs] ms IH]; simpl; [discriminate|].
  destruct (strip_mount mount segs ≫= _) as [[r ps']|] eqn:Hm.
  - intros [= <- <- _]. destruct (strip_mount mount segs) as [rest|]; [|discriminate].
    simpl in Hm. apply match_routes_In in Hm. exists mount, rs, r. auto.
  - intros H. destruct (IH H) as (mount' & rs' & r & ? & ? & ? & ?). exists mount', rs', r. auto.
Qed.

(** Between lower-case segments, the case-insensitive comparison is
    equality. *)
Lemma seg_eq_lit l s : lower l = l -> lower s = s -> seg_eq l s = String.eqb l s.
Proof. unfold seg_eq. by intros -> ->. Qed.

Lemma seg_eq_refl s : seg_eq s s = true.
Proof. apply String.eqb_refl. Qed.

Local Arguments seg_eq : simpl never.
Local Arguments String.eqb : simpl never.

(** Close [(exists a ps, r = Routed h a ps) <-> o = Some h] once [r] and
    [o] are computed. *)
Ltac str_lit s := lazymatch s with EmptyString => idtac | String _ ?s' => str_lit s' end.

(** One step of computing a dispatch on a path with variable segments:
    evaluate comparisons of literals, use the lower-case hypotheses,
    and split on the comparisons that remain. *)
Ltac route_step :=
  match goal with
  | |- context [String.eqb ?l ?r] =>
      str_lit l; str_lit r; let v := eval vm_compute in (String.eqb l r) in change (String.eqb l r) with v
  | |- context [seg_eq ?l ?r] =>
      str_lit l; str_lit r; let v := eval vm_compute in (seg_eq l r) in change (seg_eq l r) with v
  | H : lower ?x = ?x |- context [seg_eq ?l ?x] => str_lit l; rewrite (seg_eq_lit l x) by done
  | H : ?x <> EmptyString |- context [String.eqb ?x EmptyString] =>
      rewrite (proj2 (String.eqb_neq x EmptyString) H)
  | |- context [String.eqb ?l ?x] => is_var x; destruct (String.eqb_spec l x) as [<-|?]
  | |- context [String.eqb ?x ?l] => is_var x; destruct (String.eqb x l)
  | |- context [seg_eq ?l ?x] => is_var x; destruct (seg_eq l x)
  end.

Ltac route_iff :=
  first [ split; [intros (? & ? & [= <- _ _]) | intros [= <-]]; eauto
        | split; [intros (? & ? & [=]) | discriminate] ].

(** ** Properties *)

(** A [GET] (or [HEAD]) of [/api/v1/expenses/<s>] reaches
    [getMonthlyExpenses] when [s] is "monthly" in any letter case, and
    [getExpenseById] with [id = s] otherwise: the [/monthly] route is
    registered before [/:id] and is not shadowed by it. *)
Theorem expense_get_routes m s :
  m = GET \/ m = HEAD -> s <> EmptyString ->
  dispatch m ["api"; "v1"; "expenses"; s] =
    if seg_eq "monthly" s then Routed HGetMonthlyExpenses true []
    else Routed HGetExpenseById true [s].
Proof.
  intros Hm Hs. apply String.eqb_neq in Hs.
  destruct Hm as [->| ->]; unfold dispatch; simpl;
    destruct (seg_eq "monthly" s); simpl; rewrite ?Hs; reflexivity.
Qed.

(** C29. A request reaches a handler of the expense controller exactly
    through a route guarded by [authMiddleware]: every expense route is
    authenticated, and the user and test routes are not. *)
Theorem routes_authenticated m segs h a ps :
  dispatch m segs = Routed h a ps -> a = is_expense_handler h.
Proof.
  unfold dispatch. case_decide; [discriminate|].
  intros (mount & rs & r & Hms & Hr & -> & ->)%dispatch_mounts_In.
  assert (Hall : Forall (fun mr => Forall (fun r => rt_auth r = is_expense_handler (rt_handler r)) mr.2)
                        app_mounts) by (repeat constructor).
  rewrite Forall_forall in Hall. apply list_elem_of_In in Hms.
  specialize (Hall _ Hms). rewrite Forall_forall in Hall. apply Hall, list_elem_of_In, Hr.
Qed.

(** C30. The router implements the specification's table: for the four
    methods of the table and a lower-case path of non-empty segments
    under [/api/v1], a request reaches handler [h] exactly when the table
    names [h] for it. *)
Theorem router_refines_spec m segs h :
  m = GET \/ m = POST \/ m = PUT \/ m = DELETE ->
  Forall (fun s => s <> EmptyString /\ lower s = s) segs ->
  (exists a ps, dispatch m (["api"; "v1"] ++ segs) = Routed h a ps) <-> spec_route m segs = Some h.
Proof.
  intros Hm Hsegs.
  destruct segs as [|a [|b [|c rest]]];
    [| apply Forall_cons in Hsegs as [[_ Ha] _]
     | apply Forall_cons in Hsegs as [[_ Ha] [[Hb Hb'] _]%Forall_cons]
     | ];
    destruct Hm as [-> | [-> | [-> | ->]]]; unfold dispatch, spec_route;
    repeat (simpl; route_step); simpl; route_iff.
Qed.

(** ** Examples *)

Module RoutingExamples.

(** [GET /api/v1/expenses/Monthly] is the report, [/api/v1/expenses/42]
    an id. *)
Lemma expense_get_routes_witness :
  dispatch GET ["api"; "v1"; "expenses"; "Monthly"] =
    (if seg_eq "monthly" "Monthly" then Routed HGetMonthlyExpenses true []
     else Routed HGetExpenseById true ["Monthly"]).
Proof. apply expense_get_routes; [left; reflexivity | discriminate]. Defined.

Lemma routes_authenticated_witness : true = is_expense_handler HSyncExpenses.
Proof. apply (routes_authenticated POST ["api"; "v1"; "expenses"; "sync"] _ _ []). reflexivity. Defined.

(** [POST /api/v1/expenses/sync] is the sync handler. *)
Lemma router_refines_spec_witness :
  (exists a ps, dispatch POST (["api"; "v1"] ++ ["expenses"; "sync"]) = Routed HSyncExpenses a ps) <->
  spec_route POST ["expenses"; "sync"] = Some HSyncExpenses.
Proof.
  apply router_refines_spec; [right; left; reflexivity|].
  repeat constructor; discriminate.
Defined.

End RoutingExamples.
