(* ===== verification/App.v ===== *)
(** * The server as a state machine (app.ts with every controller)

    The application state is the two collections, Expense and User
    ([app_state]).  A request ([request]) is a method, a path, the bearer
    token and the JSON body.  [serve] routes it ([Routing.dispatch]),
    runs [authMiddleware] on the expense routes, and runs the handler the
    route names on the state, giving the new state and the answer.  Any
    sequence of requests, in any interleaving of users, is a sequence of
    [serve] steps: [reachable] is the set of states they can produce
    from the empty database.

    [authMiddleware] is imported by routes/expese.routes.ts from a module
    that is not in the repository.  Following the specification (section
    6: "bearer token ... carrying the user identifier"), it is the class
    [AuthVerify]: the user id a token proves, if any.  A request it
    rejects is answered 401 and reaches no handler.  [testAPI] (routes/
    testRoutes.ts) comes from a controller that is not in the repository
    either: [serve] answers [None] for it, as for the request bodies that
    are outside the models of [updateExpense] and [loginUser]. *)

From S2P Require Import Prelude Json Store Monthly Sync Crud Update Users Routing.

(** The user id a bearer token proves (the missing [authMiddleware]). *)
Class AuthVerify := auth_user : option string -> option nat.

(** ** Data *)

Record app_state : Type := mkState {
  expenses : db;
  userdb : udb
}.

Record request : Type := mkRequest {
  rq_method : http_method;
  rq_path : list string;        (** the path's segments *)
  rq_token : option string;     (** the [Authorization] bearer token *)
  rq_body : jsval               (** [req.body] after [express.json()] *)
}.

(** Every answer the server sends. *)
Inductive api_body : Type :=
  | ApiSync (b : sync_body)
  | ApiCrud (b : crud_body)
  | ApiMonthly (l : list month_summary)
  | ApiUser (b : user_body)
  | ApiUnauthorized                    (** [authMiddleware] rejects the token *)
  | ApiNoContent                       (** [cors()] preflight, 204 *)
  | ApiNotFound.                       (** Express's "Cannot GET ..." *)

Definition resp_map {A B} (f : A -> B) (r : response A) : response B :=
  Resp (status r) (f (body r)).

(** An instance for examples: the token is the user id in decimal. *)
Definition auth_decimal : AuthVerify := fun t =>
  match t ≫= parse_Z with
  | Some z => if (0 <=? z)%Z then Some (Z.to_nat z) else None
  | None => None
  end.

(** The empty database the server starts with. *)
Definition init_state : app_state := mkState (mkDb [] 0) (mkUdb [] 0).

Section App.
Context `{dp : DateParse} `{oc : ObjectIdCast} `{bc : Bcrypt} `{jw : JwtSign}
        `{uf : UndefinedFilter} `{av : AuthVerify}.

(** [req.params.id], cast to an ObjectId by the query. *)
Definition id_of (params : list string) : id_param :=
  match params with
  | [p] => match oid_cast (JStr p) with Some n => IdValid n | None => IdMalformed end
  | _ => IdMalformed
  end.

(** The expense controller, for the authenticated user [uid]. *)
Definition expense_handler (s : app_state) (h : handler) (uid : nat) (params : list string)
    (body : jsval) : option (app_state * response api_body) :=
  let d := expenses s in
  let with_db d' := mkState d' (userdb s) in
  match h with
  | HCreateExpense => let '(d', r) := createExpense d uid body in Some (with_db d', resp_map ApiCrud r)
  | HGetUserExpenses => Some (s, resp_map ApiCrud (getUserExpenses d uid))
  | HGetMonthlyExpenses => Some (s, resp_map ApiMonthly (getMonthlyExpenses d uid))
  | HGetExpenseById => Some (s, resp_map ApiCrud (getExpenseById d uid (id_of params)))
  | HUpdateExpense =>
      (fun '(d', r) => (with_db d', resp_map ApiCrud r)) <$> updateExpense d uid (id_of params) body
  | HDeleteExpense =>
      let '(d', r) := deleteExpense d uid (id_of params) in Some (with_db d', resp_map ApiCrud r)
  | HSyncExpenses => let '(d', r) := syncExpenses d uid body in Some (with_db d', resp_map ApiSync r)
  | HCreateUser | HLoginUser | HTestAPI => None
  end.

(** The routes without [authMiddleware]; [env] is [process.env.JWT_SECRET]. *)
Definition open_handler (env : option string) (s : app_state) (h : handler) (body : jsval)
    : option (app_state * response api_body) :=
  match h with
  | HCreateUser =>
      let '(u', r) := createUser (userdb s) body in Some (mkState (expenses s) u', resp_map ApiUser r)
  | HLoginUser => (fun r => (s, resp_map ApiUser r)) <$> loginUser (userdb s) env body
  | _ => None
  end.

Definition serve (env : option string) (s : app_state) (rq : request)
    : option (app_state * response api_body) :=
  match dispatch (rq_method rq) (rq_path rq) with
  | Preflight => Some (s, Resp 204 ApiNoContent)
  | NoRoute => Some (s, Resp 404 ApiNotFound)
  | Routed h true params =>
      match auth_user (rq_token rq) with
      | None => Some (s, Resp 401 ApiUnauthorized)
      | Some uid => expense_handler s h uid params (rq_body rq)
      end
  | Routed h false _ => open_handler env s h (rq_body rq)
  end.

(** A sequence of requests served in order: the final state and the
    answers, or [None] if one of them is outside the model. *)
Fixpoint serve_all (env : option string) (s : app_state) (rqs : list request)
    : option (app_state * list (response api_body)) :=
  match rqs with
  | [] => Some (s, [])
  | rq :: rqs' =>
      '(s1, r) ← serve env s rq;
      '(s2, rs) ← serve_all env s1 rqs';
      Some (s2, r :: rs)
  end.

Definition app_wf (s : app_state) : Prop := db_wf (expenses s) /\ udb_wf (userdb s).

(** The states the server can reach from the empty database. *)
Inductive reachable (env : option string) : app_state -> Prop :=
  | reach_init : reachable env init_state
  | reach_step s rq s' r : reachable env s -> serve env s rq = Some (s', r) -> reachable env s'.

End App.

(** ** Lemmas *)

Section AppLemmas.
Context `{dp : DateParse} `{oc : ObjectIdCast} `{bc : Bcrypt} `{jw : JwtSign}
        `{uf : UndefinedFilter} `{av : AuthVerify}.


Lemma expense_handler_wf s h uid ps body s' r :
  db_wf (expenses s) -> expense_handler s h uid ps body = Some (s', r) ->
  db_wf (expenses s') /\ userdb s' = userdb s.
Proof.
  intros Hwf. destruct h; simpl; try discriminate.
  - pose proof (createExpense_wf _ uid body Hwf).
    destruct (createExpense _ _ _); intros [= <- _]; auto.
  - intros [= <- _]; auto.
  - intros [= <- _]; auto.
  - intros [= <- _]; auto.
  - destruct (updateExpense _ _ _ _) as [[d' r']|] eqn:Hu; intros [= <- _].
    split; [|done]. by apply (updateExpense_wf _ _ _ _ _ _ Hwf Hu).
  - pose proof (deleteExpense_wf _ uid (id_of ps) Hwf).
    destruct (deleteExpense _ _ _); intros [= <- _]; auto.
  - pose proof (syncExpenses_wf _ uid body Hwf).
    destruct (syncExpenses _ _ _); intros [= <- _]; auto.
Qed.

Lemma open_handler_state env s h body s' r :
  open_handler env s h body = Some (s', r) ->
  expenses s' = expenses s /\ (udb_wf (userdb s) -> udb_wf (userdb s')).
Proof.
  destruct h; simpl; try discriminate.
  - pose proof (createUser_wf (userdb s) body).
    destruct (createUser _ _); intros [= <- _]; auto.
  - destruct (loginUser _ _ _); intros [= <- _]; auto.
Qed.

(** Every request keeps both collections well formed. *)
Lemma serve_wf env s rq s' r : app_wf s -> serve env s rq = Some (s', r) -> app_wf s'.
Proof.
  unfold app_wf, serve. intros [Hd Hu].
  destruct (dispatch _ _) as [|h [] ps|]; try (intros [= <- _]; by split).
  - destruct (auth_user _) as [uid|]; [|intros [= <- _]; by split].
    intros (Hd' & ->)%expense_handler_wf; [|done]. by split.
  - intros (Hs & Hw)%open_handler_state. split; [by rewrite Hs|auto].
Qed.

End AppLemmas.

Section AppProperties.
Context `{dp : DateParse} `{oc : ObjectIdCast} `{bc : Bcrypt} `{jw : JwtSign}
        `{uf : UndefinedFilter} `{av : AuthVerify}.

Lemma prefix_In {A} (l1 l2 : list A) x : l1 `prefix_of` l2 -> In x l1 -> In x l2.
Proof. intros [k ->] Hx. apply in_or_app. by left. Qed.

(** The expense controller keeps every expense of another user. *)
Lemma expense_handler_keeps_others s h uid ps body s' r x :
  db_wf (expenses s) -> expense_handler s h uid ps body = Some (s', r) ->
  In x (docs (expenses s)) -> userId x <> uid -> In x (docs (expenses s')).
Proof.
  intros Hwf. destruct h; simpl; try discriminate.
  - pose proof (createExpense_prefix (expenses s) uid body).
    destruct (createExpense _ _ _); intros [= <- _] Hx _. by eapply prefix_In.
  - intros [= <- _]; auto.
  - intros [= <- _]; auto.
  - intros [= <- _]; auto.
  - destruct (updateExpense _ _ _ _) as [[d' r']|] eqn:Hu; intros [= <- _].
    by apply (updateExpense_keeps_others _ _ _ _ _ _ _ Hwf Hu).
  - pose proof (deleteExpense_keeps_others (expenses s) uid (id_of ps) x Hwf).
    destruct (deleteExpense _ _ _); intros [= <- _]; auto.
  - pose proof (sync_try_prefix (expenses s) uid body). rewrite <- syncExpenses_state in *.
    destruct (syncExpenses _ _ _); intros [= <- _] Hx _. by eapply prefix_In.
Qed.

(** ** Properties *)

(** C31. Every state the server can reach from the empty database, by
    any sequence of requests of any users, satisfies both invariants:
    each user has at most one expense per date, expense ids are distinct,
    and emails are unique. *)
Theorem reachable_wf env s : reachable env s -> app_wf s.
Proof.
  induction 1 as [|s rq s' r _ IH Hs].
  - repeat split; constructor.
  - by eapply serve_wf.
Qed.

(** C33. Isolation between users: on a well-formed state, no request
    removes or changes an expense of a user other than the one its token
    proves (and a request without a valid token changes none). *)
Theorem serve_isolation env s rq s' r x :
  db_wf (expenses s) -> serve env s rq = Some (s', r) ->
  In x (docs (expenses s)) -> (forall a, auth_user (rq_token rq) = Some a -> userId x <> a) ->
  In x (docs (expenses s')).
Proof.
  intros Hwf. unfold serve.
  destruct (dispatch _ _) as [|h [] ps|]; try (intros [= <- _]; done).
  - destruct (auth_user _) as [uid|]; [|intros [= <- _]; done].
    intros Hh Hx Hu. by apply (expense_handler_keeps_others _ _ _ _ _ _ _ _ Hwf Hh Hx), Hu.
  - intros (-> & _)%open_handler_state. done.
Qed.

(** A request whose token [authMiddleware] does not accept never
    changes the Expense collection: it is either refused with 401 or
    served by a route without authentication, none of which writes
    expenses. *)
Theorem unauthenticated_no_expense_change env s rq s' r :
  auth_user (rq_token rq) = None -> serve env s rq = Some (s', r) -> expenses s' = expenses s.
Proof.
  intros Ha. unfold serve. rewrite Ha.
  destruct (dispatch _ _) as [|h [] ps|]; try (intros [= <- _]; done).
  by intros (-> & _)%open_handler_state.
Qed.

End AppProperties.

(** ** Examples *)

Module AppExamples.

#[local] Existing Instance date_parse_none.
#[local] Existing Instance oid_decimal.
#[local] Existing Instance bcrypt_plain.
#[local] Existing Instance jwt_show.
#[local] Existing Instance undefined_as_null.
#[local] Existing Instance auth_decimal.

(** Alice signs up, then syncs one SMS transaction with the token of
    user 0. *)
Local Abbreviation rq_signup := (mkRequest POST ["api"; "v1"; "users"] None
  (JObj [("name", JStr "Alice"); ("email", JStr "alice@example.com"); ("passwordHash", JStr "h")])).
Local Abbreviation rq_sync := (mkRequest POST ["api"; "v1"; "expenses"; "sync"] (Some "0")
  (JObj [("transactions", JArr [JObj [("timestamp", JNum 1710460800000); ("amount", JNum 50);
                                      ("transactionType", JStr "debit")]])])).
Local Abbreviation alice := (mkUser 0 "Alice" "alice@example.com" "h").
Local Abbreviation e0 := (mkExpense 0 0 "debit" 50 None 1710460800000 None (Some "Unknown") None None).
Local Abbreviation s1 := (mkState (mkDb [] 0) (mkUdb [alice] 1)).
Local Abbreviation s2 := (mkState (mkDb [e0] 1) (mkUdb [alice] 1)).
(** User 1 asks to delete expense 0, which is user 0's. *)
Local Abbreviation rq_delete tok :=
  (mkRequest DELETE ["api"; "v1"; "expenses"; "0"] tok (JObj [])).

Lemma reachable_wf_witness : app_wf s2.
Proof.
  apply (reachable_wf None).
  apply (reach_step None s1 rq_sync s2 (Resp 201 (ApiSync (SyncSaved
    "1 new transactions saved. 0 already existed." [e0] [])))); [|reflexivity].
  apply (reach_step None init_state rq_signup s1 (Resp 201 (ApiUser (UserCreated alice))));
    [apply reach_init|reflexivity].
Defined.

Lemma serve_isolation_witness : In e0 (docs (expenses s2)).
Proof.
  apply (serve_isolation None s2 (rq_delete (Some "1")) s2
           (Resp 404 (ApiCrud (CrudMessage "Expense not found"))) e0).
  - apply (bool_decide_unpack _). vm_compute. exact I.
  - reflexivity.
  - simpl. auto.
  - intros a Ha. vm_compute in Ha. injection Ha as <-. discriminate.
Defined.

Lemma unauthenticated_no_expense_change_witness : expenses s2 = expenses s2.
Proof.
  apply (unauthenticated_no_expense_change None s2 (rq_delete None) s2
           (Resp 401 ApiUnauthorized)); reflexivity.
Defined.

End AppExamples.
