(* ===== verification/Schema.v ===== *)
(** * The schemas as types of the stored documents (models/Expense.ts, models/User.ts)

    [expenseSchema] (models/Expense.ts lines 4-19) and [userSchema]
    (models/User.ts lines 3-7) are written as data: each path with its
    SchemaType and whether it is [required].  [expense_doc] and
    [user_doc] are the documents as MongoDB stores them (BSON values; an
    unset optional path is absent).  [conforms] is the schema check:
    every path holds a value of its type (a Date holds a valid time, in
    the ECMAScript range), every required path is set (and a required
    String is not empty, Mongoose's [checkRequired]), and the document
    has no field other than [_id] (an ObjectId) and the schema's paths.

    The typing theorem: every state the server can reach stores only
    documents that conform to their schema.  It holds because every
    write goes through a cast with the [required] validators (creation,
    [insertMany], the update validators of [findOneAndUpdate]) and every
    Date value comes through TimeClip. *)

From S2P Require Import Prelude Json Store Sync Crud Update Users Routing App.

(** ** Schemas *)

Inductive schema_type : Type := TObjectId | TString | TNumber | TDate.

Record schema_path : Type := mkPath {
  path_name : string;
  path_type : schema_type;
  path_required : bool
}.

Definition expenseSchema : list schema_path := [
  mkPath "userId" TObjectId true;
  mkPath "category" TString true;
  mkPath "amount" TNumber true;
  mkPath "description" TString false;
  mkPath "date" TDate true;
  mkPath "sender" TString false;
  mkPath "senderReceiver" TString false;
  mkPath "upiTransactionId" TString false;
  mkPath "rawMessage" TString false
].

Definition userSchema : list schema_path := [
  mkPath "name" TString true;
  mkPath "email" TString true;
  mkPath "passwordHash" TString true
].

(** ** Stored documents *)

Inductive bson : Type :=
  | BObjectId (n : nat)
  | BString (s : string)
  | BNumber (z : Z)
  | BDate (t : Z).

Definition opt_field (k : string) (v : option string) : list (string * bson) :=
  match v with Some s => [(k, BString s)] | None => [] end.

Definition expense_doc (e : expense) : list (string * bson) :=
  [("_id", BObjectId (oid e)); ("userId", BObjectId (userId e));
   ("category", BString (category e)); ("amount", BNumber (amount e))] ++
  opt_field "description" (description e) ++ [("date", BDate (date e))] ++
  opt_field "sender" (sender e) ++ opt_field "senderReceiver" (senderReceiver e) ++
  opt_field "upiTransactionId" (upiTransactionId e) ++ opt_field "rawMessage" (rawMessage e).

Definition user_doc (u : user) : list (string * bson) :=
  [("_id", BObjectId (u_oid u)); ("name", BString (name u)); ("email", BString (email u));
   ("passwordHash", BString (passwordHash u))].

(** ** The schema check *)

Definition field (k : string) (doc : list (string * bson)) : option bson :=
  snd <$> List.find (fun kv => String.eqb kv.1 k) doc.

(** A value of the path's type; a Date holds a valid time. *)
Definition has_type (v : bson) (t : schema_type) : bool :=
  match v, t with
  | BObjectId _, TObjectId | BString _, TString | BNumber _, TNumber => true
  | BDate d, TDate => (Z.abs d <=? max_time)%Z
  | _, _ => false
  end.

(** [checkRequired]: a required String must not be empty. *)
Definition required_ok (v : bson) : bool :=
  match v with BString s => negb (String.eqb s "") | _ => true end.

Definition path_ok (doc : list (string * bson)) (p : schema_path) : bool :=
  match field (path_name p) doc with
  | None => negb (path_required p)
  | Some v => has_type v (path_type p) && (negb (path_required p) || required_ok v)
  end.

Definition known_field (schema : list schema_path) (k : string) : bool :=
  String.eqb k "_id" || existsb (fun p => String.eqb (path_name p) k) schema.

Definition conforms (schema : list schema_path) (doc : list (string * bson)) : bool :=
  match field "_id" doc with Some (BObjectId _) => true | _ => false end &&
  forallb (path_ok doc) schema && forallb (fun kv => known_field schema kv.1) doc.

Definition expense_typed (e : expense) : bool := conforms expenseSchema (expense_doc e).
Definition user_typed (u : user) : bool := conforms userSchema (user_doc u).

Definition app_typed (s : app_state) : Prop :=
  Forall (fun e => expense_typed e = true) (docs (expenses s)) /\
  Forall (fun u => user_typed u = true) (users (userdb s)).

(** A raw document for [insertMany] or [create]: its [date], when it
    is a [Date], holds a valid time (a [Date] object always does). *)
Definition raw_date_ok (r : raw_expense) : Prop :=
  forall t, r_date r = Some (Some t) -> (Z.abs t <= max_time)%Z.

(** ** Lemmas *)

Section SchemaLemmas.
Context `{dp : DateParse} `{oc : ObjectIdCast} `{bc : Bcrypt} `{jw : JwtSign}
        `{uf : UndefinedFilter} `{av : AuthVerify}.

Lemma expense_typed_iff e :
  expense_typed e = true <-> category e <> "" /\ (Z.abs (date e) <= max_time)%Z.
Proof.
  unfold expense_typed, conforms, expense_doc.
  destruct (description e), (sender e), (senderReceiver e), (upiTransactionId e), (rawMessage e);
    cbn; rewrite ?andb_true_r, andb_true_iff, negb_true_iff, String.eqb_neq, Z.leb_le; tauto.
Qed.

Lemma user_typed_iff u :
  user_typed u = true <-> name u <> "" /\ email u <> "" /\ passwordHash u <> "".
Proof.
  unfold user_typed, conforms, user_doc. cbn.
  rewrite ?andb_true_r, !andb_true_iff, !negb_true_iff, !String.eqb_neq. tauto.
Qed.

Lemma required_string_ne v s : required_string v = Ok s -> s <> "".
Proof.
  unfold required_string. destruct v as [s'|]; [|discriminate].
  destruct (String.eqb_spec s' "") as [_|Hne]; [discriminate|]. by intros [= <-].
Qed.

Lemma cast_expense_typed i r e : raw_date_ok r -> cast_expense i r = Ok e -> expense_typed e = true.
Proof.
  intros Hd H. pose proof (cast_expense_fields _ _ _ H) as (_ & _ & Hdate).
  apply expense_typed_iff. split; [|by apply Hd].
  unfold cast_expense in H. repeat res_inv H. injection H as <-. simpl.
  by eapply required_string_ne.
Qed.

Lemma cast_batch_typed n rs es :
  Forall raw_date_ok rs -> cast_batch n rs = Ok es -> Forall (fun e => expense_typed e = true) es.
Proof.
  revert n es; induction rs as [|r rs IH]; simpl; intros n es Hd H.
  - by injection H as <-.
  - apply Forall_cons in Hd as [Hr Hd]. res_inv H. res_inv H. injection H as <-.
    constructor; [by eapply cast_expense_typed|by eapply IH].
Qed.

Lemma insert_many_typed d rs :
  Forall (fun e => expense_typed e = true) (docs d) -> Forall raw_date_ok rs ->
  Forall (fun e => expense_typed e = true) (docs (insert_many d rs).1).
Proof.
  unfold insert_many. intros Hd Hr. destruct (cast_batch _ rs) as [es|err] eqn:Hc; [|done].
  pose proof (cast_batch_typed _ _ _ Hr Hc) as Hes.
  destruct (insert_ordered _ es) as [d' r] eqn:Hi. simpl.
  apply insert_ordered_spec in Hi as [_ (k & -> & _)]. simpl.
  apply Forall_app. split; [done|]. by apply Forall_take.
Qed.

Lemma build_doc_date_ok uid t : raw_date_ok (build_doc uid t).
Proof. intros t' [= Ht]. apply date_getTime_range in Ht. lia. Qed.

Lemma syncExpenses_typed d uid body :
  Forall (fun e => expense_typed e = true) (docs d) ->
  Forall (fun e => expense_typed e = true) (docs (syncExpenses d uid body).1).
Proof.
  intros Hd. rewrite syncExpenses_state.
  destruct (sync_try_state d uid body) as [-> | [txns ->]]; [done|].
  apply insert_many_typed; [done|]. apply Forall_forall. intros r Hr%list_elem_of_In.
  apply in_map_iff in Hr as (t & <- & _). apply build_doc_date_ok.
Qed.

Lemma create_one_typed d r d' e : raw_date_ok r -> create_one d r = Ok (d', e) -> expense_typed e = true.
Proof.
  unfold create_one. intros Hd H. repeat res_inv H. injection H as <- <-.
  by eapply cast_expense_typed.
Qed.

Lemma create_doc_date_ok uid body : raw_date_ok (create_doc uid body).
Proof. intros t [=]. Qed.

Lemma createExpense_typed d uid body :
  Forall (fun e => expense_typed e = true) (docs d) ->
  Forall (fun e => expense_typed e = true) (docs (createExpense d uid body).1).
Proof.
  unfold createExpense. intros Hd. destruct (create_one _ _) as [[d' e]|] eqn:Hc; [|done].
  pose proof (create_one_typed _ _ _ _ (create_doc_date_ok uid body) Hc).
  apply create_one_Ok in Hc as (-> & _). simpl. apply Forall_app. auto.
Qed.

Lemma filter_typed p l :
  Forall (fun e => expense_typed e = true) l ->
  Forall (fun e => expense_typed e = true) (List.filter p l).
Proof.
  intros H. apply Forall_forall. intros x Hx%list_elem_of_In. apply filter_In in Hx as [Hx _].
  by apply (proj1 (Forall_forall _ _) H), list_elem_of_In.
Qed.

Lemma deleteExpense_typed d uid id :
  Forall (fun e => expense_typed e = true) (docs d) ->
  Forall (fun e => expense_typed e = true) (docs (deleteExpense d uid id).1).
Proof.
  unfold deleteExpense, delete_owned. intros Hd.
  repeat case_match; simplify_eq/=; try done; by apply filter_typed.
Qed.

Lemma cast_date_value_range v t : cast_date_value v = Ok (Some t) -> (Z.abs t <= max_time)%Z.
Proof.
  assert (Hclip : forall o, o ≫= time_clip = Some t -> (Z.abs t <= max_time)%Z).
  { intros [x|] Hx; [|discriminate]. by apply time_clip_Some in Hx as [-> ?]. }
  unfold cast_date_value. intros H. repeat case_match; simplify_eq/=;
  repeat match goal with
  | H : time_clip _ = Some _ |- _ => apply time_clip_Some in H as [-> ?]
  | H : _ ≫= time_clip = Some _ |- _ => apply Hclip in H
  | H : date_getTime _ = Some _ |- _ => apply date_getTime_range in H
  end; lia.
Qed.

(** The update validators keep a document typed. *)
Lemma apply_update_typed fs u e :
  cast_update fs = Ok u -> expense_typed e = true -> expense_typed (apply_update u e) = true.
Proof.
  rewrite !expense_typed_iff. intros Hu [Hc Hd].
  apply cast_update_Ok in Hu as (_ & Hcat & _ & Hdt). simpl. split.
  - destruct (u_category u) as [c|] eqn:E; simpl; [|done].
    apply cast_path_Ok in Hcat as [[_ [=]] | (v & x & _ & Hx & [= ->])].
    res_inv Hx. by eapply required_string_ne.
  - destruct (u_date u) as [t|] eqn:E; simpl; [|done].
    apply cast_path_Ok in Hdt as [[_ [=]] | (v & x & _ & Hx & [= ->])].
    res_inv Hx. destruct a; [|discriminate]. injection Hx as ->.
    by eapply cast_date_value_range.
Qed.

Lemma replace_doc_typed l e' :
  Forall (fun e => expense_typed e = true) l -> expense_typed e' = true ->
  Forall (fun e => expense_typed e = true) (replace_doc l e').
Proof.
  intros Hl He. induction Hl as [|x l Hx Hl IH]; simpl; constructor; [|done].
  by case_match.
Qed.

Lemma updateExpense_typed d uid id body d' r :
  Forall (fun e => expense_typed e = true) (docs d) ->
  updateExpense d uid id body = Some (d', r) ->
  Forall (fun e => expense_typed e = true) (docs d').
Proof.
  intros Hd [[-> _]|(n & fs & u & e & _ & _ & Hu & Hf & _ & _ & -> & _)]%updateExpense_cases;
    [done|].
  apply find_owned_Some in Hf as [Hin _]. simpl. apply replace_doc_typed; [done|].
  apply (apply_update_typed fs); [done|]. by apply (proj1 (Forall_forall _ _) Hd), list_elem_of_In.
Qed.

Lemma cast_user_typed i nm em ph u : cast_user i nm em ph = Ok u -> user_typed u = true.
Proof.
  unfold cast_user. intros H. repeat res_inv H. injection H as <-.
  apply user_typed_iff. simpl. split; [|split]; by eapply required_string_ne.
Qed.

Lemma createUser_typed d body :
  Forall (fun u => user_typed u = true) (users d) ->
  Forall (fun u => user_typed u = true) (users (createUser d body).1).
Proof.
  unfold createUser. intros Hd. destruct (res_bind _ _) as [[d1 u]|err] eqn:Hr; [|done].
  repeat res_inv Hr. injection Hr as <- <-.
  apply insert_user_Ok in H3 as [-> _]. simpl. apply Forall_app. split; [done|].
  apply Forall_singleton. by eapply cast_user_typed.
Qed.

Lemma expense_handler_typed s h uid ps body s' r :
  Forall (fun e => expense_typed e = true) (docs (expenses s)) ->
  expense_handler s h uid ps body = Some (s', r) ->
  Forall (fun e => expense_typed e = true) (docs (expenses s')) /\ userdb s' = userdb s.
Proof.
  intros Hd. destruct h; simpl; try discriminate.
  - pose proof (createExpense_typed _ uid body Hd).
    destruct (createExpense _ _ _); intros [= <- _]; auto.
  - intros [= <- _]; auto.
  - intros [= <- _]; auto.
  - intros [= <- _]; auto.
  - destruct (updateExpense _ _ _ _) as [[d' r']|] eqn:Hu; intros [= <- _].
    split; [|done]. by apply (updateExpense_typed _ _ _ _ _ _ Hd Hu).
  - pose proof (deleteExpense_typed _ uid (id_of ps) Hd).
    destruct (deleteExpense _ _ _); intros [= <- _]; auto.
  - pose proof (syncExpenses_typed _ uid body Hd).
    destruct (syncExpenses _ _ _); intros [= <- _]; auto.
Qed.

Lemma serve_typed env s rq s' r : app_typed s -> serve env s rq = Some (s', r) -> app_typed s'.
Proof.
  unfold app_typed, serve. intros [Hd Hu].
  destruct (dispatch _ _) as [|h [] ps|]; try (intros [= <- _]; by split).
  - destruct (auth_user _) as [uid|]; [|intros [= <- _]; by split].
    intros (Hd' & ->)%expense_handler_typed; [|done]. by split.
  - destruct h; simpl; try discriminate.
    + pose proof (createUser_typed (userdb s) (rq_body rq) Hu).
      destruct (createUser _ _); intros [= <- _]; auto.
    + destruct (loginUser _ _ _); intros [= <- _]; auto.
Qed.

End SchemaLemmas.

(** ** Properties *)

Section SchemaProperties.
Context `{dp : DateParse} `{oc : ObjectIdCast} `{bc : Bcrypt} `{jw : JwtSign}
        `{uf : UndefinedFilter} `{av : AuthVerify}.

(** C32. Typing: every state the server can reach from the empty
    database, by any sequence of requests, stores only documents that
    conform to their schema: every Expense has a non-empty [category] and
    a valid [date], every User a non-empty [name], [email] and
    [passwordHash], and no document has a path outside its schema. *)
Theorem reachable_typed env s : reachable env s -> app_typed s.
Proof.
  induction 1 as [|s rq s' r _ IH Hs]; [split; constructor|by eapply serve_typed].
Qed.

End SchemaProperties.

(** ** Examples *)

Module SchemaExamples.

#[local] Existing Instance date_parse_none.
#[local] Existing Instance oid_decimal.
#[local] Existing Instance bcrypt_plain.
#[local] Existing Instance jwt_show.
#[local] Existing Instance undefined_as_null.
#[local] Existing Instance auth_decimal.

(** Bob signs up; his document conforms to [userSchema]. *)
Local Abbreviation rq_signup := (mkRequest POST ["api"; "v1"; "users"] None
  (JObj [("name", JStr "Bob"); ("email", JStr "bob@example.com"); ("passwordHash", JStr "h")])).
Local Abbreviation s1 := (mkState (mkDb [] 0) (mkUdb [mkUser 0 "Bob" "bob@example.com" "h"] 1)).

Lemma reachable_typed_witness : app_typed s1.
Proof.
  apply (reachable_typed None).
  apply (reach_step None init_state rq_signup s1
           (Resp 201 (ApiUser (UserCreated (mkUser 0 "Bob" "bob@example.com" "h")))));
    [apply reach_init|reflexivity].
Defined.

(** A document with an empty [category] does not conform. *)
Example empty_category_rejected :
  expense_typed (mkExpense 0 0 "" 50 None 0 None None None None) = false.
Proof. reflexivity. Qed.

End SchemaExamples.
