(* ===== verification/Startup.v ===== *)
(** * Process start-up and the request loop (server.ts, loaders/mongoose.ts, utils/logger.ts)

    The process is an interaction tree.  Its start-up [startServer]
    (server.ts lines 8-18, with [connectDB] of loaders/mongoose.ts lines
    3-16 and the [logger] of utils/logger.ts lines 3-12) is an
    [itree startE unit]: its events are the MongoDB connection, the
    binding of the HTTP port, console output and [process.exit].  Once
    it has returned, the HTTP server answers requests forever:
    [serve_loop] (an [itree httpE void], by [ITree.iter] over the
    database state) receives a request, answers it with [App.serve] and
    waits for the next one.  [server] is the whole process, server.ts
    line 20: [startServer()] and then the request loop.

    [process.env] (after [dotenv/config] has read [.env]) is a
    [gmap string string].  [Number(s)] is the class [StringToNumber]:
    only whether the number is NaN, integral (and which integer) or
    neither matters here.  [app.listen] checks the port the way Node's
    [server.listen] does: an integer from 0 to 65535, otherwise a
    [RangeError] thrown synchronously, inside [startServer]'s [try].
    A failed bind is reported later by an ['error'] event that has no
    listener, which ends the process with exit code 1.

    [run_start] gives the start-up events their meaning in a [world]
    (what the database and the operating system answer), as a tree of
    observable outputs [obsE]: the connection attempt, the bind, the
    console lines, and the exit code. *)

From S2P Require Import Prelude Json Store Sync Update Users Routing App.
From ITree Require Import ITree ITreeFacts.

Local Notation "x <-- t ;; k" := (ITree.bind t (fun x => k))
  (at level 100, t at next level, right associativity).

(** ** [process.env] and [Number] *)

(** [process.env], after [dotenv/config] has loaded the [.env] file. *)
Abbreviation process_env := (gmap string string).

(** A JavaScript number as the start-up code looks at it. *)
Inductive jsnumber : Type :=
  | NumNaN
  | NumInt (z : Z)          (** an integral value *)
  | NumOther.               (** a fraction, or an infinity *)

(** [Number(s)] on a string (ECMAScript's StringToNumber). *)
Class StringToNumber := string_to_number : string -> jsnumber.

(** An instance for examples: decimal integers, and [""] is 0. *)
Definition number_decimal : StringToNumber := fun s =>
  match parse_Z s with
  | Some z => NumInt z
  | None => if String.eqb s "" then NumInt 0 else NumNaN
  end.

(** [v || d] on a value of [process.env]: unset and [""] are falsy. *)
Definition env_or (v : option string) (d : string) : string :=
  match v with
  | Some s => if String.eqb s "" then d else s
  | None => d
  end.

(** [Number(process.env.PORT) || 8080] (server.ts line 6):
    [Number(undefined)] is NaN, and NaN and 0 are falsy. *)
Definition PORT `{StringToNumber} (penv : process_env) : jsnumber :=
  match penv !! "PORT" with
  | None => NumInt 8080
  | Some s =>
      match string_to_number s with
      | NumNaN | NumInt Z0 => NumInt 8080
      | n => n
      end
  end.

(** Node's [validatePort] in [server.listen]: the port to bind, or
    [None] when [listen] throws [ERR_SOCKET_BAD_PORT]. *)
Definition valid_port (n : jsnumber) : option Z :=
  match n with
  | NumInt p => if (0 <=? p)%Z && (p <=? 65535)%Z then Some p else None
  | _ => None
  end.

(** ** Events *)

(** [console.log] writes to standard output, [console.warn] and
    [console.error] to standard error. *)
Inductive channel : Type := Stdout | Stderr.

(** The errors of start-up. *)
Inductive proc_error : Type :=
  | ConnectError (msg : string)     (** [mongoose.connect] rejects *)
  | BadPort (n : jsnumber)          (** [ERR_SOCKET_BAD_PORT] *)
  | ListenError (msg : string).     (** the server's ['error'] event *)

(** The arguments of a console call: text, or an error value printed by
    [util.inspect] ([None] is [undefined]). *)
Inductive log_arg : Type :=
  | LogText (s : string)
  | LogValue (e : option proc_error).

(** [LogData | string], the argument of [logger.error]. *)
Inductive log_data : Type :=
  | LogString (s : string)
  | LogRecord (msg : string) (err : option proc_error).

Variant startE : Type -> Type :=
  | Connect (uri dbName : string) : startE (option proc_error)
      (** [mongoose.connect(uri, { dbName })]: resolves ([None]) or rejects *)
  | Listen (port : Z) : startE (option proc_error)
      (** binding the port: ['listening'] ([None]) or ['error'] *)
  | Console (ch : channel) (args : list log_arg) : startE unit
  | Exit (code : Z) : startE void.

Variant httpE : Type -> Type :=
  | Recv : httpE request
  | Send (r : response api_body) : httpE unit
  | Unmodelled (rq : request) : httpE void.
      (** a request outside the model ([serve] answers [None]) *)

(** ** utils/logger.ts *)

Definition console (ch : channel) (args : list log_arg) : itree startE unit :=
  ITree.trigger (Console ch args).

Definition exit {A} (code : Z) : itree startE A :=
  ITree.bind (ITree.trigger (Exit code)) (fun v : void => match v with end).

Definition logger_info (msg : string) : itree startE unit :=
  console Stdout [LogText ("ℹ️  " +:+ msg)].

Definition logger_warn (msg : string) : itree startE unit :=
  console Stderr [LogText ("⚠️  " +:+ msg)].

Definition logger_error (data : log_data) : itree startE unit :=
  match data with
  | LogString s => console Stderr [LogText ("❌ " +:+ s)]
  | LogRecord msg err => console Stderr [LogText ("❌ " +:+ msg); LogValue err]
  end.

(** ** loaders/mongoose.ts *)

Definition mongo_uri (penv : process_env) : string :=
  env_or (penv !! "MONGO_URI") "mongodb://127.0.0.1:27017".

Definition mongo_db_name (penv : process_env) : string :=
  env_or (penv !! "MONGO_DB_NAME") "expense_manager".

Definition connectDB (penv : process_env) : itree startE unit :=
  r <-- ITree.trigger (Connect (mongo_uri penv) (mongo_db_name penv)) ;;
  match r with
  | None => console Stdout [LogText "✅ MongoDB connected"]
  | Some e =>
      _ <-- console Stderr [LogText "❌ MongoDB connection failed:"; LogValue (Some e)] ;;
      exit 1
  end.

(** ** server.ts *)

(** [app.listen(port, callback)]: the synchronous port check (a thrown
    error is [Err]), then the bind; [callback] runs on ['listening'], and
    an ['error'] event without a listener ends the process with code 1. *)
Definition app_listen (port : jsnumber) (callback : Z -> itree startE unit)
    : itree startE (res proc_error unit) :=
  match valid_port port with
  | None => Ret (Err (BadPort port))
  | Some p =>
      r <-- ITree.trigger (Listen p) ;;
      match r with
      | None => _ <-- callback p ;; Ret (Ok tt)
      | Some _ => exit 1
      end
  end.

Definition listening_message (p : Z) : string :=
  "API listening on http://0.0.0.0:" +:+ string_of_Z p.

Definition startServer `{StringToNumber} (penv : process_env) : itree startE unit :=
  _ <-- connectDB penv ;;
  r <-- app_listen (PORT penv) (fun p => logger_info (listening_message p)) ;;
  match r with
  | Ok _ => Ret tt
  | Err e => _ <-- logger_error (LogRecord "Server failed to start" (Some e)) ;; exit 1
  end.

Section Loop.
Context `{dp : DateParse} `{oc : ObjectIdCast} `{bc : Bcrypt} `{jw : JwtSign}
        `{uf : UndefinedFilter} `{av : AuthVerify}.

(** One request: received, served by [App.serve] on the database
    state, answered. *)
Definition serve_once (jwt : option string) (s : app_state) : itree httpE (app_state + void) :=
  rq <-- ITree.trigger Recv ;;
  match serve jwt s rq with
  | Some (s', r) => _ <-- ITree.trigger (Send r) ;; Ret (inl s')
  | None => ITree.bind (ITree.trigger (Unmodelled rq)) (fun v : void => match v with end)
  end.

Definition serve_loop (jwt : option string) : app_state -> itree httpE void :=
  ITree.iter (serve_once jwt).

(** The process: server.ts line 20, then the HTTP server on the
    database state [s0] it finds. *)
Definition server `{StringToNumber} (penv : process_env) (s0 : app_state)
    : itree (startE +' httpE) void :=
  _ <-- translate (fun _ e => inl1 e) (startServer penv) ;;
  translate (fun _ e => inr1 e) (serve_loop (penv !! "JWT_SECRET") s0).

End Loop.

(** ** What the outside world answers *)

Inductive output : Type :=
  | OConnect (uri dbName : string)
  | OListen (port : Z)
  | OConsole (ch : channel) (args : list log_arg).

Variant obsE : Type -> Type :=
  | Out (o : output) : obsE unit
  | Halt (code : Z) : obsE void.

Record world : Type := mkWorld {
  w_connect : string -> string -> option proc_error;
  w_bind : Z -> option proc_error
}.

Definition run_start (w : world) : startE ~> itree obsE :=
  fun _ e =>
    match e in startE T return itree obsE T with
    | Connect u d => _ <-- ITree.trigger (Out (OConnect u d)) ;; Ret (w_connect w u d)
    | Listen p => _ <-- ITree.trigger (Out (OListen p)) ;; Ret (w_bind w p)
    | Console ch a => ITree.trigger (Out (OConsole ch a))
    | Exit c => ITree.trigger (Halt c)
    end.

(** The whole process in a [world]: start-up events are answered by
    [run_start], requests and answers stay visible. *)
Definition run_server (w : world) : startE +' httpE ~> itree (obsE +' httpE) :=
  fun _ e =>
    match e with
    | inl1 e' => translate (fun _ o => inl1 o) (run_start w _ e')
    | inr1 e' => ITree.trigger (inr1 e')
    end.

(** ** The specification of start-up *)

(** [t] printed as a sequence of outputs, then the end of start-up. *)
Fixpoint emit (os : list output) : itree obsE unit :=
  match os with
  | [] => Ret tt
  | o :: os' => _ <-- ITree.trigger (Out o) ;; emit os'
  end.

Definition halt {A} (code : Z) : itree obsE A :=
  ITree.bind (ITree.trigger (Halt code)) (fun v : void => match v with end).

(** Start-up ends with the server running, or with [process.exit]. *)
Inductive start_end : Type := Started | Exited (code : Z).

Definition finish (e : start_end) : itree obsE unit :=
  match e with Started => Ret tt | Exited c => halt c end.

Definition play (r : list output * start_end) : itree obsE unit :=
  _ <-- emit r.1 ;; finish r.2.

(** What start-up does, as a table of its outcomes: the outputs in order
    and how it ends. *)
Definition start_spec `{StringToNumber} (w : world) (penv : process_env)
    : list output * start_end :=
  let conn := OConnect (mongo_uri penv) (mongo_db_name penv) in
  match w_connect w (mongo_uri penv) (mongo_db_name penv) with
  | Some e =>
      ([conn; OConsole Stderr [LogText "❌ MongoDB connection failed:"; LogValue (Some e)]], Exited 1)
  | None =>
      let connected := [conn; OConsole Stdout [LogText "✅ MongoDB connected"]] in
      match valid_port (PORT penv) with
      | None =>
          (connected ++ [OConsole Stderr [LogText "❌ Server failed to start";
                                          LogValue (Some (BadPort (PORT penv)))]], Exited 1)
      | Some p =>
          match w_bind w p with
          | None => (connected ++ [OListen p; OConsole Stdout [LogText ("ℹ️  " +:+ listening_message p)]],
                     Started)
          | Some _ => (connected ++ [OListen p], Exited 1)
          end
      end
  end.

(** ** Lemmas on the start-up events *)

Ltac out_step :=
  rewrite ?bind_bind; symmetry; rewrite ?bind_bind; symmetry; apply eutt_clo_bind with (UU := eq); [reflexivity|intros [] [] _].

Section StartLemmas.
Context (w : world).

Lemma halt_bind {A B} c (k : A -> itree obsE B) : ITree.bind (halt c) k ≅ halt c.
Proof. unfold halt. rewrite bind_bind. apply eqit_bind; [reflexivity|intros []]. Qed.

Lemma emit_app os1 os2 : emit (os1 ++ os2) ≅ ITree.bind (emit os1) (fun _ => emit os2).
Proof.
  induction os1 as [|o os1 IH]; simpl.
  - by rewrite bind_ret_l.
  - rewrite bind_bind. apply eqit_bind; [reflexivity|intros []]. apply IH.
Qed.

Lemma bind_ret_unit {E} (t : itree E unit) : ITree.bind t (fun _ => Ret tt) ≅ t.
Proof.
  rewrite <- (bind_ret_r t) at 2. apply eqit_bind; [reflexivity|by intros []].
Qed.

Lemma interp_console ch a : interp (run_start w) (console ch a) ≈ emit [OConsole ch a].
Proof. unfold console. rewrite interp_trigger. simpl. by rewrite bind_ret_unit. Qed.

Lemma interp_exit {A} c : interp (run_start w) (exit (A:=A) c) ≈ halt c.
Proof.
  unfold exit, halt. rewrite interp_bind, interp_trigger. simpl.
  apply eutt_clo_bind with (UU := eq); [reflexivity|intros []].
Qed.

Lemma interp_connectDB penv :
  interp (run_start w) (connectDB penv) ≈
  let conn := OConnect (mongo_uri penv) (mongo_db_name penv) in
  match w_connect w (mongo_uri penv) (mongo_db_name penv) with
  | None => emit [conn; OConsole Stdout [LogText "✅ MongoDB connected"]]
  | Some e => _ <-- emit [conn; OConsole Stderr [LogText "❌ MongoDB connection failed:"; LogValue (Some e)]] ;;
              halt 1
  end.
Proof.
  unfold connectDB. rewrite interp_bind, interp_trigger. simpl.
  destruct (w_connect w _ _) as [e|]; simpl; out_step; rewrite bind_ret_l.
  - rewrite interp_bind, interp_console. setoid_rewrite interp_exit. reflexivity.
  - by rewrite interp_console.
Qed.

Lemma interp_app_listen port cb :
  interp (run_start w) (app_listen port cb) ≈
  match valid_port port with
  | None => Ret (Err (BadPort port))
  | Some p =>
      _ <-- emit [OListen p] ;;
      match w_bind w p with
      | None => _ <-- interp (run_start w) (cb p) ;; Ret (Ok tt)
      | Some _ => halt 1
      end
  end.
Proof.
  unfold app_listen. destruct (valid_port port) as [p|]; simpl; [|by rewrite interp_ret].
  rewrite interp_bind, interp_trigger. simpl. out_step. rewrite !bind_ret_l.
  destruct (w_bind w p); simpl; [by rewrite interp_exit|].
  rewrite interp_bind. by setoid_rewrite interp_ret.
Qed.

End StartLemmas.

Section StartSpec.
Context `{sn : StringToNumber} (w : world).

Lemma interp_startServer penv : interp (run_start w) (startServer penv) ≈ play (start_spec w penv).
Proof.
  unfold startServer, start_spec, play. rewrite interp_bind, interp_connectDB. simpl.
  destruct (w_connect w _ _) as [e|]; simpl.
  - rewrite bind_bind. by setoid_rewrite halt_bind.
  - setoid_rewrite interp_bind. setoid_rewrite interp_app_listen.
    destruct (valid_port (PORT penv)) as [p|]; [destruct (w_bind w p)|]; simpl;
      do 2 out_step; rewrite !bind_ret_l.
    + out_step. rewrite !bind_ret_l. by rewrite halt_bind.
    + out_step. rewrite !bind_ret_l, bind_bind. unfold logger_info. rewrite interp_console. simpl.
      out_step. rewrite !bind_ret_l. simpl. by rewrite interp_ret.
    + simpl. rewrite interp_bind, interp_console. simpl. out_step.
      rewrite !bind_ret_l. by rewrite interp_exit.
Qed.

Lemma start_spec_cases penv :
  let r := start_spec w penv in
  length r.1 <= 4 /\ (r.2 = Started \/ r.2 = Exited 1) /\
  (r.2 = Started <-> exists p, w_connect w (mongo_uri penv) (mongo_db_name penv) = None /\
                               valid_port (PORT penv) = Some p /\ w_bind w p = None).
Proof.
  unfold start_spec. destruct (w_connect _ _ _) eqn:Hc;
    [|destruct (valid_port _) as [p|] eqn:Hp; [destruct (w_bind w p) eqn:Hb|]];
    simpl; (split; [lia|]); naive_solver.
Qed.

Lemma interp_translate_trigger {E F G R} (f : F ~> G) (h : E ~> itree F) (t : itree E R) :
  interp (fun _ e => translate f (h _ e)) t ≈ translate f (interp h t).
Proof.
  rewrite (translate_to_interp f (interp h t)), interp_interp.
  apply eutt_interp; [|reflexivity]. intros T e. apply translate_to_interp.
Qed.

End StartSpec.

Section ServerSpec.
Context `{dp : DateParse} `{oc : ObjectIdCast} `{bc : Bcrypt} `{jw : JwtSign}
        `{uf : UndefinedFilter} `{av : AuthVerify} `{sn : StringToNumber} (w : world).

Lemma interp_server penv s0 :
  interp (run_server w) (server penv s0) ≈
  (_ <-- translate (fun _ o => inl1 o) (play (start_spec w penv)) ;;
   translate (fun _ e => inr1 e) (serve_loop (penv !! "JWT_SECRET") s0)).
Proof.
  unfold server. rewrite interp_bind. apply eutt_clo_bind with (UU := eq).
  - rewrite interp_translate. cbn. rewrite interp_translate_trigger.
    by rewrite interp_startServer.
  - intros [] [] _. rewrite interp_translate, translate_to_interp. reflexivity.
Qed.

End ServerSpec.

(** ** Properties *)

Section StartProperties.
Context `{sn : StringToNumber} (w : world).

(** C37. Start-up implements its table of outcomes: in every world (any
    answer of MongoDB to the connection, any outcome of the bind) and
    every environment, the outputs of [startServer] and the way it ends
    are those of [start_spec]. *)
Theorem startServer_refines penv : interp (run_start w) (startServer penv) ≈ play (start_spec w penv).
Proof. apply interp_startServer. Qed.

(** C38. Start-up always terminates: after at most four outputs it has
    either started the server or exited with code 1, whatever the
    database and the operating system answer; and it has started
    exactly when the connection succeeded, the port is valid and the
    bind succeeded (every failure ends the process with code 1). *)
Theorem start_terminates penv :
  exists os e, interp (run_start w) (startServer penv) ≈ play (os, e) /\
    length os <= 4 /\ (e = Started \/ e = Exited 1) /\
    (e = Started <-> exists p, w_connect w (mongo_uri penv) (mongo_db_name penv) = None /\
                               valid_port (PORT penv) = Some p /\ w_bind w p = None).
Proof.
  exists (start_spec w penv).1, (start_spec w penv).2. rewrite interp_startServer.
  destruct (start_spec w penv) eqn:Hs. split; [reflexivity|]. pose proof (start_spec_cases w penv) as H.
  by rewrite Hs in H.
Qed.

(** C39. When MongoDB refuses the connection, [connectDB] logs the error
    and exits with code 1 itself: the port is never bound and
    [startServer]'s own handler ("Server failed to start") never runs. *)
Theorem connect_failure_exits penv e :
  w_connect w (mongo_uri penv) (mongo_db_name penv) = Some e ->
  interp (run_start w) (startServer penv) ≈
  play ([OConnect (mongo_uri penv) (mongo_db_name penv);
         OConsole Stderr [LogText "❌ MongoDB connection failed:"; LogValue (Some e)]], Exited 1).
Proof. intros He. rewrite interp_startServer. unfold start_spec. by rewrite He. Qed.

(** C40. The port the server binds is always from 1 to 65535: it is
    [Number(process.env.PORT)] when that is such an integer, and 8080
    when [PORT] is unset, NaN or 0; any other value makes [app.listen]
    throw and start-up fail. *)
Theorem listen_port_iff penv p :
  valid_port (PORT penv) = Some p <->
  (1 <= p <= 65535)%Z /\
  match penv !! "PORT" with
  | None => p = 8080%Z
  | Some s => string_to_number s = NumInt p \/
              (p = 8080%Z /\ (string_to_number s = NumNaN \/ string_to_number s = NumInt 0))
  end.
Proof.
  unfold PORT, valid_port. destruct (penv !! "PORT") as [s|]; [|split; [intros [= <-]; lia|intros [_ ->]; done]].
  destruct (string_to_number s) as [|[|q|q]|] eqn:Hn; simpl;
    (split; [intros Hp|intros [Hb [H|[-> [H|H]]]]]); simplify_eq; try done;
    repeat case_match; simplify_eq; rewrite ?andb_true_iff, ?andb_false_iff, ?Z.leb_le, ?Z.leb_gt in *;
    intuition lia.
Qed.

End StartProperties.

Section ServerProperties.
Context `{dp : DateParse} `{oc : ObjectIdCast} `{bc : Bcrypt} `{jw : JwtSign}
        `{uf : UndefinedFilter} `{av : AuthVerify} `{sn : StringToNumber} (w : world).

(** The process (server.ts line 20) is start-up followed by the
    request loop: its observable behaviour in any world is the outputs
    of [start_spec], then, when start-up has not exited, [serve_loop]
    from the database state it found, with [process.env.JWT_SECRET] as
    the signing secret of every log-in. *)
Theorem server_runs penv s0 :
  interp (run_server w) (server penv s0) ≈
  (_ <-- translate (fun _ o => inl1 o) (play (start_spec w penv)) ;;
   translate (fun _ e => inr1 e) (serve_loop (penv !! "JWT_SECRET") s0)).
Proof. apply interp_server. Qed.

End ServerProperties.

(** ** Examples *)

Module StartupExamples.

#[local] Existing Instance number_decimal.

(** MongoDB refuses every connection; binding always succeeds. *)
Local Abbreviation refused := (mkWorld (fun _ _ => Some (ConnectError "ECONNREFUSED")) (fun _ => None)).

Lemma connect_failure_exits_witness :
  w_connect refused (mongo_uri ∅) (mongo_db_name ∅) = Some (ConnectError "ECONNREFUSED") /\
  interp (run_start refused) (startServer ∅) ≈
  play ([OConnect (mongo_uri ∅) (mongo_db_name ∅);
         OConsole Stderr [LogText "❌ MongoDB connection failed:"; LogValue (Some (ConnectError "ECONNREFUSED"))]],
        Exited 1).
Proof.
  split; [reflexivity|]. apply (connect_failure_exits refused ∅ (ConnectError "ECONNREFUSED")). reflexivity.
Defined.

(** [PORT=70000]: the connection succeeds, [app.listen] throws, and
    start-up reports it and exits. *)
Lemma bad_port_example :
  interp (run_start (mkWorld (fun _ _ => None) (fun _ => None))) (startServer {["PORT" := "70000"]}) ≈
  play ([OConnect "mongodb://127.0.0.1:27017" "expense_manager";
         OConsole Stdout [LogText "✅ MongoDB connected"];
         OConsole Stderr [LogText "❌ Server failed to start"; LogValue (Some (BadPort (NumInt 70000)))]],
        Exited 1).
Proof. rewrite interp_startServer. reflexivity. Qed.

(** [PORT=3000], everything succeeds. *)
Lemma started_example :
  interp (run_start (mkWorld (fun _ _ => None) (fun _ => None))) (startServer {["PORT" := "3000"]}) ≈
  play ([OConnect "mongodb://127.0.0.1:27017" "expense_manager";
         OConsole Stdout [LogText "✅ MongoDB connected"]; OListen 3000;
         OConsole Stdout [LogText "ℹ️  API listening on http://0.0.0.0:3000"]], Started).
Proof. rewrite interp_startServer. reflexivity. Qed.

End StartupExamples.
