(* ===== verification/Server.v ===== *)
(** * The whole server under Node's interleaving (app.ts with every
      controller; specification, section 5)

    Node.js runs the handlers of concurrent requests interleaved at
    their [await]s.  [App.serve] runs one request from start to end; this
    file runs any number of requests of any kind at once.  Every handler
    but [syncExpenses] makes a single call that reads or writes a
    collection ([Expense.create], [find], [findOne], [aggregate],
    [findOneAndUpdate], [findOneAndDelete], [User.create]; [loginUser]'s
    second [await], [bcrypt.compare], touches no collection, and
    Mongoose's validation before a write reads none): it is one atomic
    step, [App.serve] itself.  [syncExpenses] takes the steps of
    [Concurrency]: its query, the validation of its batch, and one step
    per document of its [insertMany].

    A request in flight ([req_phase]) has arrived, is a sync past its
    first [await], has been answered, or is outside the model ([serve]
    answers [None]).  [req_step] is its next step on the two collections,
    [run_server] runs a schedule: the order in which the requests in
    flight take their steps.

    The theorems: the invariant of both collections, with the ObjectIds
    taken by pending documents, holds under every schedule; under every
    schedule an expense stays stored unless a request of its owner was
    in flight; and a write that takes the date of a sync's new
    transaction between its query and its [insertMany] makes the sync
    fail with 500, which no sequential order of an update and a sync
    produces ([update_during_sync_not_serial]). *)

From S2P Require Import Prelude Json Store Sync Concurrency Crud Update Users Routing App.

(** ** Requests in flight *)

Inductive req_phase : Type :=
  | Arrived (rq : request)          (** not started *)
  | Syncing (th : sync_phase)       (** a sync past its first [await] *)
  | Replied (r : response api_body)
  | Unserved (rq : request).        (** outside the model *)

Record sstate : Type := mkSState {
  sapp : app_state;
  inflight : list req_phase
}.

Section Server.
Context `{dp : DateParse} `{oc : ObjectIdCast} `{bc : Bcrypt} `{jw : JwtSign}
        `{uf : UndefinedFilter} `{av : AuthVerify}.
Variable env : option string.

(** The requests [serve] gives to [syncExpenses]: [POST /sync] with a
    token [authMiddleware] accepts. *)
Definition sync_request (rq : request) : option (nat * jsval) :=
  match dispatch (rq_method rq) (rq_path rq) with
  | Routed HSyncExpenses true _ => (fun uid => (uid, rq_body rq)) <$> auth_user (rq_token rq)
  | _ => None
  end.

(** The next step of a request.  A sync runs up to its query (routing,
    [authMiddleware] and the code before the first [await] are
    synchronous); any other request runs to its end. *)
Definition req_step (s : app_state) (p : req_phase) : app_state * req_phase :=
  match p with
  | Arrived rq =>
      match sync_request rq with
      | Some (uid, body) =>
          let '(d', th) := sync_step (expenses s) (Received uid body) in
          (mkState d' (userdb s), Syncing th)
      | None =>
          match serve env s rq with
          | Some (s', r) => (s', Replied r)
          | None => (s, Unserved rq)
          end
      end
  | Syncing th => let '(d', th') := sync_step (expenses s) th in (mkState d' (userdb s), Syncing th')
  | Replied _ | Unserved _ => (s, p)
  end.

(** Request [i] takes its next step. *)
Definition sstep_at (s : sstate) (i : nat) : sstate :=
  match inflight s !! i with
  | Some p => let '(a', p') := req_step (sapp s) p in mkSState a' (<[i := p']> (inflight s))
  | None => s
  end.

Definition run_server (s : sstate) (sched : list nat) : sstate := fold_left sstep_at sched s.

End Server.

(** The answer a request has received. *)
Definition answer (p : req_phase) : option (response api_body) :=
  match p with
  | Replied r => Some r
  | Syncing (Answered r) => Some (resp_map ApiSync r)
  | _ => None
  end.

Definition rpending (p : req_phase) : list expense :=
  match p with Syncing th => pending th | _ => [] end.

(** Both collections' invariants, with the ObjectIds taken by the
    documents the syncs in flight have validated and not written. *)
Definition sstate_wf (s : sstate) : Prop :=
  app_wf (sapp s) /\
  NoDup (map oid (docs (expenses (sapp s)) ++ flat_map rpending (inflight s))) /\
  Forall (fun e => oid e < next_oid (expenses (sapp s))) (flat_map rpending (inflight s)).

#[export] Instance sstate_wf_dec s : Decision (sstate_wf s).
Proof. unfold sstate_wf, app_wf. apply _. Defined.

(** The ids of [d'] are those of [d] or fresh ones, and the counter does
    not go back. *)
Definition oids_grow (d d' : db) : Prop :=
  next_oid d <= next_oid d' /\
  Forall (fun e => oid e ∈ map oid (docs d) \/ next_oid d <= oid e) (docs d').

(** ** Lemmas *)

Section ServerLemmas.
Context `{dp : DateParse} `{oc : ObjectIdCast} `{bc : Bcrypt} `{jw : JwtSign}
        `{uf : UndefinedFilter} `{av : AuthVerify}.

(** *** The ids of the handlers' writes *)

Lemma oids_grow_refl d : oids_grow d d.
Proof.
  split; [done|]. apply Forall_forall. intros e He. left. by apply list_elem_of_fmap_2.
Qed.

(** New documents with fresh ids after the old ones. *)
Lemma oids_grow_app d l n :
  next_oid d <= n -> Forall (fun e => next_oid d <= oid e) l ->
  oids_grow d (mkDb (docs d ++ l) n).
Proof.
  intros Hn Hl. split; [done|]. simpl. apply Forall_app. split.
  - apply (oids_grow_refl d).
  - eapply Forall_impl; [exact Hl|]. auto.
Qed.

Lemma createExpense_grow d uid body : oids_grow d (createExpense d uid body).1.
Proof.
  unfold createExpense. destruct (create_one _ _) as [[d' e]|] eqn:Hc; [|apply oids_grow_refl].
  apply create_one_Ok in Hc as (-> & Hi & _). apply oids_grow_app; [lia|]. constructor; [lia|done].
Qed.

Lemma deleteExpense_grow d uid id : oids_grow d (deleteExpense d uid id).1.
Proof.
  unfold deleteExpense, delete_owned.
  destruct id as [n|]; [|apply oids_grow_refl]. destruct (find_owned d n uid); [|apply oids_grow_refl].
  split; [done|]. apply Forall_forall. intros x Hx%list_elem_of_In. left.
  apply filter_In in Hx as [Hx _]. by apply list_elem_of_fmap_2, list_elem_of_In.
Qed.

Lemma updateExpense_grow d uid id body d' r :
  updateExpense d uid id body = Some (d', r) -> oids_grow d d'.
Proof.
  intros [[-> _]|(n & fs & u & e & _ & _ & _ & _ & _ & _ & -> & _)]%updateExpense_cases;
    [apply oids_grow_refl|].
  split; [done|]. apply Forall_forall. intros x Hx. left. simpl in Hx.
  rewrite <- (replace_doc_oids (docs d) (apply_update u e)). by apply list_elem_of_fmap_2.
Qed.

Lemma insert_many_grow d rs : oids_grow d (insert_many d rs).1.
Proof.
  unfold insert_many. destruct (cast_batch _ rs) as [es|err] eqn:Hc; [|apply oids_grow_refl].
  destruct (insert_ordered _ es) as [d' r] eqn:Hi. simpl.
  apply insert_ordered_spec in Hi as [Hn (k & Hd & _)]. destruct d' as [ds n]. simpl in *. subst.
  apply oids_grow_app; [lia|]. apply Forall_take, Forall_forall. intros e He.
  assert (Hs : oid e ∈ seq (next_oid d) (length rs)).
  { rewrite <- (cast_batch_oids _ _ _ Hc). by apply list_elem_of_fmap_2. }
  apply elem_of_seq in Hs. lia.
Qed.

Lemma syncExpenses_grow d uid body : oids_grow d (syncExpenses d uid body).1.
Proof.
  rewrite syncExpenses_state.
  destruct (sync_try_state d uid body) as [-> | [txns ->]]; [apply oids_grow_refl|apply insert_many_grow].
Qed.

Lemma serve_grow env s rq s' r : serve env s rq = Some (s', r) -> oids_grow (expenses s) (expenses s').
Proof.
  unfold serve. destruct (dispatch _ _) as [|h [] ps|]; try (intros [= <- _]; apply oids_grow_refl).
  - destruct (auth_user _) as [uid|]; [|intros [= <- _]; apply oids_grow_refl].
    destruct h; simpl; try discriminate.
    + pose proof (createExpense_grow (expenses s) uid (rq_body rq)).
      destruct (createExpense _ _ _); intros [= <- _]; done.
    + intros [= <- _]. apply oids_grow_refl.
    + intros [= <- _]. apply oids_grow_refl.
    + intros [= <- _]. apply oids_grow_refl.
    + destruct (updateExpense _ _ _ _) as [[d' r']|] eqn:Hu; intros [= <- _].
      by eapply updateExpense_grow.
    + pose proof (deleteExpense_grow (expenses s) uid (id_of ps)).
      destruct (deleteExpense _ _ _); intros [= <- _]; done.
    + pose proof (syncExpenses_grow (expenses s) uid (rq_body rq)).
      destruct (syncExpenses _ _ _); intros [= <- _]; done.
  - intros (-> & _)%open_handler_state. apply oids_grow_refl.
Qed.

(** A write whose ids are old or fresh keeps the pending ids apart. *)
Lemma grow_pending d d' P :
  db_wf d' -> oids_grow d d' ->
  NoDup (map oid (docs d ++ P)) -> Forall (fun e => oid e < next_oid d) P ->
  NoDup (map oid (docs d' ++ P)) /\ Forall (fun e => oid e < next_oid d') P.
Proof.
  intros (_ & Ho' & _) [Hn Hg] Hnd Hlt. rewrite map_app in Hnd |- *.
  apply NoDup_app in Hnd as (_ & Hdis & HP). split.
  - apply NoDup_app. split; [done|]. split; [|done].
    intros x (e & -> & He)%list_elem_of_fmap Hx.
    apply (proj1 (Forall_forall _ _) Hg) in He as [Hold|Hfresh]; [by apply (Hdis _ Hold)|].
    apply list_elem_of_fmap in Hx as (e' & Heq & He').
    apply (proj1 (Forall_forall _ _) Hlt) in He'. lia.
  - eapply Forall_impl; [exact Hlt|]. simpl; lia.
Qed.

(** *** The invariant *)

(** One step of a request keeps the invariant, [P] being the documents
    the other requests have pending. *)
Lemma req_step_wf env s p P :
  app_wf s -> NoDup (map oid (docs (expenses s) ++ P ++ rpending p)) ->
  Forall (fun e => oid e < next_oid (expenses s)) (P ++ rpending p) ->
  let '(s', p') := req_step env s p in
  app_wf s' /\ NoDup (map oid (docs (expenses s') ++ P ++ rpending p')) /\
  Forall (fun e => oid e < next_oid (expenses s')) (P ++ rpending p').
Proof.
  intros [Hd Hu] Hnd Hlt. destruct p as [rq|th|r|rq]; cbn [req_step rpending] in *; try done.
  - destruct (sync_request rq) as [[uid body]|].
    + pose proof (sync_step_wf (expenses s) (Received uid body) P Hd Hnd Hlt) as Hs.
      destruct (sync_step _ _) as [d' th]. destruct Hs as (? & ? & ?). done.
    + destruct (serve env s rq) as [[s' r]|] eqn:Hs; [|done]. cbn [rpending].
      pose proof (serve_wf _ _ _ _ _ (conj Hd Hu) Hs) as [Hd' Hu'].
      rewrite app_nil_r in Hnd, Hlt |- *. split; [done|].
      by apply (grow_pending (expenses s)); [|eapply serve_grow|..].
  - pose proof (sync_step_wf (expenses s) th P Hd Hnd Hlt) as Hs.
    destruct (sync_step _ _) as [d' th']. destruct Hs as (? & ? & ?). done.
Qed.

Lemma sstep_at_wf env s i : sstate_wf s -> sstate_wf (sstep_at env s i).
Proof.
  unfold sstep_at. destruct (inflight s !! i) as [p|] eqn:Hi; [|done].
  destruct s as [a ts]. simpl in *. intros (Hwf & Hnd & Hlt).
  pose proof (flat_map_insert rpending ts i p) as Hfm.
  pose proof (req_step_wf env a p (flat_map rpending (delete i ts)) Hwf) as Hs.
  destruct (req_step env a p) as [a' p']. destruct (Hfm p' Hi) as [H1 H2].
  rewrite H1 in Hnd, Hlt. unfold sstate_wf. simpl. rewrite H2. by apply Hs.
Qed.

(** *** Isolation *)

(** No step makes a request arrive. *)
Lemma req_step_not_arrived env a p rq : (req_step env a p).2 <> Arrived rq.
Proof.
  destruct p as [rq'|th|r|rq']; cbn [req_step]; try discriminate.
  - destruct (sync_request rq') as [[uid body]|].
    + destruct (sync_step (expenses a) (Received uid body)); discriminate.
    + destruct (serve env a rq') as [[]|]; discriminate.
  - destruct (sync_step (expenses a) th); discriminate.
Qed.

Lemma sstep_at_arrived env s j rq : Arrived rq ∈ inflight (sstep_at env s j) -> Arrived rq ∈ inflight s.
Proof.
  unfold sstep_at. destruct (inflight s !! j) as [p|] eqn:Hj; [|done].
  pose proof (req_step_not_arrived env (sapp s) p rq) as Hna.
  destruct (req_step env (sapp s) p) as [a' p']. simpl in *.
  intros (k & Hk)%list_elem_of_lookup. apply list_lookup_insert_Some in Hk as [(_ & -> & _)|(_ & Hk)];
    [done|by eapply list_elem_of_lookup_2].
Qed.

(** A step keeps every expense of a user other than the one whose
    request it serves. *)
Lemma req_step_keeps env a p x :
  db_wf (expenses a) -> In x (docs (expenses a)) ->
  (forall rq u, p = Arrived rq -> auth_user (rq_token rq) = Some u -> userId x <> u) ->
  In x (docs (expenses (req_step env a p).1)).
Proof.
  intros Hwf Hx Ha. destruct p as [rq|th|r|rq]; cbn [req_step]; [|..|done|done].
  - destruct (sync_request rq) as [[uid body]|].
    + pose proof (sync_step_prefix (expenses a) (Received uid body)).
      destruct (sync_step _ _). by eapply prefix_In.
    + destruct (serve env a rq) as [[a' r]|] eqn:Hs; [|done]. simpl. revert Hs. unfold serve.
      destruct (dispatch _ _) as [|h [] ps|]; try (intros [= <- _]; done).
      * destruct (auth_user _) as [uid|] eqn:Hu; [|intros [= <- _]; done].
        intros Hh. by apply (expense_handler_keeps_others _ _ _ _ _ _ _ _ Hwf Hh Hx), (Ha rq).
      * intros (-> & _)%open_handler_state. done.
  - pose proof (sync_step_prefix (expenses a) th). destruct (sync_step _ _). by eapply prefix_In.
Qed.

End ServerLemmas.

(** ** Properties *)

Section ServerProperties.
Context `{dp : DateParse} `{oc : ObjectIdCast} `{bc : Bcrypt} `{jw : JwtSign}
        `{uf : UndefinedFilter} `{av : AuthVerify}.

(** C34. Under every schedule of any requests in flight (syncs
    interleaved document by document, every other request atomic), both
    collections keep their invariants (one expense per user and date,
    distinct expense ids below the counter, unique emails), and the ids
    the pending documents have taken stay distinct from all others. *)
Theorem interleaving_preserves_wf env s sched : sstate_wf s -> sstate_wf (run_server env s sched).
Proof.
  unfold run_server. revert s; induction sched as [|i sched IH]; intros s Hs; [done|].
  simpl. by apply IH, sstep_at_wf.
Qed.

(** C35. Isolation under interleaving: under every schedule, an expense
    stays stored when no request in flight carries a token of its owner
    (syncs already past their first [await] included: they never remove
    anything). *)
Theorem interleaving_isolation env s sched x :
  sstate_wf s -> In x (docs (expenses (sapp s))) ->
  (forall rq u, Arrived rq ∈ inflight s -> auth_user (rq_token rq) = Some u -> userId x <> u) ->
  In x (docs (expenses (sapp (run_server env s sched)))).
Proof.
  unfold run_server. revert s; induction sched as [|j sched IH]; intros s Hwf Hx Ha; [done|].
  simpl. apply IH; [by apply sstep_at_wf| |intros rq u Hin; apply Ha; by eapply sstep_at_arrived].
  unfold sstep_at. destruct (inflight s !! j) as [p|] eqn:Hj; [|done].
  pose proof (req_step_keeps env (sapp s) p x (proj1 (proj1 Hwf)) Hx) as Hk.
  destruct (req_step env (sapp s) p) as [a' p']. apply Hk.
  intros rq u -> Hu. apply (Ha rq u); [by eapply list_elem_of_lookup_2|done].
Qed.

(** C36. A write between a sync's query and its [insertMany]: when a
    request other than a sync, served after the sync has queried, stores
    an expense of the sync's user at the date of the sync's one new
    transaction, the sync's insertion hits the unique index and the sync
    is answered 500, having written nothing (only the ObjectId it
    reserved is used up). *)
Theorem write_during_sync_fails env s rq1 rq2 uid body t x s2 r2 :
  sync_request rq1 = Some (uid, body) -> sync_request rq2 = None ->
  prop body "transactions" = Some (JArr [t]) -> date_getTime (prop t "timestamp") = Some x ->
  stored_at (expenses s) uid x = false -> doc_valid (build_doc uid t) = true ->
  serve env s rq2 = Some (s2, r2) -> stored_at (expenses s2) uid x = true ->
  run_server env (mkSState s [Arrived rq1; Arrived rq2]) [0; 1; 0; 0] =
    mkSState (mkState (mkDb (docs (expenses s2)) (S (next_oid (expenses s2)))) (userdb s2))
             [Syncing (Answered sync_error); Replied r2].
Proof.
  intros Hq1 Hq2 Hp Hx Hns Hv Hs2 Hst. destruct s as [d u]. simpl in Hns.
  assert (Hnn : Forall (fun t => t <> JNull) [t]) by (repeat constructor; by eapply doc_valid_not_null).
  pose proof (is_entered_stored d uid [t] t ltac:(simpl; auto)) as He. rewrite Hx, Hns in He.
  destruct (cast_expense_valid (next_oid (expenses s2)) _ Hv) as [e Hc].
  pose proof (cast_expense_fields _ _ _ Hc) as (_ & Hu & Hd). simpl in Hu, Hd.
  rewrite Hx in Hd. injection Hd as Hd.
  assert (Hdup : insert_one (mkDb (docs (expenses s2)) (S (next_oid (expenses s2)))) e = Err DuplicateKey).
  { apply insert_one_taken. simpl. unfold ukey. rewrite Hu, <- Hd. by apply stored_at_ukey. }
  unfold run_server. cbn [fold_left]. unfold sstep_at. cbn [inflight sapp lookup list_lookup req_step].
  rewrite Hq1. cbn [sync_step expenses userdb]. rewrite (sync_query_array _ _ _ _ Hp Hnn).
  cbn [inflight sapp lookup list_lookup req_step insert list_insert]. rewrite Hq2, Hs2.
  cbn [inflight sapp lookup list_lookup req_step insert list_insert sync_step expenses userdb].
  rewrite (sync_prepare_one _ _ _ _ _ He Hc).
  cbn [inflight sapp lookup list_lookup req_step insert list_insert sync_step insert_next expenses userdb].
  by rewrite Hdup.
Qed.

End ServerProperties.

(** ** Examples *)

Module ServerExamples.

#[local] Existing Instance date_parse_none.
#[local] Existing Instance oid_decimal.
#[local] Existing Instance bcrypt_plain.
#[local] Existing Instance jwt_show.
#[local] Existing Instance undefined_as_null.
#[local] Existing Instance auth_decimal.

(** User 7 has one expense, at 15 March 2024; a sync of one SMS and an
    update of that expense come in from two connections. *)
Local Abbreviation tA := 1710460800000%Z.
Local Abbreviation tB := 1710547200000%Z.
Local Abbreviation e0 := (mkExpense 0 7 "debit" 50 None tA None (Some "Unknown") None None).
Local Abbreviation a0 := (mkState (mkDb [e0] 1) (mkUdb [] 0)).
Local Abbreviation rq_sync t := (mkRequest POST ["api"; "v1"; "expenses"; "sync"] (Some "7")
  (JObj [("transactions", JArr [JObj [("timestamp", JNum t); ("amount", JNum 50)]])])).
Local Abbreviation rq_move := (mkRequest PUT ["api"; "v1"; "expenses"; "0"] (Some "7")
  (JObj [("date", JNum tB)])).
Local Abbreviation rq_other := (mkRequest DELETE ["api"; "v1"; "expenses"; "0"] (Some "8") (JObj [])).
Local Abbreviation s0 := (mkSState a0 [Arrived (rq_sync tB); Arrived rq_move; Arrived rq_other]).

Lemma interleaving_preserves_wf_witness :
  sstate_wf s0 /\ sstate_wf (run_server None s0 [0; 1; 2; 0; 0; 0]).
Proof.
  assert (H : sstate_wf s0) by (apply (bool_decide_unpack _); vm_compute; exact I).
  split; [exact H|]. apply interleaving_preserves_wf. exact H.
Defined.

(** User 8's delete of user 7's expense leaves it stored, under any
    schedule; here the sync and the update of user 7 are not in flight. *)
Lemma interleaving_isolation_witness :
  In e0 (docs (expenses (sapp (run_server None (mkSState a0 [Arrived rq_other]) [0; 0])))).
Proof.
  apply interleaving_isolation.
  - apply (bool_decide_unpack _). vm_compute. exact I.
  - simpl. auto.
  - intros rq u Hin%list_elem_of_singleton Hu. injection Hin as ->. vm_compute in Hu.
    injection Hu as <-. discriminate.
Defined.

Local Abbreviation e0' := (mkExpense 0 7 "debit" 50 None tB None (Some "Unknown") None None).

Lemma write_during_sync_fails_witness :
  run_server None (mkSState a0 [Arrived (rq_sync tB); Arrived rq_move]) [0; 1; 0; 0] =
    mkSState (mkState (mkDb [e0'] 2) (mkUdb [] 0))
             [Syncing (Answered sync_error); Replied (Resp 200 (ApiCrud (CrudExpense e0')))].
Proof.
  apply (write_during_sync_fails None a0 (rq_sync tB) rq_move 7
           (JObj [("transactions", JArr [JObj [("timestamp", JNum tB); ("amount", JNum 50)]])])
           (JObj [("timestamp", JNum tB); ("amount", JNum 50)]) tB
           (mkState (mkDb [e0'] 1) (mkUdb [] 0)) (Resp 200 (ApiCrud (CrudExpense e0'))));
    vm_compute; reflexivity.
Defined.

(** An update that moves the expense to the SMS's date between the
    sync's query and its [insertMany]: the sync is answered 500, and no
    order of the two requests one after the other answers that (update
    first: the sync finds the date taken and answers 201; sync first:
    the update hits the unique index and answers 400). *)
Example update_during_sync_not_serial :
  let s := run_server None (mkSState a0 [Arrived (rq_sync tB); Arrived rq_move]) [0; 1; 0; 0; 0] in
  map (option_map status ∘ answer) (inflight s) = [Some 500%Z; Some 200%Z] /\
  option_map (map status) (snd <$> serve_all None a0 [rq_move; rq_sync tB]) = Some [200%Z; 201%Z] /\
  option_map (map status) (snd <$> serve_all None a0 [rq_sync tB; rq_move]) = Some [201%Z; 400%Z].
Proof. vm_compute. repeat split. Qed.

End ServerExamples.
